(** * AzureLens backend: request validation, error mapping, response
    reshaping and chat prompt assembly.

    The development embeds the Express backend under [backend/src]:
    - [middleware/errorHandler.js], [middleware/validation.js];
    - [routes/translation.js], [routes/vision.js], [routes/chat.js];
    - [services/enhancedVisionService.js], [services/storageService.js];
    - [config/azure.js] and the middleware wiring of [index.js].

    JavaScript strings are modelled by [string], one character per code
    unit, for the code units below 256 (the emoji in the string literals
    of the prompts are written as their UTF-8 bytes); numbers by
    rationals [Q] (every finite double is one); JSON data, from the cloud services and from
    the clients, by the untyped tree [value]. The chat routes are
    embedded on the records that the client interface [AnalysisResults]
    declares, which is the body a client of that interface sends; the
    functions that build the context and the suggestions, and the
    suggestions route, are embedded on [value] as well, as they run on
    any JSON body. *)

From Stdlib Require Import String Ascii List ZArith QArith Bool Lia DecimalString.
Import ListNotations.
Local Close Scope Q_scope.
Local Open Scope list_scope.
Local Open Scope string_scope.
Local Open Scope Z_scope.

Set Implicit Arguments.
Set Warnings "-register-all".

(* ================================================================== *)
(** * JavaScript strings *)
(* ================================================================== *)

Module JsString.

(** ["\n"] and the double-quote character. *)
Definition nl : string := String "010"%char EmptyString.
Definition dquote : string := String "034"%char EmptyString.

(** [s.startsWith(p)] *)
Fixpoint startsWith (s p : string) {struct p} : bool :=
  match p with
  | EmptyString => true
  | String a p' =>
      match s with
      | String b s' => Ascii.eqb a b && startsWith s' p'
      | EmptyString => false
      end
  end.

(** [s.includes(p)] *)
Definition includes (s p : string) : bool :=
  match String.index 0 p s with
  | Some _ => true
  | None => match p with EmptyString => true | _ => false end
  end.

(** [s.split(c)] for a one-character separator: never the empty list. *)
Fixpoint split_aux (c : ascii) (s : string) (cur : string) : list string :=
  match s with
  | EmptyString => [cur]
  | String a rest =>
      if Ascii.eqb a c then cur :: split_aux c rest EmptyString
      else split_aux c rest (cur ++ String a EmptyString)
  end.

Definition split (c : ascii) (s : string) : list string :=
  split_aux c s EmptyString.

(** White space removed by [trim]: the members below 256 of the
    ECMAScript WhiteSpace and LineTerminator sets, that is TAB, LF, VT,
    FF, CR (9 to 13), SP (32) and NBSP (160). *)
Definition is_space (a : ascii) : bool :=
  let n := nat_of_ascii a in
  (n =? 32)%nat || ((9 <=? n)%nat && (n <=? 13)%nat) || (n =? 160)%nat.

Fixpoint trimStart (s : string) : string :=
  match s with
  | EmptyString => EmptyString
  | String a rest => if is_space a then trimStart rest else s
  end.

Fixpoint trimEnd (s : string) : string :=
  match s with
  | EmptyString => EmptyString
  | String a rest =>
      match trimEnd rest with
      | EmptyString => if is_space a then EmptyString else String a EmptyString
      | r => String a r
      end
  end.

Definition trim (s : string) : string := trimEnd (trimStart s).

(** [s.toLowerCase()] on the ASCII letters. *)
Definition lower (a : ascii) : ascii :=
  let n := nat_of_ascii a in
  if (65 <=? n)%nat && (n <=? 90)%nat then ascii_of_nat (n + 32) else a.

Fixpoint toLowerCase (s : string) : string :=
  match s with
  | EmptyString => EmptyString
  | String a rest => String (lower a) (toLowerCase rest)
  end.

(** [path.extname(p)] (POSIX, as in the container the backend runs
    in): trailing slashes are ignored; the extension runs from the last
    dot of the last path segment to its end, and is empty when that
    segment has no dot, when its last dot is its first character, and
    when the segment is [..]. *)
Fixpoint strip_slashes (s : string) : string :=
  match s with
  | EmptyString => EmptyString
  | String a rest =>
      match strip_slashes rest with
      | EmptyString => if Ascii.eqb a "/" then EmptyString else String a EmptyString
      | r => String a r
      end
  end.

Fixpoint last_segment (s cur : string) : string :=
  match s with
  | EmptyString => cur
  | String a rest =>
      if Ascii.eqb a "/" then last_segment rest EmptyString
      else last_segment rest (cur ++ String a EmptyString)
  end.

(** The extension of [s], given that [seen] characters came before. *)
Fixpoint ext_from (s : string) (seen : bool) : string :=
  match s with
  | EmptyString => EmptyString
  | String a rest =>
      match ext_from rest true with
      | EmptyString => if Ascii.eqb a "." && seen then s else EmptyString
      | e => e
      end
  end.

Definition extname (p : string) : string :=
  let segment := last_segment (strip_slashes p) EmptyString in
  if String.eqb segment ".." then EmptyString else ext_from segment false.

(** [arr.join(sep)] on an array of strings. *)
Definition join (sep : string) (l : list string) : string :=
  String.concat sep l.

(** [arr.includes(x)] on an array of strings. *)
Definition mem (x : string) (l : list string) : bool :=
  existsb (String.eqb x) l.

(** [table[k]] for an object literal with string values. *)
Fixpoint assoc (k : string) (table : list (string * string)) : option string :=
  match table with
  | [] => None
  | (k', v) :: rest => if String.eqb k k' then Some v else assoc k rest
  end.

(** A string is truthy when it is not empty. *)
Definition truthy (s : string) : bool :=
  match s with EmptyString => false | _ => true end.

End JsString.

Import JsString.

(* ================================================================== *)
(** * The Node runtime *)
(* ================================================================== *)

(** [Buffer]: a byte array. *)
Definition Buffer : Type := list Byte.byte.

(** [Math.round(n / 1024)] for a non-negative integer [n]. *)
Definition round_div_1024 (n : Z) : Z := (n + 512) / 1024.

(* ================================================================== *)
(** * Untyped JavaScript data *)
(* ================================================================== *)

Module Js.

Inductive value : Type :=
| VUndef
| VNull
| VBool (b : bool)
| VNum (q : Q)
| VStr (s : string)
| VArr (items : list value)
| VObj (fields : list (string * value)).

(** Evaluation either yields a value or throws. *)
Inductive result (E A : Type) : Type :=
| Ok (a : A)
| Throw (e : E).
Arguments Ok {E A} a.
Arguments Throw {E A} e.

(** ToBoolean *)
Definition truthy (v : value) : bool :=
  match v with
  | VUndef | VNull => false
  | VBool b => b
  | VNum q => negb (Qnum q =? 0)%Z
  | VStr s => JsString.truthy s
  | VArr _ | VObj _ => true
  end.

(** [a || b] *)
Definition or_else (a b : value) : value := if truthy a then a else b.

Definition nullish (v : value) : bool :=
  match v with VUndef | VNull => true | _ => false end.

Fixpoint lookup (k : string) (fields : list (string * value)) : value :=
  match fields with
  | [] => VUndef
  | (k', v) :: rest => if String.eqb k k' then v else lookup k rest
  end.

(** [v?.k]: [undefined] on [null] and [undefined], the own property of
    an object, and [undefined] on the other values for the data keys the
    backend reads. Two keys that it reads are inherited by other values
    and have definitions of their own: [length] ([length_prop]) and
    [values], a method of arrays ([Vision.values_map]). *)
Definition oget (v : value) (k : string) : value :=
  match v with
  | VObj fields => lookup k fields
  | _ => VUndef
  end.

(** [v.k]: as [v?.k] but a TypeError on [null] and [undefined]. *)
Definition get (v : value) (k : string) : result string value :=
  if nullish v then Throw ("TypeError: Cannot read properties of undefined (reading '" ++ k ++ "')")
  else Ok (oget v k).

(** [v?.[0]] *)
Definition ofirst (v : value) : value :=
  match v with
  | VArr (x :: _) => x
  | VStr (String a _) => VStr (String a EmptyString)
  | VObj fields => lookup "0" fields
  | _ => VUndef
  end.

(** [v[0]]: as [v?.[0]] but a TypeError on [null] and [undefined]. *)
Definition index0 (v : value) : result string value :=
  if nullish v then Throw "TypeError: Cannot read properties of undefined (reading '0')"
  else Ok (ofirst v).

(** Keys of an object, in insertion order. *)
Definition keys (v : value) : list string :=
  match v with
  | VObj fields => map fst fields
  | _ => []
  end.

Fixpoint mapM {E A B : Type} (f : A -> result E B) (l : list A) : result E (list B) :=
  match l with
  | [] => Ok []
  | a :: rest =>
      match f a with
      | Throw e => Throw e
      | Ok b => match mapM f rest with
                | Throw e => Throw e
                | Ok bs => Ok (b :: bs)
                end
      end
  end.

Definition rbind {E A B : Type} (m : result E A) (k : A -> result E B) : result E B :=
  match m with
  | Ok a => k a
  | Throw e => Throw e
  end.

(** [v.map(f)]: a TypeError unless the receiver is an array. *)
Definition map_strict (v : value) (f : value -> result string value) : result string value :=
  match v with
  | VArr items => rbind (mapM f items) (fun items' => Ok (VArr items'))
  | _ => Throw "TypeError: map is not a function"
  end.

(** One level of flattening, as [flatMap] does after mapping. *)
Fixpoint flatten (items : list value) : list value :=
  match items with
  | [] => []
  | VArr inner :: rest => (inner ++ flatten rest)%list
  | x :: rest => x :: flatten rest
  end.

(** [Object.keys(v)]: a TypeError on [null] and [undefined]. *)
Definition object_keys (v : value) : result string (list string) :=
  if nullish v then Throw "TypeError: Cannot convert undefined or null to object"
  else Ok (keys v).

(** [v?.map(f)]: [undefined] on a nullish receiver, the mapped array on
    an array, and a TypeError on anything else (no [map] method). *)
Definition omap (v : value) (f : value -> result string value) : result string value :=
  match v with
  | VUndef | VNull => Ok VUndef
  | VArr items =>
      match mapM f items with
      | Ok items' => Ok (VArr items')
      | Throw e => Throw e
      end
  | _ => Throw "TypeError: map is not a function"
  end.

(** An object has the own property [k]. *)
Definition own (k : string) (v : value) : bool :=
  match v with
  | VObj fields => existsb (fun kv => String.eqb k (fst kv)) fields
  | _ => false
  end.

(** [v.length] on a value that is not nullish: the length of an array
    or a string, the own property of an object, [undefined] on a number
    or a boolean. *)
Definition length_prop (v : value) : value :=
  match v with
  | VArr items => VNum (inject_Z (Z.of_nat (List.length items)))
  | VStr s => VNum (inject_Z (Z.of_nat (String.length s)))
  | VObj fields => lookup "length" fields
  | _ => VUndef
  end.

(** Primitives of the runtime that the backend uses without being part
    of it: the rendering of a number inside a template literal
    ([Number.prototype.toString]); [Number(s) > n] for a string [s];
    [Buffer.from(v, 'base64')] and [JSON.parse(v)], which yield a result
    or throw; and [buffer.toString('base64')]. *)
Class Runtime : Type := {
  Number_toString : Q -> string;
  String_gt : string -> Z -> bool;
  Buffer_from_base64 : value -> option Buffer;
  Buffer_toString_base64 : Buffer -> string;
  JSON_parse : value -> option value
}.

Section WithRuntime.
Context {rt : Runtime}.

(** ToString, as applied by template literals and by [join], on JSON
    data, with its failure: an object with an own property [toString] has no callable [toString] (a JSON value is no
    function) and its inherited [valueOf] yields the object itself, so
    the conversion is a TypeError; an array is joined by commas, with
    the same conversion of its entries. *)
Fixpoint ToString (v : value) : result string string :=
  match v with
  | VUndef => Ok "undefined"
  | VNull => Ok "null"
  | VBool true => Ok "true"
  | VBool false => Ok "false"
  | VNum q => Ok (Number_toString q)
  | VStr s => Ok s
  | VArr items =>
      match
        (fix each (l : list value) : result string (list string) :=
           match l with
           | [] => Ok []
           | x :: rest =>
               match (if nullish x then Ok EmptyString else ToString x) with
               | Throw e => Throw e
               | Ok part =>
                   match each rest with
                   | Throw e => Throw e
                   | Ok parts => Ok (part :: parts)
                   end
               end
           end) items
      with
      | Throw e => Throw e
      | Ok parts => Ok (JsString.join "," parts)
      end
  | VObj fields =>
      if own "toString" v
      then Throw "TypeError: Cannot convert object to primitive value"
      else Ok "[object Object]"
  end.

(** [v.join(sep)]: a TypeError unless the receiver is an array. *)
Definition join_strict (v : value) (sep : string) : result string string :=
  match v with
  | VArr items =>
      rbind (mapM (fun x => if nullish x then Ok EmptyString else ToString x) items)
            (fun parts => Ok (JsString.join sep parts))
  | _ => Throw "TypeError: join is not a function"
  end.

(** [v > n] for an integer literal [n]: the comparison of ToNumber of
    [v] with [n]. [undefined] becomes NaN, which is greater than
    nothing; an array or an object is converted to a string first. *)
Definition gt (v : value) (n : Z) : result string bool :=
  match v with
  | VUndef => Ok false
  | VNull => Ok (n <? 0)
  | VBool b => Ok (n <? (if b then 1 else 0))
  | VNum q => Ok (negb (Qle_bool q (inject_Z n)))
  | VStr s => Ok (String_gt s n)
  | VArr _ | VObj _ => rbind (ToString v) (fun s => Ok (String_gt s n))
  end.

End WithRuntime.

End Js.

Import Js.

(* ================================================================== *)
(** * The server: configuration, module state and outside services *)
(* ================================================================== *)

(** [process.env], for the variables the backend reads. *)
Record ProcessEnv : Type := {
  NODE_ENV : option string;
  VISION_ENDPOINT : option string;
  VISION_API_KEY : option string;
  TRANSLATOR_API_KEY : option string;
  OPENAI_ENDPOINT : option string;
  OPENAI_API_KEY : option string;
  STORAGE_CONNECTION_STRING : option string;
  KEY_VAULT_URL : option string
}.

(** An environment variable is truthy when set to a non-empty string. *)
Definition env_truthy (v : option string) : bool :=
  match v with Some s => JsString.truthy s | None => false end.

Definition env_is (v : option string) (s : string) : bool :=
  match v with Some s' => String.eqb s' s | None => false end.

(** [config/azure.js]: [let azureClients = {}], one flag per client that
    [initializeAzureClients] has created. *)
Record AzureClients : Type := {
  vision : bool;
  translator : bool;
  openai : bool;
  blobService : bool;
  keyVault : bool
}.

Definition noClients : AzureClients :=
  {| vision := false; translator := false; openai := false;
     blobService := false; keyVault := false |}.

(** [azureConfig], the constants of [config/azure.js]. *)
Module azureConfig.
Definition vision_visualFeatures : list string :=
  ["Caption"; "DenseCaptions"; "Objects"; "People"; "Read"; "SmartCrops"; "Tags"].
Definition translator_defaultTargetLanguage : string := "en".
Definition openai_deploymentName : string := "gpt-4o".
Definition openai_maxTokens : Z := 4000.
Definition openai_temperature : Q := 7 # 10.
Definition storage_containerName : string := "images".
End azureConfig.

(** Everything a request can observe or change inside the process. *)
Record Server : Type := {
  process_env : ProcessEnv;
  azureClients : AzureClients
}.

(** A thrown JavaScript error: the properties the handlers read.
    [response] is set on the errors of the HTTP client when the service
    answered with an error status. *)
Record JsError : Type := {
  name : value;
  code : value;
  type : value;
  message : string;
  stack : value;
  details : value;
  response : option (Z * value)
}.

(** [new Error(msg)] and a TypeError raised by the runtime. *)
Definition Error (msg : string) : JsError :=
  {| name := VStr "Error"; code := VUndef; type := VUndef; message := msg;
     stack := VUndef; details := VUndef; response := None |}.

Definition TypeError (msg : string) : JsError :=
  {| name := VStr "TypeError"; code := VUndef; type := VUndef; message := msg;
     stack := VUndef; details := VUndef; response := None |}.

(** A chat message as sent to the completion API. *)
Record Message : Type := { role : string; content : string }.

(** Requests that leave the process, and log lines. *)
Inductive call : Type :=
| VisionAnalyze (features : list string) (language : string) (image : Buffer)
| OpenAIChat (messages : list Message) (max_tokens : Z) (temperature : Q)
| OpenAIVision (prompt imageUrl : string)
| TranslatorTranslate (text to : value) (from : option value)
| TranslatorLanguages
| BlobUpload (container blobName contentType : string) (image : Buffer)
| Logged (level message : string).

(** What the world outside the process answers. *)
Record Outside : Type := {
  clock : string;
  clock_ms : Z;
  random_hex : string;
  vision_service : list string -> string -> Buffer -> result JsError value;
  openai_service : list Message -> result JsError value;
  openai_vision_service : string -> string -> result JsError value;
  translator_service : value -> value -> option value -> result JsError value;
  translator_languages : result JsError value;
  blob_service : string -> string -> Buffer -> result JsError string
}.

(** ** The handler monad: reads the outside, threads the server state,
    records the calls made, and may throw. *)
Definition M (A : Type) : Type :=
  Outside -> Server -> (result JsError A * Server * list call).

Definition ret {A : Type} (a : A) : M A := fun _ s => (Ok a, s, []).

Definition bind {A B : Type} (m : M A) (k : A -> M B) : M B :=
  fun o s =>
    match m o s with
    | (Ok a, s1, t1) =>
        match k a o s1 with
        | (r, s2, t2) => (r, s2, (t1 ++ t2)%list)
        end
    | (Throw e, s1, t1) => (Throw e, s1, t1)
    end.

Definition throw {A : Type} (e : JsError) : M A := fun _ s => (Throw e, s, []).

(** [try { m } catch (e) { h e }] *)
Definition try_catch {A : Type} (m : M A) (h : JsError -> M A) : M A :=
  fun o s =>
    match m o s with
    | (Ok a, s1, t1) => (Ok a, s1, t1)
    | (Throw e, s1, t1) =>
        match h e o s1 with
        | (r, s2, t2) => (r, s2, (t1 ++ t2)%list)
        end
    end.

Definition outside : M Outside := fun o s => (Ok o, s, []).
Definition server : M Server := fun _ s => (Ok s, s, []).
Definition set_server (s' : Server) : M unit := fun _ _ => (Ok tt, s', []).
Definition emit (c : call) : M unit := fun _ s => (Ok tt, s, [c]).

(** Lift a pure computation that may throw a TypeError. *)
Definition lift {A : Type} (r : result string A) : M A :=
  match r with
  | Ok a => ret a
  | Throw msg => throw (TypeError msg)
  end.

(** Await an outside service: the request is recorded, the answer comes
    from the outside. *)
Definition await {A : Type} (c : call) (answer : Outside -> result JsError A) : M A :=
  fun o s => (answer o, s, [c]).

Declare Scope result_scope.
Delimit Scope result_scope with res.
Notation "x <- m ;; k" := (rbind m (fun x => k))
  (at level 61, m at next level, right associativity) : result_scope.

Declare Scope handler_scope.
Delimit Scope handler_scope with handler.
Notation "x <- m ;; k" := (bind m (fun x => k))
  (at level 61, m at next level, right associativity) : handler_scope.
Notation "m ;;; k" := (bind m (fun _ => k))
  (at level 61, right associativity) : handler_scope.
Local Open Scope handler_scope.

Definition getAzureClients : M AzureClients :=
  s <- server ;; ret (azureClients s).

Definition getenv (var : ProcessEnv -> option string) : M (option string) :=
  s <- server ;; ret (var (process_env s)).

Definition now : M string := o <- outside ;; ret (clock o).

(** [logger.info] and friends: the line is recorded with its level and
    message, the metadata object is not. *)
Definition logger_info (msg : string) : M unit := emit (Logged "info" msg).
Definition logger_warn (msg : string) : M unit := emit (Logged "warn" msg).
Definition logger_error (msg : string) : M unit := emit (Logged "error" msg).

(** The constructors of the SDK clients. [initializeAzureClients] calls
    them with values of the environment; each one returns a client or
    throws (on a malformed endpoint, URL or connection string). *)
Record Sdk : Type := {
  DefaultAzureCredential : result JsError unit;
  ComputerVisionClient : option string -> option string -> result JsError unit;
  TextTranslationClient : option string -> result JsError unit;
  OpenAI : option string -> option string -> result JsError unit;
  BlobServiceClient_fromConnectionString : option string -> result JsError unit;
  SecretClient : option string -> result JsError unit
}.

(** [new C(...)]: the client, or the error of the constructor. *)
Definition construct (r : result JsError unit) : M unit :=
  match r with
  | Ok _ => ret tt
  | Throw e => throw e
  end.

(** [azureClients.x = client]: the other clients stay as they are. *)
Definition set_client (f : AzureClients -> AzureClients) : M unit :=
  s <- server ;;
  set_server {| process_env := process_env s; azureClients := f (azureClients s) |}.

Definition with_vision (c : AzureClients) : AzureClients :=
  {| vision := true; translator := translator c; openai := openai c;
     blobService := blobService c; keyVault := keyVault c |}.
Definition with_translator (c : AzureClients) : AzureClients :=
  {| vision := vision c; translator := true; openai := openai c;
     blobService := blobService c; keyVault := keyVault c |}.
Definition with_openai (c : AzureClients) : AzureClients :=
  {| vision := vision c; translator := translator c; openai := true;
     blobService := blobService c; keyVault := keyVault c |}.
Definition with_blobService (c : AzureClients) : AzureClients :=
  {| vision := vision c; translator := translator c; openai := openai c;
     blobService := true; keyVault := keyVault c |}.
Definition with_keyVault (c : AzureClients) : AzureClients :=
  {| vision := vision c; translator := translator c; openai := openai c;
     blobService := blobService c; keyVault := true |}.

(** [initializeAzureClients]: the one writer of the module state. A
    client is created when its variables are set; an error of a
    constructor is logged and thrown again, and the clients created
    before it stay. *)
Definition initializeAzureClients (sdk : Sdk) : M unit :=
  try_catch
    (logger_info "Initializing Azure clients..." ;;;
     construct (DefaultAzureCredential sdk) ;;;
     s <- server ;;
     let e := process_env s in
     (if env_truthy (VISION_ENDPOINT e) && env_truthy (VISION_API_KEY e) then
        construct (ComputerVisionClient sdk (VISION_API_KEY e) (VISION_ENDPOINT e)) ;;;
        set_client with_vision ;;;
        logger_info "Vision client initialized"
      else ret tt) ;;;
     (if env_truthy (TRANSLATOR_API_KEY e) then
        construct (TextTranslationClient sdk (TRANSLATOR_API_KEY e)) ;;;
        set_client with_translator ;;;
        logger_info "Translator client initialized"
      else ret tt) ;;;
     (if env_truthy (OPENAI_ENDPOINT e) && env_truthy (OPENAI_API_KEY e) then
        construct (OpenAI sdk (OPENAI_API_KEY e) (OPENAI_ENDPOINT e)) ;;;
        set_client with_openai ;;;
        logger_info "OpenAI client initialized"
      else ret tt) ;;;
     (if env_truthy (STORAGE_CONNECTION_STRING e) then
        construct (BlobServiceClient_fromConnectionString sdk (STORAGE_CONNECTION_STRING e)) ;;;
        set_client with_blobService ;;;
        logger_info "Blob Storage client initialized"
      else ret tt) ;;;
     (if env_truthy (KEY_VAULT_URL e) then
        construct (SecretClient sdk (KEY_VAULT_URL e)) ;;;
        set_client with_keyVault ;;;
        logger_info "Key Vault client initialized"
      else ret tt) ;;;
     logger_info "All Azure clients initialized successfully")
    (fun error =>
       logger_error "Failed to initialize Azure clients:" ;;;
       throw error).

(** The calls to outside services in a trace, log lines left out. *)
Definition is_log (c : call) : bool :=
  match c with Logged _ _ => true | _ => false end.

Definition service_calls (t : list call) : list call :=
  filter (fun c => negb (is_log c)) t.

Definition run {A : Type} (m : M A) (o : Outside) (s : Server) : result JsError A :=
  fst (fst (m o s)).
Definition final_state {A : Type} (m : M A) (o : Outside) (s : Server) : Server :=
  snd (fst (m o s)).
Definition trace {A : Type} (m : M A) (o : Outside) (s : Server) : list call :=
  snd (m o s).

(** The parts of an Express request that the backend reads, after the
    body parsers have run. [baseUrl] is the mount point of the router
    that serves the request and [path] the rest of the path. For a
    multipart request, [fields] is the object that multer builds from
    the text fields of the body and [upload] is its file part, as they
    arrive; [file] is [req.file], set by the upload middleware. *)
Record UploadedFile : Type := {
  fieldname : string;
  originalname : string;
  mimetype : string;
  size : Z;
  buffer : Buffer
}.

Record Request (B : Type) : Type := {
  method : string;
  url : string;
  path : string;
  baseUrl : string;
  ip : string;
  content_type : option string;
  id : value;
  fields : value;
  upload : option UploadedFile;
  file : option UploadedFile;
  body : B
}.

Definition with_file {B : Type} (req : Request B) (f : UploadedFile) : Request B :=
  {| method := method req; url := url req; path := path req;
     baseUrl := baseUrl req; ip := ip req;
     content_type := content_type req; id := id req; fields := fields req;
     upload := upload req; file := Some f; body := body req |}.

(** [req.body = b] *)
Definition with_body {B C : Type} (req : Request B) (b : C) : Request C :=
  {| method := method req; url := url req; path := path req;
     baseUrl := baseUrl req; ip := ip req;
     content_type := content_type req; id := id req; fields := fields req;
     upload := upload req; file := file req; body := b |}.

(** [res.status(st).json(b)] and [res.json(b)] *)
Record Response : Type := { statusCode : Z; jsonBody : value }.

Definition res_json (b : value) : Response := {| statusCode := 200; jsonBody := b |}.
Definition res_status_json (st : Z) (b : value) : Response :=
  {| statusCode := st; jsonBody := b |}.

(** What a middleware does with a request: answer it, pass it on with
    [next()], or pass an error with [next(err)]. *)
Inductive Step (B : Type) : Type :=
| Responded (res : Response)
| Next (req : Request B)
| NextError (err : JsError).
Arguments Responded {B} res.
Arguments Next {B} req.
Arguments NextError {B} err.

(** [v === 'literal'] and [v === n] *)
Definition strict_eq_str (v : value) (s : string) : bool :=
  match v with VStr s' => String.eqb s' s | _ => false end.

Definition strict_eq_num (v : value) (n : Z) : bool :=
  match v with VNum q => Qeq_bool q (inject_Z n) | _ => false end.

Definition VInt (n : Z) : value := VNum (inject_Z n).

(* ================================================================== *)
(** * middleware/errorHandler.js *)
(* ================================================================== *)

Module ErrorHandler.

(** The local [error] object of [errorHandler]. *)
Record ErrorInfo : Type := {
  error_status : Z;
  error_message : string;
  error_details : value
}.

Definition mkError (st : Z) (msg : string) : ErrorInfo :=
  {| error_status := st; error_message := msg; error_details := VUndef |}.

(** The first [if / else if] chain, on names, types and library codes. *)
Definition specific_error (err : JsError) (error : ErrorInfo) : ErrorInfo :=
  if strict_eq_str (name err) "ValidationError" then
    {| error_status := 400; error_message := "Validation error";
       error_details := details err |}
  else if strict_eq_str (name err) "CastError" then mkError 400 "Invalid ID format"
  else if strict_eq_num (code err) 11000 then mkError 409 "Duplicate field value"
  else if strict_eq_str (name err) "JsonWebTokenError" then mkError 401 "Invalid token"
  else if strict_eq_str (name err) "TokenExpiredError" then mkError 401 "Token expired"
  else if strict_eq_str (type err) "entity.parse.failed" then mkError 400 "Invalid JSON payload"
  else if strict_eq_str (type err) "entity.too.large" then mkError 413 "Payload too large"
  else if strict_eq_str (code err) "LIMIT_FILE_SIZE" then mkError 413 "File too large"
  else if strict_eq_str (code err) "LIMIT_UNEXPECTED_FILE" then mkError 400 "Unexpected file field"
  else error.

(** [if (err.code) { switch (err.code) { ... } }] *)
Definition azure_error (err : JsError) (error : ErrorInfo) : ErrorInfo :=
  if truthy (code err) then
    if strict_eq_str (code err) "Unauthorized" then
      mkError 401 "Azure service authentication failed"
    else if strict_eq_str (code err) "Forbidden" then
      mkError 403 "Azure service access denied"
    else if strict_eq_str (code err) "NotFound" then
      mkError 404 "Azure resource not found"
    else if strict_eq_str (code err) "TooManyRequests" then
      mkError 429 "Azure service rate limit exceeded"
    else if strict_eq_str (code err) "ServiceUnavailable" then
      mkError 503 "Azure service temporarily unavailable"
    else error
  else error.

(** [if (err.code === 'ECONNREFUSED' || err.code === 'ETIMEDOUT')] *)
Definition network_error (err : JsError) (error : ErrorInfo) : ErrorInfo :=
  if strict_eq_str (code err) "ECONNREFUSED" || strict_eq_str (code err) "ETIMEDOUT"
  then mkError 503 "Service temporarily unavailable"
  else error.

Definition errorHandler {B : Type} (err : JsError) (req : Request B) : M Response :=
  logger_error "Error occurred:" ;;;
  let error := mkError 500 "Internal server error" in
  let error := specific_error err error in
  let error := azure_error err error in
  let error := network_error err error in
  timestamp <- now ;;
  let response :=
    [("error", VStr (error_message error));
     ("status", VInt (error_status error));
     ("timestamp", VStr timestamp);
     ("path", VStr (baseUrl req ++ path req))] in
  node_env <- getenv NODE_ENV ;;
  let response :=
    if env_is node_env "development" then
      (response ++
        [("stack", stack err);
         ("details", or_else (error_details error) (VStr (message err)))])%list
    else response in
  let response :=
    if truthy (id req) then (response ++ [("requestId", id req)])%list
    else response in
  ret (res_status_json (error_status error) (VObj response)).

(** The names, codes and types that some branch of [errorHandler]
    tests for. *)
Definition recognized_names : list string :=
  ["ValidationError"; "CastError"; "JsonWebTokenError"; "TokenExpiredError"].
Definition recognized_types : list string :=
  ["entity.parse.failed"; "entity.too.large"].
Definition recognized_codes : list string :=
  ["LIMIT_FILE_SIZE"; "LIMIT_UNEXPECTED_FILE"; "Unauthorized"; "Forbidden";
   "NotFound"; "TooManyRequests"; "ServiceUnavailable"; "ECONNREFUSED"; "ETIMEDOUT"].

Definition recognized (err : JsError) : bool :=
  existsb (strict_eq_str (name err)) recognized_names
  || existsb (strict_eq_str (type err)) recognized_types
  || existsb (strict_eq_str (code err)) recognized_codes
  || strict_eq_num (code err) 11000.

End ErrorHandler.

(* ================================================================== *)
(** * Joi schemas, as far as [middleware/validation.js] uses them *)
(* ================================================================== *)

Module Joi.

Inductive ErrorCode : Type :=
| any_required | any_only | any_invalid
| string_base | string_empty | string_min | string_max
| boolean_base | object_base | object_unknown.

(** One entry of [error.details]. *)
Record Detail : Type := { detail_code : ErrorCode; detail_key : string }.

(** [Joi.string()] with the rules chained on it. *)
Record StringSchema : Type := {
  required : bool;
  min : option Z;
  max : option Z;
  valid : option (list string);
  custom : option (string -> bool)
}.

Definition string_ : StringSchema :=
  {| required := false; min := None; max := None; valid := None; custom := None |}.

Inductive Schema : Type :=
| JString (sc : StringSchema)
| JBoolean.

Definition strlen (s : string) : Z := Z.of_nat (String.length s).

Definition check_string (sc : StringSchema) (s : string) : option ErrorCode :=
  match valid sc with
  | Some allowed => if JsString.mem s allowed then None else Some any_only
  | None =>
      if negb (JsString.truthy s) then Some string_empty
      else if match min sc with Some n => (strlen s <? n)%Z | None => false end
      then Some string_min
      else if match max sc with Some n => (n <? strlen s)%Z | None => false end
      then Some string_max
      else match custom sc with
           | Some ok => if ok s then None else Some any_invalid
           | None => None
           end
  end.

Definition check (sc : Schema) (v : value) : option ErrorCode :=
  match sc, v with
  | JString s, VUndef => if required s then Some any_required else None
  | JString s, VStr x => check_string s x
  | JString _, _ => Some string_base
  | JBoolean, (VUndef | VBool _) => None
  | JBoolean, VStr x =>
      if JsString.mem (JsString.toLowerCase x) ["true"; "false"] then None
      else Some boolean_base
  | JBoolean, _ => Some boolean_base
  end.

(** [Joi.object(keys).validate(body)]: a body that is not an object (an
    array, a string, a number, a boolean, [null]) is refused; otherwise
    the keys of the schema are checked in order, then the keys of the
    body that the schema does not know; the first failure is reported.
    The body is what the body parsers of [index.js] leave, which is
    never [undefined]; [VUndef] is read as the empty object. *)
Fixpoint check_keys (keys : list (string * Schema)) (body : value) : option Detail :=
  match keys with
  | [] => None
  | (k, sc) :: rest =>
      match check sc (oget body k) with
      | Some c => Some {| detail_code := c; detail_key := k |}
      | None => check_keys rest body
      end
  end.

Fixpoint check_unknown (known : list string) (present : list string) : option Detail :=
  match present with
  | [] => None
  | k :: rest =>
      if JsString.mem k known then check_unknown known rest
      else Some {| detail_code := object_unknown; detail_key := k |}
  end.

Definition validate (keys : list (string * Schema)) (body : value) : option Detail :=
  match body with
  | VObj _ | VUndef =>
      match check_keys keys body with
      | Some d => Some d
      | None => check_unknown (map fst keys) (Js.keys body)
      end
  | _ => Some {| detail_code := object_base; detail_key := "value" |}
  end.

(** [error.details[0].message] *)
Definition message_of (keys : list (string * Schema)) (d : Detail) : string :=
  let label := dquote ++ detail_key d ++ dquote in
  match detail_code d with
  | any_required => label ++ " is required"
  | any_only => label ++ " must be one of the allowed values"
  | any_invalid => label ++ " contains an invalid value"
  | string_base => label ++ " must be a string"
  | string_empty => label ++ " is not allowed to be empty"
  | string_min => label ++ " length must be at least the minimum"
  | string_max => label ++ " length must be less than or equal to the maximum"
  | boolean_base => label ++ " must be a boolean"
  | object_base => label ++ " must be of type object"
  | object_unknown => label ++ " is not allowed"
  end.

End Joi.

(* ================================================================== *)
(** * middleware/validation.js *)
(* ================================================================== *)

Module Validation.
Import Joi.

Definition validFeatures : list string :=
  ["Caption"; "DenseCaptions"; "Objects"; "People"; "Read"; "SmartCrops"; "Tags"].

(** The [custom] rule on [features]. *)
Definition features_rule (value : string) : bool :=
  let requestedFeatures := map JsString.trim (JsString.split "," value) in
  let invalidFeatures :=
    filter (fun f => negb (JsString.mem f validFeatures)) requestedFeatures in
  negb (0 <? Z.of_nat (List.length invalidFeatures))%Z.

Definition imageAnalysisSchema : list (string * Schema) :=
  [("features",
     JString {| required := false; min := None; max := None; valid := None;
                custom := Some features_rule |});
   ("language",
     JString {| required := false; min := None; max := None;
                valid := Some ["en"; "es"; "fr"; "de"; "it"; "pt"; "ru"; "ja"; "ko"; "zh"];
                custom := None |});
   ("genderNeutralCaption", JBoolean)].

Definition allowedTypes : list string :=
  ["image/jpeg"; "image/png"; "image/gif"; "image/bmp"; "image/webp"].

Definition validateImageAnalysisRequest (req : Request value) : M (Step value) :=
  match validate imageAnalysisSchema (body req) with
  | Some d =>
      logger_warn "Image analysis validation failed:" ;;;
      ret (Responded (res_status_json 400 (VObj
        [("error", VStr "Validation failed");
         ("message", VStr (message_of imageAnalysisSchema d));
         ("validFeatures", VArr (map VStr validFeatures))])))
  | None =>
      match file req with
      | Some f =>
          let maxSize := 10 * 1024 * 1024 in
          if (maxSize <? size f)%Z then
            ret (Responded (res_status_json 400 (VObj
              [("error", VStr "File too large");
               ("message", VStr "Image file must be smaller than 10MB")])))
          else if negb (JsString.mem (mimetype f) allowedTypes) then
            ret (Responded (res_status_json 400 (VObj
              [("error", VStr "Invalid file type");
               ("message", VStr "Only JPEG, PNG, GIF, BMP, and WebP images are allowed")])))
          else ret (Next req)
      | None => ret (Next req)
      end
  end.

Definition supportedLanguages : list string :=
  ["ar"; "zh"; "zh-Hant"; "en"; "fr"; "de"; "hi"; "it";
   "ja"; "ko"; "pt"; "ru"; "es"; "th"; "tr"; "vi"].

Definition translationSchema : list (string * Schema) :=
  [("text",
     JString {| required := true; min := Some 1; max := Some 10000; valid := None;
                custom := None |});
   ("targetLanguage",
     JString {| required := true; min := None; max := None;
                valid := Some supportedLanguages; custom := None |});
   ("sourceLanguage",
     JString {| required := false; min := None; max := None;
                valid := Some ("auto" :: supportedLanguages); custom := None |})].

Definition validateTranslationRequest (req : Request value) : M (Step value) :=
  match validate translationSchema (body req) with
  | Some d =>
      logger_warn "Translation validation failed:" ;;;
      ret (Responded (res_status_json 400 (VObj
        [("error", VStr "Validation failed");
         ("message", VStr (message_of translationSchema d));
         ("supportedLanguages", VArr (map VStr supportedLanguages))])))
  | None => ret (Next req)
  end.

End Validation.

(* ================================================================== *)
(** * Express routing *)
(* ================================================================== *)

Module Express.

Definition Handler (B : Type) : Type := Request B -> M (Step B).

(** The handlers of one route, each run when the one before called
    [next()]. *)
Fixpoint run_stack {B : Type} (hs : list (Handler B)) (req : Request B) : M (Step B) :=
  match hs with
  | [] => ret (Next req)
  | h :: rest =>
      st <- h req ;;
      match st with
      | Next req' => run_stack rest req'
      | other => ret other
      end
  end.

(** [router.METHOD(path, ...handlers)] *)
Record Route (B : Type) : Type := {
  route_method : string;
  route_path : string;
  route_stack : list (Handler B)
}.

Definition matches {B : Type} (r : Route B) (req : Request B) : bool :=
  String.eqb (route_method r) (method req) && String.eqb (route_path r) (path req).

(** A router tries its routes in the order of registration; a route
    that answers ends the search. *)
Fixpoint dispatch {B : Type} (routes : list (Route B)) (req : Request B) : M (Step B) :=
  match routes with
  | [] => ret (Next req)
  | r :: rest =>
      if matches r req then
        st <- run_stack (route_stack r) req ;;
        match st with
        | Next req' => dispatch rest req'
        | other => ret other
        end
      else dispatch rest req
  end.

(** [index.js]: the catch-all registered after the routers. *)
Definition notFound {B : Type} (req : Request B) : Response :=
  res_status_json 404 (VObj
    [("error", VStr "Not Found");
     ("message", VStr ("Route " ++ url req ++ " not found"))]).

(** [app.use(mount, ...middleware, router)] followed by the catch-all
    and by [app.use(errorHandler)]. *)
Definition serve {B : Type} (stack : list (Handler B)) (req : Request B) : M Response :=
  st <- run_stack stack req ;;
  match st with
  | Responded res => ret res
  | Next req' => ret (notFound req')
  | NextError err => ErrorHandler.errorHandler err req
  end.

(** A route handler that always answers. *)
Definition respond {B : Type} (h : Request B -> M Response) : Handler B :=
  fun req => res <- h req ;; ret (Responded res).

End Express.

(* ================================================================== *)
(** * routes/translation.js *)
(* ================================================================== *)

Module Translation.
Import Express.

(** [v.length] and [v.slice(1)] on untyped data. *)
Definition length_of (v : value) : value :=
  match v with
  | VArr items => VInt (Z.of_nat (List.length items))
  | VStr s => VInt (Z.of_nat (String.length s))
  | VObj fields => lookup "length" fields
  | _ => VUndef
  end.

Definition oslice1 (v : value) : result string value :=
  match v with
  | VUndef | VNull => Ok VUndef
  | VArr items => Ok (VArr (tl items))
  | VStr s => Ok (VStr (String.substring 1 (String.length s) s))
  | _ => Throw "TypeError: slice is not a function"
  end.

(** POST /translate, after [validateTranslationRequest]. *)
Definition translate (req : Request value) : M Response :=
  try_catch
    (let text := oget (body req) "text" in
     let targetLanguage := oget (body req) "targetLanguage" in
     let sourceLanguage := oget (body req) "sourceLanguage" in
     if negb (truthy text) || negb (truthy targetLanguage) then
       ret (res_status_json 400 (VObj
         [("error", VStr "Missing required parameters");
          ("message", VStr "Both text and targetLanguage are required")]))
     else
       clients <- getAzureClients ;;
       if negb (translator clients) then
         ret (res_status_json 503 (VObj
           [("error", VStr "Translation service unavailable");
            ("message", VStr "Azure Translator service is not configured")]))
       else
         logger_info "Starting translation" ;;;
         let from :=
           if truthy sourceLanguage && negb (strict_eq_str sourceLanguage "auto")
           then Some sourceLanguage else None in
         result <- await (TranslatorTranslate text targetLanguage from)
                     (fun o => translator_service o text targetLanguage from) ;;
         logger_info "Translation API response:" ;;;
         if negb (truthy (oget result "body"))
            || strict_eq_num (length_of (oget result "body")) 0
         then throw (Error "No translation result received")
         else
           let translation := ofirst (oget result "body") in
           logger_info "Processing translation result:" ;;;
           translations <- lift (get translation "translations") ;;
           let translatedText :=
             or_else (or_else (oget (ofirst translations) "text")
                              (oget translation "text"))
                     (VStr "Translation not available") in
           let detected := oget translation "detectedLanguage" in
           let detectedLang :=
             or_else (or_else (oget detected "language") sourceLanguage)
                     (VStr "unknown") in
           let confidence := or_else (oget detected "score") VNull in
           rest <- lift (oslice1 translations) ;;
           alternatives <- lift (omap rest (fun t => get t "text")) ;;
           timestamp <- now ;;
           logger_info "Translation completed successfully" ;;;
           ret (res_json (VObj
             [("success", VBool true);
              ("timestamp", VStr timestamp);
              ("originalText", text);
              ("translatedText", translatedText);
              ("sourceLanguage", detectedLang);
              ("targetLanguage", targetLanguage);
              ("confidence", confidence);
              ("alternatives", or_else alternatives (VArr []))])))
    (fun error =>
       logger_error "Translation failed:" ;;;
       logger_error "Translation error details:" ;;;
       node_env <- getenv NODE_ENV ;;
       ret (res_status_json 500 (VObj
         [("error", VStr "Translation failed");
          ("message", VStr "Failed to translate the text. Please try again.");
          ("details", if env_is node_env "development"
                      then VStr (message error) else VUndef)]))).

(** [getLanguageName(languageCode)] *)
Definition languageNames : list (string * string) :=
  [("ar", "Arabic");
   ("zh", "Chinese (Simplified)");
   ("zh-Hant", "Chinese (Traditional)");
   ("en", "English");
   ("fr", "French");
   ("de", "German");
   ("hi", "Hindi");
   ("it", "Italian");
   ("ja", "Japanese");
   ("ko", "Korean");
   ("pt", "Portuguese");
   ("ru", "Russian");
   ("es", "Spanish");
   ("th", "Thai");
   ("tr", "Turkish");
   ("vi", "Vietnamese")].

Definition getLanguageName (languageCode : value) : value :=
  match languageCode with
  | VStr c =>
      match assoc c languageNames with
      | Some n => or_else (VStr n) languageCode
      | None => languageCode
      end
  | _ => languageCode
  end.

(** [translator.translate(inputs, options)]. The client that
    [TextTranslationClient(...)] of [@azure-rest/ai-translation-text]
    creates in [config/azure.js] is a REST client, with [path],
    [pathUnchecked] and [pipeline]; it has no method [translate], so
    the call is a TypeError. *)
Definition translator_translate (inputs : list value) (to : value) (from : option value)
    : M value :=
  throw (TypeError "translator.translate is not a function").

(** POST /detect *)
Definition detect (req : Request value) : M Response :=
  try_catch
    (let text := oget (body req) "text" in
     if negb (truthy text) then
       ret (res_status_json 400 (VObj
         [("error", VStr "Missing text parameter");
          ("message", VStr "Text is required for language detection")]))
     else
       clients <- getAzureClients ;;
       if negb (translator clients) then
         ret (res_status_json 503 (VObj
           [("error", VStr "Translation service unavailable");
            ("message", VStr "Azure Translator service is not configured")]))
       else
         logger_info "Starting language detection" ;;;
         result <- translator_translate [VObj [("text", text)]] (VArr [VStr "en"]) None ;;
         if negb (truthy result) || strict_eq_num (length_of result) 0 then
           throw (Error "No detection result received")
         else
           detection <- lift (get (ofirst result) "detectedLanguage") ;;
           language <- lift (get detection "language") ;;
           timestamp <- now ;;
           logger_info "Language detection completed successfully" ;;;
           ret (res_json (VObj
             [("success", VBool true);
              ("timestamp", VStr timestamp);
              ("text", text);
              ("detectedLanguage", language);
              ("confidence", oget detection "score");
              ("languageName", getLanguageName language)])))
    (fun error =>
       logger_error "Language detection failed:" ;;;
       node_env <- getenv NODE_ENV ;;
       ret (res_status_json 500 (VObj
         [("error", VStr "Detection failed");
          ("message", VStr "Failed to detect the language. Please try again.");
          ("details", if env_is node_env "development"
                      then VStr (message error) else VUndef)]))).

(** [results.map((result, index) => ...)] of POST /batch. *)
Fixpoint batch_translations (texts results : list value) (sourceLanguage : value)
    : Js.result string (list value) :=
  match results with
  | [] => Ok []
  | result :: rest =>
      (translations <- get result "translations" ;;
       first <- index0 translations ;;
       translatedText <- get first "text" ;;
       let detected := oget result "detectedLanguage" in
       others <- batch_translations (tl texts) rest sourceLanguage ;;
       Ok (VObj
             [("originalText", match texts with t :: _ => t | [] => VUndef end);
              ("translatedText", translatedText);
              ("sourceLanguage",
                or_else (or_else (oget detected "language") sourceLanguage)
                        (VStr "unknown"));
              ("confidence", or_else (oget detected "score") VNull)]
           :: others))%res
  end.

(** POST /batch *)
Definition batch (req : Request value) : M Response :=
  try_catch
    (let targetLanguage := oget (body req) "targetLanguage" in
     let sourceLanguage := oget (body req) "sourceLanguage" in
     match oget (body req) "texts" with
     | VArr (t :: ts) =>
         let texts := t :: ts in
         if negb (truthy targetLanguage) then
           ret (res_status_json 400 (VObj
             [("error", VStr "Missing targetLanguage parameter");
              ("message", VStr "Target language is required")]))
         else if 100 <? Z.of_nat (List.length texts) then
           ret (res_status_json 400 (VObj
             [("error", VStr "Too many texts");
              ("message", VStr "Maximum 100 texts allowed per batch request")]))
         else
           clients <- getAzureClients ;;
           if negb (translator clients) then
             ret (res_status_json 503 (VObj
               [("error", VStr "Translation service unavailable");
                ("message", VStr "Azure Translator service is not configured")]))
           else
             logger_info "Starting batch translation" ;;;
             let from :=
               if truthy sourceLanguage && negb (strict_eq_str sourceLanguage "auto")
               then Some sourceLanguage else None in
             let textInputs := map (fun text => VObj [("text", text)]) texts in
             results <- translator_translate textInputs (VArr [targetLanguage]) from ;;
             translations <-
               match results with
               | VArr items => lift (batch_translations texts items sourceLanguage)
               | _ => throw (TypeError "results.map is not a function")
               end ;;
             timestamp <- now ;;
             logger_info "Batch translation completed successfully" ;;;
             ret (res_json (VObj
               [("success", VBool true);
                ("timestamp", VStr timestamp);
                ("targetLanguage", targetLanguage);
                ("translations", VArr translations);
                ("totalCount", VInt (Z.of_nat (List.length translations)))]))
     | _ =>
         ret (res_status_json 400 (VObj
           [("error", VStr "Invalid texts parameter");
            ("message", VStr "An array of texts is required")]))
     end)
    (fun error =>
       logger_error "Batch translation failed:" ;;;
       node_env <- getenv NODE_ENV ;;
       ret (res_status_json 500 (VObj
         [("error", VStr "Batch translation failed");
          ("message", VStr "Failed to translate the texts. Please try again.");
          ("details", if env_is node_env "development"
                      then VStr (message error) else VUndef)]))).

(** The object literal of the first GET /languages handler. *)
Definition supportedLanguages : list (string * string) :=
  [("ar", "Arabic");
   ("zh", "Chinese (Simplified)");
   ("zh-Hant", "Chinese (Traditional)");
   ("en", "English");
   ("fr", "French");
   ("de", "German");
   ("hi", "Hindi");
   ("it", "Italian");
   ("ja", "Japanese");
   ("ko", "Korean");
   ("pt", "Portuguese");
   ("ru", "Russian");
   ("es", "Spanish");
   ("th", "Thai");
   ("tr", "Turkish");
   ("vi", "Vietnamese")].

Definition languagesResponse : value :=
  VObj
    [("supportedLanguages",
       VObj (map (fun kv => (fst kv, VStr (snd kv))) supportedLanguages));
     ("defaultTargetLanguage", VStr azureConfig.translator_defaultTargetLanguage);
     ("autoDetectionSupported", VBool true)].

(** GET /languages, first registration. *)
Definition languages_static (req : Request value) : M Response :=
  ret (res_json languagesResponse).

(** GET /languages, second registration. *)
Definition languages_service (req : Request value) : M Response :=
  try_catch
    (clients <- getAzureClients ;;
     if negb (translator clients) then
       ret (res_status_json 503 (VObj
         [("error", VStr "Translation service unavailable");
          ("message", VStr "Azure Translator service is not configured")]))
     else
       result <- await TranslatorLanguages translator_languages ;;
       timestamp <- now ;;
       ret (res_json (VObj
         [("success", VBool true);
          ("timestamp", VStr timestamp);
          ("languages", oget result "body")])))
    (fun error =>
       logger_error "Failed to get supported languages:" ;;;
       node_env <- getenv NODE_ENV ;;
       ret (res_status_json 500 (VObj
         [("error", VStr "Failed to get languages");
          ("message", VStr "Failed to retrieve supported languages. Please try again.");
          ("details", if env_is node_env "development"
                      then VStr (message error) else VUndef)]))).

(** The routes of the file, in the order of their registration. *)
Definition router : list (Route value) :=
  [ {| route_method := "POST"; route_path := "/translate";
       route_stack := [Validation.validateTranslationRequest; respond translate] |};
    {| route_method := "POST"; route_path := "/detect";
       route_stack := [respond detect] |};
    {| route_method := "GET"; route_path := "/languages";
       route_stack := [respond languages_static] |};
    {| route_method := "POST"; route_path := "/batch";
       route_stack := [respond batch] |};
    {| route_method := "GET"; route_path := "/languages";
       route_stack := [respond languages_service] |} ].

(** [app.use('/api/translation', translationRoutes)] *)
Definition api_translation (req : Request value) : M Response :=
  serve [dispatch router] req.

End Translation.

(* ================================================================== *)
(** * routes/chat.js *)
(* ================================================================== *)

Module Chat.
Import Express.

(** ** The request body

    The records follow the interface [AnalysisResults] that the client
    declares for the [analysisResults] field ([?] fields are options). *)

Record Rectangle : Type := { x : Q; y : Q; w : Q; h : Q }.

Record Caption : Type := { caption_text : string; caption_confidence : Q }.

Record Description : Type := { captions : list Caption }.

Record DetectedObject : Type := {
  object : string;
  object_confidence : Q;
  object_rectangle : Rectangle
}.

Record Person : Type := { person_rectangle : Rectangle }.

Record Tag : Type := { tag_name : string; tag_confidence : Q }.

Record Color : Type := {
  dominantColorForeground : option string;
  dominantColorBackground : option string;
  dominantColors : option (list string)
}.

Record Analysis : Type := {
  mainDescription : option string;
  analysis_objects : option (list string);
  analysis_confidence : option Q
}.

Record AnalysisResults : Type := {
  caption : option Caption;
  description : option Description;
  objects : option (list DetectedObject);
  people : option (list Person);
  tags : option (list Tag);
  text : option (list string);
  color : option Color;
  enhanced : option bool;
  analysis : option Analysis;
  sceneContext : option string;
  activities : option (list string);
  moodAtmosphere : option string;
  colorsComposition : option string;
  interestingDetails : option (list string)
}.

Record ChatMessage : Type := {
  msg_role : string;
  msg_content : string;
  msg_timestamp : string
}.

Record ChatBody : Type := {
  question : option string;
  analysisResults : option AnalysisResults;
  conversationHistory : option (list ChatMessage)
}.

(** Truthiness of optional fields: an optional string is truthy when
    present and not empty, an optional array or object when present. *)
Definition truthy_string (o : option string) : bool :=
  match o with Some s => JsString.truthy s | None => false end.

Definition present {A : Type} (o : option A) : bool :=
  match o with Some _ => true | None => false end.

(** [field && field.length > 0] *)
Definition non_empty {A : Type} (o : option (list A)) : bool :=
  match o with Some (_ :: _) => true | _ => false end.

(** [${field}] for an optional string. *)
Definition show (o : option string) : string :=
  match o with Some s => s | None => "undefined" end.

(** [field?.join(sep) || fallback] *)
Definition join_or (sep : string) (o : option (list string)) (fallback : string) : string :=
  match o with
  | Some l => if JsString.truthy (JsString.join sep l) then JsString.join sep l else fallback
  | None => fallback
  end.

(** [arr.push(x)] *)
Definition push {A : Type} (l : list A) (x : A) : list A := (l ++ [x])%list.

(** [arr.forEach((item, i) => ...)] threading the variables that the
    callback assigns. *)
Fixpoint forEach_from {A St : Type} (i : nat) (l : list A) (f : A -> nat -> St -> St)
    (s : St) : St :=
  match l with
  | [] => s
  | a :: rest => forEach_from (S i) rest f (f a i s)
  end.

Definition forEach {A St : Type} (l : list A) (f : A -> nat -> St -> St) (s : St) : St :=
  forEach_from 0 l f s.

Section WithRuntime.
Context {rt : Runtime}.

Definition num (q : Q) : string := Number_toString q.
Definition int (n : nat) : string := Number_toString (inject_Z (Z.of_nat n)).

(** [buildAnalysisContext(results)]: seven blocks, each of which may
    append to the local variable [context]. *)

(** [if (results.caption)] *)
Definition add_caption (results : AnalysisResults) (context : string) : string :=
  match caption results with
  | Some c =>
      context ++ "Image Description: " ++ caption_text c ++ " (confidence: "
        ++ num (caption_confidence c) ++ ")" ++ nl ++ nl
  | None => context
  end.

(** [if (results.description?.captions)] *)
Definition add_detailed_captions (results : AnalysisResults) (context : string) : string :=
  match description results with
  | Some d =>
      let context := context ++ "Detailed Captions:" ++ nl in
      let context :=
        forEach (captions d)
          (fun cap i context =>
             context ++ "- " ++ caption_text cap ++ " (confidence: "
               ++ num (caption_confidence cap) ++ ")" ++ nl)
          context in
      context ++ nl
  | None => context
  end.

(** [if (results.objects && results.objects.length > 0)] *)
Definition add_objects (results : AnalysisResults) (context : string) : string :=
  if non_empty (objects results) then
    let objs := match objects results with Some l => l | None => [] end in
    let context := context ++ "Detected Objects:" ++ nl in
    let context :=
      forEach objs
        (fun obj _ context =>
           context ++ "- " ++ object obj ++ " at location ("
             ++ num (x (object_rectangle obj)) ++ ", "
             ++ num (y (object_rectangle obj)) ++ ") with confidence "
             ++ num (object_confidence obj) ++ nl)
        context in
    context ++ nl
  else context.

(** [if (results.people && results.people.length > 0)] *)
Definition add_people (results : AnalysisResults) (context : string) : string :=
  if non_empty (people results) then
    let persons := match people results with Some l => l | None => [] end in
    let context :=
      context ++ "People Detected: " ++ int (List.length persons)
        ++ " person(s)" ++ nl in
    let context :=
      forEach persons
        (fun person i context =>
           context ++ "- Person " ++ int (i + 1)%nat ++ " at location ("
             ++ num (x (person_rectangle person)) ++ ", "
             ++ num (y (person_rectangle person)) ++ ")" ++ nl)
        context in
    context ++ nl
  else context.

(** [if (results.tags && results.tags.length > 0)] *)
Definition add_tags (results : AnalysisResults) (context : string) : string :=
  if non_empty (tags results) then
    let ts := match tags results with Some l => l | None => [] end in
    context ++ "Tags: "
      ++ JsString.join ", "
           (map (fun tag => tag_name tag ++ " (" ++ num (tag_confidence tag) ++ ")") ts)
      ++ nl ++ nl
  else context.

(** [if (results.text && results.text.length > 0)] *)
Definition add_text (results : AnalysisResults) (context : string) : string :=
  if non_empty (text results) then
    let lines := match text results with Some l => l | None => [] end in
    context ++ "Text Found in Image:" ++ nl ++ dquote
      ++ JsString.join " " lines ++ dquote ++ nl ++ nl
  else context.

(** [if (results.color)] *)
Definition add_color (results : AnalysisResults) (context : string) : string :=
  match color results with
  | Some c =>
      let context := context ++ "Color Analysis:" ++ nl in
      let context :=
        if truthy_string (dominantColorForeground c) then
          context ++ "- Foreground: " ++ show (dominantColorForeground c) ++ nl
        else context in
      let context :=
        if truthy_string (dominantColorBackground c) then
          context ++ "- Background: " ++ show (dominantColorBackground c) ++ nl
        else context in
      let context :=
        match dominantColors c with
        | Some cs => context ++ "- Dominant colors: " ++ JsString.join ", " cs ++ nl
        | None => context
        end in
      context ++ nl
  | None => context
  end.

Definition buildAnalysisContext (results : AnalysisResults) : string :=
  let context := EmptyString in
  let context := add_caption results context in
  let context := add_detailed_captions results context in
  let context := add_objects results context in
  let context := add_people results context in
  let context := add_tags results context in
  let context := add_text results context in
  let context := add_color results context in
  context.

(** [buildEnhancedSystemPrompt(analysisResults)]; the caller has checked
    that [analysisResults.analysis] is set. *)
Definition buildEnhancedSystemPrompt (analysisResults : AnalysisResults)
    (analysis : Analysis) : string :=
  "You are an engaging, knowledgeable AI assistant helping users explore and understand their image. You have access to a comprehensive AI analysis of the image." ++ nl
  ++ nl
  ++ "ðŸŽ¯ YOUR PERSONALITY:" ++ nl
  ++ "- Be conversational, enthusiastic, and insightful" ++ nl
  ++ "- Use descriptive, vivid language" ++ nl
  ++ "- Show curiosity and help users discover new details" ++ nl
  ++ "- Be like a knowledgeable friend sharing insights" ++ nl
  ++ nl
  ++ "ðŸ“¸ IMAGE ANALYSIS DETAILS:" ++ nl
  ++ "Main Description: " ++ show (mainDescription analysis) ++ nl
  ++ "Scene Context: " ++ show (sceneContext analysisResults) ++ nl
  ++ "Mood/Atmosphere: " ++ show (moodAtmosphere analysisResults) ++ nl
  ++ "Activities: " ++ join_or ", " (activities analysisResults) "None specified" ++ nl
  ++ "Key Objects: " ++ join_or ", " (analysis_objects analysis) "None detected" ++ nl
  ++ "Text Content: " ++ join_or " " (text analysisResults) "No text detected" ++ nl
  ++ "Colors & Composition: " ++ show (colorsComposition analysisResults) ++ nl
  ++ "Interesting Details: " ++ join_or ", " (interestingDetails analysisResults) "None noted" ++ nl
  ++ nl
  ++ "ðŸŽ¨ YOUR CAPABILITIES:" ++ nl
  ++ "- Answer questions about what's visible in the image" ++ nl
  ++ "- Explain the mood, atmosphere, and composition" ++ nl
  ++ "- Discuss the story or narrative the image tells" ++ nl
  ++ "- Help identify interesting details users might miss" ++ nl
  ++ "- Provide context about the setting and activities" ++ nl
  ++ "- Interpret the artistic or emotional elements" ++ nl
  ++ nl
  ++ "ðŸ’¬ CONVERSATION STYLE:" ++ nl
  ++ "- Be enthusiastic and descriptive" ++ nl
  ++ "- Use sensory language when appropriate" ++ nl
  ++ "- Ask follow-up questions to engage the user" ++ nl
  ++ "- Share insights that might surprise or delight" ++ nl
  ++ "- Reference specific details from the analysis" ++ nl
  ++ "- Be encouraging and positive" ++ nl
  ++ nl
  ++ "Always base responses on the analysis provided. If asked about something not in the analysis, creatively suggest what you can discuss instead.".

(** [buildStandardSystemPrompt(analysisContext)] *)
Definition buildStandardSystemPrompt (analysisContext : string) : string :=
  "You are an AI assistant that helps users understand and explore their image analysis results. " ++ nl
  ++ "        " ++ nl
  ++ "You have access to detailed analysis results from Azure Computer Vision API including:" ++ nl
  ++ "- Image descriptions and captions" ++ nl
  ++ "- Detected objects and their locations" ++ nl
  ++ "- People detection and analysis" ++ nl
  ++ "- Text recognition (OCR)" ++ nl
  ++ "- Tags and categories" ++ nl
  ++ "- Color analysis" ++ nl
  ++ nl
  ++ "Your role is to:" ++ nl
  ++ "1. Answer questions about what's in the image based on the analysis results" ++ nl
  ++ "2. Explain the AI analysis in simple, conversational terms" ++ nl
  ++ "3. Help users discover interesting details they might have missed" ++ nl
  ++ "4. Provide insights about composition, objects, text, or people in the image" ++ nl
  ++ "5. Be conversational and engaging while staying accurate to the analysis data" ++ nl
  ++ nl
  ++ "Always base your responses on the provided analysis results. If asked about something not in the analysis, politely explain what information is available." ++ nl
  ++ nl
  ++ "Here are the current image analysis results:" ++ nl
  ++ analysisContext.

End WithRuntime.

(** [generateEnhancedSuggestions(results)]; the caller has checked that
    [results.analysis] is set. *)
Definition generateEnhancedSuggestions (results : AnalysisResults) (analysis : Analysis)
    : list string :=
  let suggestions : list string := [] in
  let suggestions :=
    if truthy_string (mainDescription analysis) then
      push (push suggestions "What story does this image tell?")
           "What draws your attention most in this scene?"
    else suggestions in
  let suggestions :=
    if non_empty (activities results) then
      let first :=
        match activities results with Some (a :: _) => a | _ => "undefined" end in
      push (push suggestions ("Tell me more about the " ++ first ++ " happening here"))
           "What might happen next in this scene?"
    else suggestions in
  let suggestions :=
    if truthy_string (moodAtmosphere results) then
      push (push suggestions "How does this image make you feel?")
           "What creates the mood in this image?"
    else suggestions in
  let suggestions :=
    if non_empty (interestingDetails results) then
      push (push suggestions "What's the most interesting detail you notice?")
           "What details might I have missed?"
    else suggestions in
  let suggestions :=
    if truthy_string (colorsComposition results) then
      push (push suggestions "What makes this image visually appealing?")
           "How do the colors work together?"
    else suggestions in
  let suggestions :=
    if truthy_string (sceneContext results) then
      push (push suggestions "What does the setting tell us about this moment?")
           "If you were there, what would you notice first?"
    else suggestions in
  firstn 6 suggestions.

(** [results.enhanced && results.analysis] *)
Definition isEnhanced (results : AnalysisResults) : option Analysis :=
  match enhanced results with
  | Some true => analysis results
  | _ => None
  end.

(** [generateQuestionSuggestions(results)] *)
Definition generateQuestionSuggestions (results : AnalysisResults) : list string :=
  let suggestions : list string := [] in
  match isEnhanced results with
  | Some analysis => generateEnhancedSuggestions results analysis
  | None =>
      let suggestions := push suggestions "What do you see in this image?" in
      let suggestions := push suggestions "Can you describe the main subject?" in
      let suggestions :=
        if non_empty (objects results) then
          let objectNames :=
            map object (match objects results with Some l => l | None => [] end) in
          let first := match objectNames with n :: _ => n | [] => "undefined" end in
          let suggestions :=
            push suggestions ("Tell me more about the " ++ first ++ " in the image") in
          if (1 <? Z.of_nat (List.length objectNames)) then
            push suggestions "What's the relationship between the objects?"
          else suggestions
        else suggestions in
      let suggestions :=
        if non_empty (people results) then
          let persons := match people results with Some l => l | None => [] end in
          let suggestions :=
            push suggestions "What can you tell me about the people in the image?" in
          if (1 <? Z.of_nat (List.length persons)) then
            push suggestions "How many people are in the image and where are they?"
          else suggestions
        else suggestions in
      let suggestions :=
        if non_empty (text results) then
          push (push suggestions "What does the text in the image say?")
               "Can you explain the meaning of the text?"
        else suggestions in
      let suggestions := push suggestions "What are the dominant colors?" in
      let suggestions := push suggestions "How would you describe the composition?" in
      let suggestions := push suggestions "What's the setting or location?" in
      let suggestions := push suggestions "What might be happening in this scene?" in
      firstn 6 suggestions
  end.

(** [messages]: the system prompt, the history, the question. *)
Definition history_message (msg : ChatMessage) : Message :=
  {| role := if String.eqb (msg_role msg) "user" then "user" else "assistant";
     content := msg_content msg |}.

Section Handlers.
Context {rt : Runtime}.

Definition buildMessages (question : string) (analysisResults : AnalysisResults)
    (conversationHistory : list ChatMessage) : list Message :=
  let analysisContext := buildAnalysisContext analysisResults in
  let systemPrompt :=
    match isEnhanced analysisResults with
    | Some analysis => buildEnhancedSystemPrompt analysisResults analysis
    | None => buildStandardSystemPrompt analysisContext
    end in
  let messages := [ {| role := "system"; content := systemPrompt |} ] in
  let messages :=
    forEach conversationHistory
      (fun msg _ messages => push messages (history_message msg)) messages in
  push messages {| role := "user"; content := question |}.

(** POST /analyze *)
Definition analyze (req : Request ChatBody) : M Response :=
  try_catch
    (let conversationHistory :=
       match conversationHistory (body req) with Some l => l | None => [] end in
     match question (body req), analysisResults (body req) with
     | Some question, Some analysisResults =>
         if negb (JsString.truthy question) then
           ret (res_status_json 400 (VObj
             [("error", VStr "Bad Request");
              ("message", VStr "Missing required fields: question and analysisResults")]))
         else
           clients <- getAzureClients ;;
           if negb (openai clients) then
             ret (res_status_json 503 (VObj
               [("error", VStr "Service Unavailable");
                ("message", VStr "OpenAI service not configured")]))
           else
             let messages := buildMessages question analysisResults conversationHistory in
             logger_info "Sending chat request to Azure OpenAI" ;;;
             response <- await
               (OpenAIChat messages azureConfig.openai_maxTokens
                           azureConfig.openai_temperature)
               (fun o => openai_service o messages) ;;
             choices <- lift (get response "choices") ;;
             choice <- lift (index0 choices) ;;
             let answer := oget (oget choice "message") "content" in
             if negb (truthy answer) then
               throw (Error "No response received from OpenAI")
             else
               logger_info "Chat response generated successfully" ;;;
               timestamp <- now ;;
               ret (res_json (VObj
                 [("question", VStr question);
                  ("answer", answer);
                  ("timestamp", VStr timestamp);
                  ("usage", oget response "usage")]))
     | _, _ =>
         ret (res_status_json 400 (VObj
           [("error", VStr "Bad Request");
            ("message", VStr "Missing required fields: question and analysisResults")]))
     end)
    (fun error =>
       logger_error "Chat analysis error:" ;;;
       if strict_eq_str (code error) "insufficient_quota" then
         ret (res_status_json 429 (VObj
           [("error", VStr "Quota Exceeded");
            ("message", VStr "OpenAI quota exceeded. Please try again later.")]))
       else if strict_eq_str (code error) "content_filter" then
         ret (res_status_json 400 (VObj
           [("error", VStr "Content Filtered");
            ("message", VStr "Your question was filtered by content policy. Please rephrase.")]))
       else
         ret (res_status_json 500 (VObj
           [("error", VStr "Internal Server Error");
            ("message", VStr "Failed to process chat request")]))).

(** POST /suggestions *)
Definition suggestions (req : Request ChatBody) : M Response :=
  try_catch
    (match analysisResults (body req) with
     | None =>
         ret (res_status_json 400 (VObj
           [("error", VStr "Bad Request");
            ("message", VStr "Missing required field: analysisResults")]))
     | Some analysisResults =>
         let suggestions := generateQuestionSuggestions analysisResults in
         timestamp <- now ;;
         ret (res_json (VObj
           [("suggestions", VArr (map VStr suggestions));
            ("timestamp", VStr timestamp)]))
     end)
    (fun error =>
       logger_error "Chat suggestions error:" ;;;
       ret (res_status_json 500 (VObj
         [("error", VStr "Internal Server Error");
          ("message", VStr "Failed to generate suggestions")]))).

Definition router : list (Route ChatBody) :=
  [ {| route_method := "POST"; route_path := "/analyze";
       route_stack := [respond analyze] |};
    {| route_method := "POST"; route_path := "/suggestions";
       route_stack := [respond suggestions] |} ].

(** [app.use('/api/chat', chatRoutes)] *)
Definition api_chat (req : Request ChatBody) : M Response :=
  serve [dispatch router] req.

End Handlers.

End Chat.

(* ================================================================== *)
(** * routes/chat.js on JSON data *)
(* ================================================================== *)

(** [buildAnalysisContext], [generateQuestionSuggestions],
    [generateEnhancedSuggestions] and the route POST /suggestions as
    they run on whatever JSON value the body holds: a property of the
    wrong kind makes a method call or a property access a TypeError. *)
Module ChatJson.
Import Express.

Section WithRuntime.
Context {rt : Runtime}.

(** [${v.k}] *)
Definition show (v : value) (k : string) : Js.result string string :=
  (x <- get v k ;; ToString x)%res.

(** [${i}] for an index. *)
Definition int (n : nat) : string := Number_toString (inject_Z (Z.of_nat n)).

(** [v.forEach((item, i) => ...)] threading the variable that the
    callback assigns: a TypeError unless the receiver is an array. *)
Fixpoint forEach_from (i : nat) (l : list value)
    (f : value -> nat -> string -> Js.result string string) (context : string)
    : Js.result string string :=
  match l with
  | [] => Ok context
  | a :: rest =>
      match f a i context with
      | Ok context => forEach_from (S i) rest f context
      | Throw e => Throw e
      end
  end.

Definition forEach (v : value) (f : value -> nat -> string -> Js.result string string)
    (context : string) : Js.result string string :=
  match v with
  | VArr items => forEach_from 0 items f context
  | _ => Throw "TypeError: forEach is not a function"
  end.

(** [field && field.length > 0] *)
Definition non_empty (field : value) : Js.result string bool :=
  if truthy field then gt (length_prop field) 0 else Ok false.

(** [if (results.caption)] *)
Definition add_caption (results : value) (context : string) : Js.result string string :=
  (caption <- get results "caption" ;;
   if truthy caption then
     text <- show caption "text" ;;
     confidence <- show caption "confidence" ;;
     Ok (context ++ "Image Description: " ++ text ++ " (confidence: "
           ++ confidence ++ ")" ++ nl ++ nl)
   else Ok context)%res.

(** [if (results.description?.captions)] *)
Definition add_detailed_captions (results : value) (context : string)
    : Js.result string string :=
  (description <- get results "description" ;;
   let captions := oget description "captions" in
   if truthy captions then
     let context := context ++ "Detailed Captions:" ++ nl in
     context <-
       forEach captions
         (fun cap i context =>
            text <- show cap "text" ;;
            confidence <- show cap "confidence" ;;
            Ok (context ++ "- " ++ text ++ " (confidence: " ++ confidence ++ ")" ++ nl))
         context ;;
     Ok (context ++ nl)
   else Ok context)%res.

(** [if (results.objects && results.objects.length > 0)] *)
Definition add_objects (results : value) (context : string) : Js.result string string :=
  (objects <- get results "objects" ;;
   due <- non_empty objects ;;
   if due then
     let context := context ++ "Detected Objects:" ++ nl in
     context <-
       forEach objects
         (fun obj _ context =>
            name <- show obj "object" ;;
            rectangle <- get obj "rectangle" ;;
            x <- show rectangle "x" ;;
            rectangle <- get obj "rectangle" ;;
            y <- show rectangle "y" ;;
            confidence <- show obj "confidence" ;;
            Ok (context ++ "- " ++ name ++ " at location (" ++ x ++ ", " ++ y
                  ++ ") with confidence " ++ confidence ++ nl))
         context ;;
     Ok (context ++ nl)
   else Ok context)%res.

(** [if (results.people && results.people.length > 0)] *)
Definition add_people (results : value) (context : string) : Js.result string string :=
  (people <- get results "people" ;;
   due <- non_empty people ;;
   if due then
     count <- ToString (length_prop people) ;;
     let context := context ++ "People Detected: " ++ count ++ " person(s)" ++ nl in
     context <-
       forEach people
         (fun person i context =>
            rectangle <- get person "rectangle" ;;
            x <- show rectangle "x" ;;
            rectangle <- get person "rectangle" ;;
            y <- show rectangle "y" ;;
            Ok (context ++ "- Person " ++ int (i + 1)%nat ++ " at location ("
                  ++ x ++ ", " ++ y ++ ")" ++ nl))
         context ;;
     Ok (context ++ nl)
   else Ok context)%res.

(** [if (results.tags && results.tags.length > 0)] *)
Definition add_tags (results : value) (context : string) : Js.result string string :=
  (tags <- get results "tags" ;;
   due <- non_empty tags ;;
   if due then
     shown <-
       map_strict tags
         (fun tag =>
            name <- show tag "name" ;;
            confidence <- show tag "confidence" ;;
            Ok (VStr (name ++ " (" ++ confidence ++ ")"))) ;;
     joined <- join_strict shown ", " ;;
     Ok (context ++ "Tags: " ++ joined ++ nl ++ nl)
   else Ok context)%res.

(** [if (results.text && results.text.length > 0)] *)
Definition add_text (results : value) (context : string) : Js.result string string :=
  (text <- get results "text" ;;
   due <- non_empty text ;;
   if due then
     joined <- join_strict text " " ;;
     Ok (context ++ "Text Found in Image:" ++ nl ++ dquote ++ joined ++ dquote
           ++ nl ++ nl)
   else Ok context)%res.

(** [if (results.color)] *)
Definition add_color (results : value) (context : string) : Js.result string string :=
  (color <- get results "color" ;;
   if truthy color then
     let context := context ++ "Color Analysis:" ++ nl in
     context <-
       (if truthy (oget color "dominantColorForeground") then
          foreground <- show color "dominantColorForeground" ;;
          Ok (context ++ "- Foreground: " ++ foreground ++ nl)
        else Ok context) ;;
     context <-
       (if truthy (oget color "dominantColorBackground") then
          background <- show color "dominantColorBackground" ;;
          Ok (context ++ "- Background: " ++ background ++ nl)
        else Ok context) ;;
     context <-
       (if truthy (oget color "dominantColors") then
          joined <- join_strict (oget color "dominantColors") ", " ;;
          Ok (context ++ "- Dominant colors: " ++ joined ++ nl)
        else Ok context) ;;
     Ok (context ++ nl)
   else Ok context)%res.

(** [buildAnalysisContext(results)] *)
Definition buildAnalysisContext (results : value) : Js.result string string :=
  (let context := EmptyString in
   context <- add_caption results context ;;
   context <- add_detailed_captions results context ;;
   context <- add_objects results context ;;
   context <- add_people results context ;;
   context <- add_tags results context ;;
   context <- add_text results context ;;
   context <- add_color results context ;;
   Ok context)%res.

(** [generateEnhancedSuggestions(results)] *)
Definition generateEnhancedSuggestions (results : value)
    : Js.result string (list string) :=
  (let suggestions : list string := [] in
   analysis <- get results "analysis" ;;
   mainDescription <- get analysis "mainDescription" ;;
   let suggestions :=
     if truthy mainDescription then
       Chat.push (Chat.push suggestions "What story does this image tell?")
                 "What draws your attention most in this scene?"
     else suggestions in
   due <- non_empty (oget results "activities") ;;
   suggestions <-
     (if due then
        first <- ToString (ofirst (oget results "activities")) ;;
        Ok (Chat.push
              (Chat.push suggestions
                 ("Tell me more about the " ++ first ++ " happening here"))
              "What might happen next in this scene?")
      else Ok suggestions) ;;
   let suggestions :=
     if truthy (oget results "moodAtmosphere") then
       Chat.push (Chat.push suggestions "How does this image make you feel?")
                 "What creates the mood in this image?"
     else suggestions in
   due <- non_empty (oget results "interestingDetails") ;;
   let suggestions :=
     if due then
       Chat.push (Chat.push suggestions "What's the most interesting detail you notice?")
                 "What details might I have missed?"
     else suggestions in
   let suggestions :=
     if truthy (oget results "colorsComposition") then
       Chat.push (Chat.push suggestions "What makes this image visually appealing?")
                 "How do the colors work together?"
     else suggestions in
   let suggestions :=
     if truthy (oget results "sceneContext") then
       Chat.push (Chat.push suggestions
                    "What does the setting tell us about this moment?")
                 "If you were there, what would you notice first?"
     else suggestions in
   Ok (firstn 6 suggestions))%res.

(** [generateQuestionSuggestions(results)] *)
Definition generateQuestionSuggestions (results : value)
    : Js.result string (list string) :=
  (let suggestions : list string := [] in
   enhanced <- get results "enhanced" ;;
   if truthy enhanced && truthy (oget results "analysis") then
     generateEnhancedSuggestions results
   else
     let suggestions := Chat.push suggestions "What do you see in this image?" in
     let suggestions := Chat.push suggestions "Can you describe the main subject?" in
     due <- non_empty (oget results "objects") ;;
     suggestions <-
       (if due then
          objectNames <- map_strict (oget results "objects") (fun obj => get obj "object") ;;
          first <- ToString (ofirst objectNames) ;;
          let suggestions :=
            Chat.push suggestions ("Tell me more about the " ++ first ++ " in the image") in
          more <- gt (length_prop objectNames) 1 ;;
          Ok (if more
              then Chat.push suggestions "What's the relationship between the objects?"
              else suggestions)
        else Ok suggestions) ;;
     due <- non_empty (oget results "people") ;;
     suggestions <-
       (if due then
          let suggestions :=
            Chat.push suggestions "What can you tell me about the people in the image?" in
          more <- gt (length_prop (oget results "people")) 1 ;;
          Ok (if more
              then Chat.push suggestions
                     "How many people are in the image and where are they?"
              else suggestions)
        else Ok suggestions) ;;
     due <- non_empty (oget results "text") ;;
     let suggestions :=
       if due then
         Chat.push (Chat.push suggestions "What does the text in the image say?")
                   "Can you explain the meaning of the text?"
       else suggestions in
     let suggestions := Chat.push suggestions "What are the dominant colors?" in
     let suggestions := Chat.push suggestions "How would you describe the composition?" in
     let suggestions := Chat.push suggestions "What's the setting or location?" in
     let suggestions := Chat.push suggestions "What might be happening in this scene?" in
     Ok (firstn 6 suggestions))%res.

(** POST /suggestions *)
Definition suggestions (req : Request value) : M Response :=
  try_catch
    (analysisResults <- lift (get (body req) "analysisResults") ;;
     if negb (truthy analysisResults) then
       ret (res_status_json 400 (VObj
         [("error", VStr "Bad Request");
          ("message", VStr "Missing required field: analysisResults")]))
     else
       suggestions <- lift (generateQuestionSuggestions analysisResults) ;;
       timestamp <- now ;;
       ret (res_json (VObj
         [("suggestions", VArr (map VStr suggestions));
          ("timestamp", VStr timestamp)])))
    (fun error =>
       logger_error "Chat suggestions error:" ;;;
       ret (res_status_json 500 (VObj
         [("error", VStr "Internal Server Error");
          ("message", VStr "Failed to generate suggestions")]))).

End WithRuntime.

End ChatJson.

(* ================================================================== *)
(** * services/storageService.js *)
(* ================================================================== *)

Module Storage.

(** [getContentType(extension)] *)
Definition contentTypes : list (string * string) :=
  [(".jpg", "image/jpeg");
   (".jpeg", "image/jpeg");
   (".png", "image/png");
   (".gif", "image/gif");
   (".bmp", "image/bmp");
   (".webp", "image/webp");
   (".tiff", "image/tiff");
   (".svg", "image/svg+xml")].

Definition getContentType (extension : string) : string :=
  match assoc (JsString.toLowerCase extension) contentTypes with
  | Some t => t
  | None => "application/octet-stream"
  end.

Section WithRuntime.
Context {rt : Runtime}.

(** [uploadImageToBlob(imageBuffer, originalName)]: the two requests to
    the container and to the blob are recorded as one upload. *)
Definition uploadImageToBlob (imageBuffer : Buffer) (originalName : string) : M string :=
  try_catch
    (clients <- getAzureClients ;;
     if negb (blobService clients) then
       throw (Error "Blob storage service not available")
     else
       let containerName :=
         if JsString.truthy azureConfig.storage_containerName
         then azureConfig.storage_containerName else "images" in
       let fileExtension :=
         if JsString.truthy (JsString.extname originalName)
         then JsString.extname originalName else ".jpg" in
       o <- outside ;;
       let timestamp := Number_toString (inject_Z (clock_ms o)) in
       let randomSuffix := random_hex o in
       let blobName := timestamp ++ "-" ++ randomSuffix ++ fileExtension in
       let contentType := getContentType fileExtension in
       blobUrl <- await (BlobUpload containerName blobName contentType imageBuffer)
                    (fun o => blob_service o containerName blobName imageBuffer) ;;
       logger_info "Image uploaded to blob storage" ;;;
       ret blobUrl)
    (fun error =>
       logger_error "Failed to upload image to blob storage:" ;;;
       throw (Error ("Failed to upload image: " ++ message error))).

End WithRuntime.

End Storage.

(* ================================================================== *)
(** * index.js: the upload middleware *)
(* ================================================================== *)

Module Upload.

Definition MulterError (errCode errMessage : string) : JsError :=
  {| name := VStr "MulterError"; code := VStr errCode; type := VUndef;
     message := errMessage; stack := VUndef; details := VUndef; response := None |}.

(** [limits.fileSize] *)
Definition fileSize : Z := 10 * 1024 * 1024.

(** [fileFilter] *)
Definition fileFilter (f : UploadedFile) : bool :=
  JsString.startsWith (mimetype f) "image/".

(** [upload.single('image')] under the configuration of [index.js],
    on a request that passed the content type test of
    [conditionalUpload], which multer parses as a multipart body.
    Multer replaces [req.body] by the object it builds from the text
    fields. A file part under another field name, a file the filter
    refuses and a file that reaches the size limit end in an error (the
    parser reports the limit as soon as it has read [fileSize] bytes);
    an accepted file becomes [req.file]. *)
Definition upload_single (req : Request value) : M (Step value) :=
  let req := with_body req (fields req) in
  match upload req with
  | None => ret (Next req)
  | Some f =>
      if negb (String.eqb (fieldname f) "image") then
        ret (NextError (MulterError "LIMIT_UNEXPECTED_FILE" "Unexpected field"))
      else if negb (fileFilter f) then
        ret (NextError (Error "Only image files are allowed!"))
      else if fileSize <=? size f then
        ret (NextError (MulterError "LIMIT_FILE_SIZE" "File too large"))
      else ret (Next (with_file req f))
  end.

Definition conditionalUpload (req : Request value) : M (Step value) :=
  let contentType := match content_type req with Some c => c | None => EmptyString end in
  if JsString.includes contentType "multipart/form-data" then upload_single req
  else ret (Next req).

End Upload.

(* ================================================================== *)
(** * routes/vision.js *)
(* ================================================================== *)

Module Vision.
Import Express.

Definition defaultFeatures : list string := ["Caption"; "Objects"; "Tags"; "People"].

(** [req.body.features ? req.body.features.split(',') : [...]] *)
Definition requested_features (b : value) : Js.result string (list string) :=
  let features := oget b "features" in
  if truthy features then
    match features with
    | VStr s => Ok (JsString.split "," s)
    | _ => Throw "TypeError: req.body.features.split is not a function"
    end
  else Ok defaultFeatures.

Section WithRuntime.
Context {rt : Runtime}.

(** The [text] field: the lines of all blocks joined by newlines, or
    [null]. *)
Definition read_text (result : value) : Js.result string value :=
  match oget (oget result "readResult") "blocks" with
  | VUndef | VNull => Ok VNull
  | VArr blocks =>
      (per_block <- mapM (fun block =>
                      lines <- get block "lines" ;;
                      map_strict lines (fun line => get line "text")) blocks ;;
       joined <- join_strict (VArr (flatten per_block)) nl ;;
       Ok (or_else (VStr joined) VNull))%res
  | _ => Throw "TypeError: flatMap is not a function"
  end.

(** [part?.values?.map(f)]. On an array, [values] is the method of
    [Array.prototype], which has no [map]: a TypeError. *)
Definition values_map (part : value) (f : value -> Js.result string value)
    : Js.result string value :=
  match part with
  | VArr _ => Throw "TypeError: values?.map is not a function"
  | _ => omap (oget part "values") f
  end.

(** The object [analysisResponse] built from the answer of the Vision
    service. *)
Definition analysisResponse (timestamp : string) (imageUrl : value) (result : value)
    : Js.result string value :=
  (let captionResult := oget result "captionResult" in
   denseCaptions <-
     values_map (oget result "denseCaptionsResult")
       (fun cap =>
          text <- get cap "text" ;;
          Ok (VObj [("text", text);
                    ("confidence", oget cap "confidence");
                    ("boundingBox", oget cap "boundingBox")])) ;;
   objects <-
     values_map (oget result "objectsResult")
       (fun obj =>
          tags <- get obj "tags" ;;
          Ok (VObj [("name", or_else (oget (ofirst tags) "name") (oget obj "name"));
                    ("confidence",
                      or_else (oget (ofirst tags) "confidence") (oget obj "confidence"));
                    ("boundingBox", oget obj "boundingBox")])) ;;
   people <-
     values_map (oget result "peopleResult")
       (fun person =>
          confidence <- get person "confidence" ;;
          Ok (VObj [("confidence", confidence);
                    ("boundingBox", oget person "boundingBox")])) ;;
   tags <-
     values_map (oget result "tagsResult")
       (fun tag =>
          name <- get tag "name" ;;
          Ok (VObj [("name", name); ("confidence", oget tag "confidence")])) ;;
   smartCrops <-
     values_map (oget result "smartCropsResult")
       (fun crop =>
          aspectRatio <- get crop "aspectRatio" ;;
          Ok (VObj [("aspectRatio", aspectRatio);
                    ("boundingBox", oget crop "boundingBox")])) ;;
   text <- read_text result ;;
   Ok (VObj
     [("success", VBool true);
      ("timestamp", VStr timestamp);
      ("imageUrl", imageUrl);
      ("analysis", VObj
        [("caption", or_else (oget captionResult "text") VNull);
         ("confidence", or_else (oget captionResult "confidence") VNull);
         ("denseCaptions", or_else denseCaptions (VArr []));
         ("objects", or_else objects (VArr []));
         ("people", or_else people (VArr []));
         ("tags", or_else tags (VArr []));
         ("smartCrops", or_else smartCrops (VArr []));
         ("text", text)])]))%res.

(** The image, the features and the language of a request, or the
    answer that refuses it. *)
Definition read_input (req : Request value)
    : M (Buffer * list string * value + Response) :=
  match file req with
  | Some f =>
      features <- lift (requested_features (body req)) ;;
      let language := or_else (oget (body req) "language") (VStr "en") in
      ret (inl (buffer f, features, language))
  | None =>
      if truthy (oget (body req) "image") then
        try_catch
          (imageBuffer <-
             match Buffer_from_base64 (oget (body req) "image") with
             | Some b => ret b
             | None => throw (TypeError "The first argument must be of type string")
             end ;;
           features <- lift (requested_features (body req)) ;;
           let language := or_else (oget (body req) "language") (VStr "en") in
           ret (inl (imageBuffer, features, language)))
          (fun decodeError =>
             ret (inr (res_status_json 400 (VObj
               [("error", VStr "Invalid image data");
                ("message", VStr "Failed to decode base64 image data")]))))
      else
        ret (inr (res_status_json 400 (VObj
          [("error", VStr "No image data provided");
           ("message",
             VStr "Please provide image data either as multipart file or base64 string")])))
  end.

Definition byteLength (b : Buffer) : Z := Z.of_nat (List.length b).

(** POST /analyze *)
Definition analyze (req : Request value) : M Response :=
  try_catch
    (input <- read_input req ;;
     match input with
     | inr refusal => ret refusal
     | inl (imageBuffer, features, language) =>
         logger_info "Starting image analysis" ;;;
         if byteLength imageBuffer =? 0 then
           ret (res_status_json 400 (VObj
             [("error", VStr "Invalid image data");
              ("message", VStr "Image buffer is empty or corrupted")]))
         else if 20 * 1024 * 1024 <? byteLength imageBuffer then
           ret (res_status_json 400 (VObj
             [("error", VStr "Image too large");
              ("message",
                VStr ("Image size ("
                      ++ Number_toString (inject_Z (round_div_1024 (byteLength imageBuffer)))
                      ++ "KB) exceeds the 20MB limit"))]))
         else
           visionEndpoint <- getenv VISION_ENDPOINT ;;
           visionApiKey <- getenv VISION_API_KEY ;;
           if negb (env_truthy visionEndpoint) || negb (env_truthy visionApiKey) then
             ret (res_status_json 503 (VObj
               [("error", VStr "Vision service unavailable");
                ("message", VStr "Azure Vision service is not configured")]))
           else
             language <- lift (ToString language) ;;
             logger_info "Making v4.0 API request" ;;;
             result <- await (VisionAnalyze features language imageBuffer)
                         (fun o => vision_service o features language imageBuffer) ;;
             _ <- lift (object_keys result) ;;
             logger_info "Vision API v4.0 result structure:" ;;;
             imageUrl <-
               try_catch
                 (match file req with
                  | Some f =>
                      blobUrl <- Storage.uploadImageToBlob imageBuffer (originalname f) ;;
                      logger_info "Image uploaded to blob storage" ;;;
                      ret (VStr blobUrl)
                  | None =>
                      throw (TypeError
                        "Cannot read properties of undefined (reading 'originalname')")
                  end)
                 (fun uploadError =>
                    logger_warn "Failed to upload image to blob storage" ;;;
                    ret VNull) ;;
             timestamp <- now ;;
             response <- lift (analysisResponse timestamp imageUrl result) ;;
             logger_info "Image analysis completed successfully" ;;;
             ret (res_json response)
     end)
    (fun error =>
       logger_error "Image analysis failed:" ;;;
       node_env <- getenv NODE_ENV ;;
       match response error with
       | Some (st, data) =>
           logger_error "Azure API Error Response:" ;;;
           ret (res_status_json st (VObj
             [("error", VStr "Analysis failed");
              ("message",
                or_else (oget (oget data "error") "message")
                        (VStr "Failed to analyze the image. Please try again."));
              ("details", if env_is node_env "development" then data else VUndef)]))
       | None =>
           ret (res_status_json 500 (VObj
             [("error", VStr "Analysis failed");
              ("message", VStr "Failed to analyze the image. Please try again.");
              ("details", if env_is node_env "development"
                          then VStr (message error) else VUndef)]))
       end).

(** The route of the file that the properties below are about; it is
    registered without [validateImageAnalysisRequest], which the file
    imports and never uses. *)
Definition router : list (Route value) :=
  [ {| route_method := "POST"; route_path := "/analyze";
       route_stack := [respond analyze] |} ].

(** [app.use('/api/vision', conditionalUpload, visionRoutes)] *)
Definition api_vision (req : Request value) : M Response :=
  serve [Upload.conditionalUpload; dispatch router] req.

End WithRuntime.

End Vision.

(* ================================================================== *)
(** * services/enhancedVisionService.js *)
(* ================================================================== *)

Module EnhancedVision.

Definition analysisPrompt : string :=
  nl
  ++ "You are an expert image analyst. Please analyze this image in detail and provide:" ++ nl
  ++ nl
  ++ "1. **Main Description**: A rich, engaging description of what you see (2-3 sentences)" ++ nl
  ++ "2. **Key Objects**: List all important objects, people, animals, or items you can identify" ++ nl
  ++ "3. **Scene Context**: Describe the setting, environment, or context (indoor/outdoor, time of day, weather, etc.)" ++ nl
  ++ "4. **Activities**: What activities or actions are happening in the image?" ++ nl
  ++ "5. **Mood/Atmosphere**: What mood or feeling does the image convey?" ++ nl
  ++ "6. **Text Content**: Any text, signs, or writing visible in the image" ++ nl
  ++ "7. **Colors & Composition**: Notable colors, lighting, and visual composition" ++ nl
  ++ "8. **Interesting Details**: Any unique, unusual, or noteworthy details" ++ nl
  ++ nl
  ++ "Please make your analysis engaging and conversational, as if you're describing the image to a friend. Be thorough but natural in your description." ++ nl
  ++ nl
  ++ "Format your response as a JSON object with these fields:" ++ nl
  ++ "- mainDescription: string" ++ nl
  ++ "- objects: array of strings" ++ nl
  ++ "- sceneContext: string" ++ nl
  ++ "- activities: array of strings" ++ nl
  ++ "- moodAtmosphere: string" ++ nl
  ++ "- textContent: string" ++ nl
  ++ "- colorsComposition: string" ++ nl
  ++ "- interestingDetails: array of strings" ++ nl
  ++ "- confidence: number (0-1)" ++ nl.

(** [colorsComposition?.split(',').map(c => c.trim()).slice(0, 3)] *)
Definition dominantColors (colorsComposition : value) : Js.result string value :=
  match colorsComposition with
  | VUndef | VNull => Ok VUndef
  | VStr s => Ok (VArr (map VStr (firstn 3 (map JsString.trim (JsString.split "," s)))))
  | _ => Throw "TypeError: split is not a function"
  end.

(** [...(v || [])] inside an array literal: the elements of an array. *)
Definition spread (v : value) : list value :=
  match v with
  | VArr items => items
  | _ => []
  end.

(** The object returned by [analyzeImageWithGPT4o], built from the
    parsed answer of the model and the usage record of the response. *)
Definition reshape (analysisResult usage : value) : Js.result string value :=
  (mainDescription <- get analysisResult "mainDescription" ;;
   let confidence := or_else (oget analysisResult "confidence") (VNum (9 # 10)) in
   objects <-
     omap (oget analysisResult "objects")
       (fun obj =>
          Ok (VObj [("object", obj);
                    ("confidence", VNum (85 # 100));
                    ("rectangle",
                      VObj [("x", VInt 0); ("y", VInt 0); ("w", VInt 100); ("h", VInt 100)])])) ;;
   objectTags <-
     omap (oget analysisResult "objects")
       (fun obj => Ok (VObj [("name", obj); ("confidence", VNum (85 # 100))])) ;;
   activityTags <-
     omap (oget analysisResult "activities")
       (fun activity => Ok (VObj [("name", activity); ("confidence", VNum (8 # 10))])) ;;
   colors <- dominantColors (oget analysisResult "colorsComposition") ;;
   Ok (VObj
     [("enhanced", VBool true);
      ("model", VStr "gpt-4o");
      ("analysis", analysisResult);
      ("caption", VObj [("text", mainDescription); ("confidence", confidence)]);
      ("description",
        VObj [("captions",
          VArr [VObj [("text", mainDescription); ("confidence", confidence)]])]);
      ("objects", or_else objects (VArr []));
      ("tags",
        VArr (spread (or_else objectTags (VArr []))
              ++ spread (or_else activityTags (VArr [])))%list);
      ("text",
        if truthy (oget analysisResult "textContent")
        then VArr [oget analysisResult "textContent"] else VArr []);
      ("color", VObj [("dominantColors", or_else colors (VArr []))]);
      ("sceneContext", oget analysisResult "sceneContext");
      ("activities", or_else (oget analysisResult "activities") (VArr []));
      ("moodAtmosphere", oget analysisResult "moodAtmosphere");
      ("colorsComposition", oget analysisResult "colorsComposition");
      ("interestingDetails", or_else (oget analysisResult "interestingDetails") (VArr []));
      ("usage", usage)]))%res.

Section WithRuntime.
Context {rt : Runtime}.

(** [response.choices[0].message.content] *)
Definition first_content (response : value) : Js.result string value :=
  (choices <- get response "choices" ;;
   choice <- index0 choices ;;
   msg <- get choice "message" ;;
   get msg "content")%res.

(** [analyzeImageWithGPT4o(imageBuffer, mimeType)] *)
Definition analyzeImageWithGPT4o (imageBuffer : Buffer) (mimeType : string) : M value :=
  try_catch
    (clients <- getAzureClients ;;
     if negb (openai clients) then throw (Error "OpenAI client not initialized")
     else
       let base64Image := Buffer_toString_base64 imageBuffer in
       let imageUrl := "data:" ++ mimeType ++ ";base64," ++ base64Image in
       logger_info "Starting enhanced image analysis with GPT-4o" ;;;
       response <- await (OpenAIVision analysisPrompt imageUrl)
                     (fun o => openai_vision_service o analysisPrompt imageUrl) ;;
       content <- lift (first_content response) ;;
       analysisResult <-
         match JSON_parse content with
         | Some v => ret v
         | None => throw (Error "SyntaxError: Unexpected token in JSON")
         end ;;
       _ <- lift (get analysisResult "confidence") ;;
       logger_info "Enhanced image analysis completed" ;;;
       lift (reshape analysisResult (oget response "usage")))
    (fun error =>
       logger_error "Enhanced vision analysis failed:" ;;;
       throw (Error ("Enhanced vision analysis failed: " ++ message error))).

End WithRuntime.

End EnhancedVision.

(* ================================================================== *)
(** * Definitions used to state the properties *)
(* ================================================================== *)

Module Spec.

(** [field || []] *)
Definition from_option {A : Type} (o : option (list A)) : list A :=
  match o with Some l => l | None => [] end.

(** The local [error] object once the three classification steps ran. *)
Definition classified (err : JsError) : ErrorHandler.ErrorInfo :=
  ErrorHandler.network_error err
    (ErrorHandler.azure_error err
       (ErrorHandler.specific_error err
          (ErrorHandler.mkError 500 "Internal server error"))).

(** A body is refused by [translationSchema] when its text is missing,
    empty or too long, or when its target language is not a supported
    code. *)
Definition bad_translation_body (b : value) : Prop :=
  oget b "text" = VUndef
  \/ oget b "text" = VStr EmptyString
  \/ (exists t, oget b "text" = VStr t /\ 10000 < Joi.strlen t)
  \/ (forall c, In c Validation.supportedLanguages ->
        oget b "targetLanguage" <> VStr c).

(** The router without the second registration of GET /languages. *)
Definition router_without_second : list (Express.Route value) :=
  removelast Translation.router.

(** ** The sections of the chat context *)

Inductive ContextSection : Type :=
| SecCaption | SecDetailedCaptions | SecObjects | SecPeople | SecTags
| SecOcrText | SecColor.

(** The fixed order: caption, detailed captions, objects, people, tags,
    OCR text, color. *)
Definition section_order : list ContextSection :=
  [SecCaption; SecDetailedCaptions; SecObjects; SecPeople; SecTags;
   SecOcrText; SecColor].

(** A section is due when its field is present, and not empty for the
    list-valued fields objects, people, tags and text. *)
Definition section_due (r : Chat.AnalysisResults) (k : ContextSection) : bool :=
  match k with
  | SecCaption => Chat.present (Chat.caption r)
  | SecDetailedCaptions => Chat.present (Chat.description r)
  | SecObjects => Chat.non_empty (Chat.objects r)
  | SecPeople => Chat.non_empty (Chat.people r)
  | SecTags => Chat.non_empty (Chat.tags r)
  | SecOcrText => Chat.non_empty (Chat.text r)
  | SecColor => Chat.present (Chat.color r)
  end.

Section WithRuntime.
Context {rt : Runtime}.
Import Chat.

Definition caption_line (c : Caption) : string :=
  "- " ++ caption_text c ++ " (confidence: " ++ num (caption_confidence c) ++ ")" ++ nl.

Definition object_line (obj : DetectedObject) : string :=
  "- " ++ object obj ++ " at location (" ++ num (x (object_rectangle obj)) ++ ", "
    ++ num (y (object_rectangle obj)) ++ ") with confidence "
    ++ num (object_confidence obj) ++ nl.

Definition person_line (ip : nat * Person) : string :=
  "- Person " ++ int (fst ip + 1)%nat ++ " at location ("
    ++ num (x (person_rectangle (snd ip))) ++ ", "
    ++ num (y (person_rectangle (snd ip))) ++ ")" ++ nl.

Definition color_lines (c : Color) : string :=
  (match dominantColorForeground c with
   | Some (String a fg) => "- Foreground: " ++ String a fg ++ nl
   | _ => EmptyString
   end)
  ++ (match dominantColorBackground c with
      | Some (String a bg) => "- Background: " ++ String a bg ++ nl
      | _ => EmptyString
      end)
  ++ (match dominantColors c with
      | Some cs => "- Dominant colors: " ++ String.concat ", " cs ++ nl
      | None => EmptyString
      end).

(** The text of each section, as a function of the analysis results. *)
Definition section_text (r : AnalysisResults) (k : ContextSection) : string :=
  match k with
  | SecCaption =>
      match caption r with
      | Some c =>
          "Image Description: " ++ caption_text c ++ " (confidence: "
            ++ num (caption_confidence c) ++ ")" ++ nl ++ nl
      | None => EmptyString
      end
  | SecDetailedCaptions =>
      match description r with
      | Some d =>
          "Detailed Captions:" ++ nl
            ++ String.concat EmptyString (map caption_line (captions d)) ++ nl
      | None => EmptyString
      end
  | SecObjects =>
      "Detected Objects:" ++ nl
        ++ String.concat EmptyString (map object_line (from_option (objects r))) ++ nl
  | SecPeople =>
      let persons := from_option (people r) in
      "People Detected: " ++ int (List.length persons) ++ " person(s)" ++ nl
        ++ String.concat EmptyString
             (map person_line (combine (seq 0 (List.length persons)) persons))
        ++ nl
  | SecTags =>
      "Tags: "
        ++ String.concat ", "
             (map (fun tag => tag_name tag ++ " (" ++ num (tag_confidence tag) ++ ")")
                  (from_option (tags r)))
        ++ nl ++ nl
  | SecOcrText =>
      "Text Found in Image:" ++ nl ++ dquote
        ++ String.concat " " (from_option (text r)) ++ dquote ++ nl ++ nl
  | SecColor =>
      match color r with
      | Some c => "Color Analysis:" ++ nl ++ color_lines c ++ nl
      | None => EmptyString
      end
  end.

(** The concatenation, in the fixed order, of the sections that are due. *)
Definition expected_context (r : AnalysisResults) : string :=
  String.concat EmptyString
    (map (section_text r) (filter (section_due r) section_order)).

End WithRuntime.

(** ** Schemas of JSON data *)

(** The field paths of a value: the keys of an object, each followed by
    the paths below it; the elements of an array are entered through the
    step [[]]. *)
Fixpoint field_paths (v : value) : list (list string) :=
  match v with
  | VObj fields =>
      (fix of_fields (fs : list (string * value)) : list (list string) :=
         match fs with
         | [] => []
         | (k, x) :: rest =>
             ([k] :: map (cons k) (field_paths x) ++ of_fields rest)%list
         end) fields
  | VArr items =>
      (fix of_items (xs : list value) : list (list string) :=
         match xs with
         | [] => []
         | x :: rest => (map (cons "[]") (field_paths x) ++ of_items rest)%list
         end) items
  | _ => []
  end.

Definition path_eqb (p q : list string) : bool :=
  if list_eq_dec string_dec p q then true else false.

Definition has_path (v : value) (p : list string) : bool :=
  existsb (path_eqb p) (field_paths v).

(** [b] has the schema of [a]: every field name of [a], at every depth,
    is a field name of [b] at the same place. *)
Definition same_schema (a b : value) : Prop :=
  forall p, has_path a p = true -> has_path b p = true.

(** Shapes: any value, a primitive of a given type, an array of one
    shape, an object that has at least the listed fields. *)
Inductive shape : Type :=
| SAny | SBool | SNum | SStr
| SArr (element : shape)
| SObj (fields : list (string * shape)).

Definition has_key (k : string) (v : value) : bool := JsString.mem k (keys v).

Fixpoint conforms (sh : shape) (v : value) {struct sh} : bool :=
  match sh with
  | SAny => true
  | SBool => match v with VBool _ => true | _ => false end
  | SNum => match v with VNum _ => true | _ => false end
  | SStr => match v with VStr _ => true | _ => false end
  | SArr element =>
      match v with
      | VArr items => forallb (conforms element) items
      | _ => false
      end
  | SObj fields =>
      match v with
      | VObj _ =>
          (fix all (fs : list (string * shape)) : bool :=
             match fs with
             | [] => true
             | (k, sh') :: rest => has_key k v && conforms sh' (oget v k) && all rest
             end) fields
      | _ => false
      end
  end.

(** The format that [analysisPrompt] asks the model to answer in. *)
Definition prompt_format : shape :=
  SObj [("mainDescription", SStr);
        ("objects", SArr SStr);
        ("sceneContext", SStr);
        ("activities", SArr SStr);
        ("moodAtmosphere", SStr);
        ("textContent", SStr);
        ("colorsComposition", SStr);
        ("interestingDetails", SArr SStr);
        ("confidence", SNum)].

Definition caption_shape : shape := SObj [("text", SStr); ("confidence", SNum)].

(** The legacy analysis format, which the chat routes read and the
    client declares as [AnalysisResults]. *)
Definition legacy_format : shape :=
  SObj [("caption", caption_shape);
        ("description", SObj [("captions", SArr caption_shape)]);
        ("objects",
          SArr (SObj [("object", SStr); ("confidence", SNum);
                      ("rectangle",
                        SObj [("x", SNum); ("y", SNum); ("w", SNum); ("h", SNum)])]));
        ("tags", SArr (SObj [("name", SStr); ("confidence", SNum)]));
        ("text", SArr SStr);
        ("color", SObj [("dominantColors", SArr SStr)]);
        ("enhanced", SBool);
        ("analysis", SObj [("mainDescription", SStr); ("objects", SArr SStr);
                           ("confidence", SNum)]);
        ("sceneContext", SStr);
        ("activities", SArr SStr);
        ("moodAtmosphere", SStr);
        ("colorsComposition", SStr);
        ("interestingDetails", SArr SStr)].

(** The keys of the object returned by the enhanced path. *)
Definition enhanced_keys : list string :=
  ["enhanced"; "model"; "analysis"; "caption"; "description"; "objects"; "tags";
   "text"; "color"; "sceneContext"; "activities"; "moodAtmosphere";
   "colorsComposition"; "interestingDetails"; "usage"].

(** ** Frame and trace properties of handlers *)

(** [m] leaves the server state as it found it, whatever the outside
    answers. *)
Definition preserves {A : Type} (m : M A) : Prop :=
  forall (o : Outside) (s : Server), final_state m o s = s.

(** Every call that [m] makes satisfies [P]. *)
Definition emits {A : Type} (P : call -> Prop) (m : M A) : Prop :=
  forall (o : Outside) (s : Server), Forall P (trace m o s).

(** [m] never throws: it always yields a value. *)
Definition answers {A : Type} (m : M A) : Prop :=
  forall (o : Outside) (s : Server), exists a, run m o s = Ok a.

(** Every value that [m] yields satisfies [Q]. *)
Definition returns {A : Type} (Q : A -> Prop) (m : M A) : Prop :=
  forall (o : Outside) (s : Server) (a : A), run m o s = Ok a -> Q a.

(** A call other than an upload to blob storage. *)
Definition not_blob_upload (c : call) : Prop :=
  match c with BlobUpload _ _ _ _ => False | _ => True end.

(** A response that reports a successful analysis carries a null image
    URL. *)
Definition null_imageUrl_on_success (res : Response) : Prop :=
  oget (jsonBody res) "success" = VBool true ->
  oget (jsonBody res) "imageUrl" = VNull.

(** The message arrays sent to the chat completion API in a trace. *)
Fixpoint messages_sent (t : list call) : list (list Message) :=
  match t with
  | [] => []
  | OpenAIChat messages _ _ :: rest => messages :: messages_sent rest
  | _ :: rest => messages_sent rest
  end.

(** The only call a chat request may make besides log lines: one chat
    completion whose messages are built from the three fields of the
    body. *)
Definition chat_call_from_body {rt : Runtime} (b : Chat.ChatBody) (c : call) : Prop :=
  match c with
  | Logged _ _ => True
  | OpenAIChat messages _ _ =>
      exists q r,
        Chat.question b = Some q /\ Chat.analysisResults b = Some r
        /\ messages = Chat.buildMessages q r (from_option (Chat.conversationHistory b))
  | _ => False
  end.

(** ** Kinds of suggested questions *)

(** A question about a detected object: the template instantiated with
    the name of the first object. *)
Definition has_object_questions (l : list string) : bool :=
  existsb (fun q => JsString.startsWith q "Tell me more about the ") l.

Definition has_people_questions (l : list string) : bool :=
  JsString.mem "What can you tell me about the people in the image?" l.

Definition first_text_question : string := "What does the text in the image say?".
Definition second_text_question : string := "Can you explain the meaning of the text?".

Definition has_text_questions (l : list string) : bool :=
  JsString.mem first_text_question l || JsString.mem second_text_question l.

Definition has_openers (l : list string) : bool :=
  JsString.mem "What do you see in this image?" l
  && JsString.mem "Can you describe the main subject?" l.

(** The derivation as the specification has it: each kind of question
    is there exactly when its field is not empty, the openers are always
    there, and there are at most six entries. *)
Definition derived_from_fields (r : Chat.AnalysisResults) (l : list string) : Prop :=
  has_object_questions l = Chat.non_empty (Chat.objects r)
  /\ has_people_questions l = Chat.non_empty (Chat.people r)
  /\ has_text_questions l = Chat.non_empty (Chat.text r)
  /\ has_openers l = true
  /\ (List.length l <= 6)%nat.

(** The number of questions that the objects and the people contribute:
    one for a single item, two for more. *)
Definition questions_before_text (r : Chat.AnalysisResults) : nat :=
  (Nat.min 2 (List.length (from_option (Chat.objects r)))
   + Nat.min 2 (List.length (from_option (Chat.people r))))%nat.

(** The suggestions field of a response body. *)
Definition suggestions_of (res : Response) : value := oget (jsonBody res) "suggestions".

(** ** JSON that follows the interface [AnalysisResults]

    A JSON value is read as the record of the client interface: a
    property marked [?] may be absent, every other property has the
    type declared for it. Properties that the interface does not name
    are ignored. *)

Definition read_string (v : value) : option string :=
  match v with VStr s => Some s | _ => None end.

Definition read_number (v : value) : option Q :=
  match v with VNum q => Some q | _ => None end.

Definition read_boolean (v : value) : option bool :=
  match v with VBool b => Some b | _ => None end.

Definition read_optional {A : Type} (read : value -> option A) (v : value)
    : option (option A) :=
  match v with
  | VUndef => Some None
  | _ => option_map Some (read v)
  end.

Fixpoint read_items {A : Type} (read : value -> option A) (items : list value)
    : option (list A) :=
  match items with
  | [] => Some []
  | item :: rest =>
      match read item, read_items read rest with
      | Some a, Some l => Some (a :: l)
      | _, _ => None
      end
  end.

Definition read_array {A : Type} (read : value -> option A) (v : value)
    : option (list A) :=
  match v with VArr items => read_items read items | _ => None end.

Definition read_Rectangle (v : value) : option Chat.Rectangle :=
  match oget v "x", oget v "y", oget v "w", oget v "h" with
  | VNum x, VNum y, VNum w, VNum h =>
      Some {| Chat.x := x; Chat.y := y; Chat.w := w; Chat.h := h |}
  | _, _, _, _ => None
  end.

Definition read_Caption (v : value) : option Chat.Caption :=
  match oget v "text", oget v "confidence" with
  | VStr text, VNum confidence =>
      Some {| Chat.caption_text := text; Chat.caption_confidence := confidence |}
  | _, _ => None
  end.

Definition read_Description (v : value) : option Chat.Description :=
  match v with
  | VObj _ =>
      option_map (fun l => {| Chat.captions := l |})
        (read_array read_Caption (oget v "captions"))
  | _ => None
  end.

Definition read_DetectedObject (v : value) : option Chat.DetectedObject :=
  match oget v "object", oget v "confidence", read_Rectangle (oget v "rectangle") with
  | VStr name, VNum confidence, Some rectangle =>
      Some {| Chat.object := name; Chat.object_confidence := confidence;
              Chat.object_rectangle := rectangle |}
  | _, _, _ => None
  end.

Definition read_Person (v : value) : option Chat.Person :=
  option_map (fun rectangle => {| Chat.person_rectangle := rectangle |})
    (read_Rectangle (oget v "rectangle")).

Definition read_Tag (v : value) : option Chat.Tag :=
  match oget v "name", oget v "confidence" with
  | VStr name, VNum confidence =>
      Some {| Chat.tag_name := name; Chat.tag_confidence := confidence |}
  | _, _ => None
  end.

Definition read_Color (v : value) : option Chat.Color :=
  match v with
  | VObj _ =>
      match read_optional read_string (oget v "dominantColorForeground"),
            read_optional read_string (oget v "dominantColorBackground"),
            read_optional (read_array read_string) (oget v "dominantColors") with
      | Some foreground, Some background, Some colors =>
          Some {| Chat.dominantColorForeground := foreground;
                  Chat.dominantColorBackground := background;
                  Chat.dominantColors := colors |}
      | _, _, _ => None
      end
  | _ => None
  end.

Definition read_Analysis (v : value) : option Chat.Analysis :=
  match v with
  | VObj _ =>
      match read_optional read_string (oget v "mainDescription"),
            read_optional (read_array read_string) (oget v "objects"),
            read_optional read_number (oget v "confidence") with
      | Some mainDescription, Some objects, Some confidence =>
          Some {| Chat.mainDescription := mainDescription;
                  Chat.analysis_objects := objects;
                  Chat.analysis_confidence := confidence |}
      | _, _, _ => None
      end
  | _ => None
  end.

(** The fields of the standard analysis and those of the enhanced one. *)
Definition read_standard (v : value)
    : option (option Chat.Caption * option Chat.Description
              * option (list Chat.DetectedObject) * option (list Chat.Person)
              * option (list Chat.Tag) * option (list string) * option Chat.Color) :=
  match read_optional read_Caption (oget v "caption"),
        read_optional read_Description (oget v "description"),
        read_optional (read_array read_DetectedObject) (oget v "objects"),
        read_optional (read_array read_Person) (oget v "people"),
        read_optional (read_array read_Tag) (oget v "tags"),
        read_optional (read_array read_string) (oget v "text"),
        read_optional read_Color (oget v "color") with
  | Some caption, Some description, Some objects, Some people, Some tags,
    Some text, Some color =>
      Some (caption, description, objects, people, tags, text, color)
  | _, _, _, _, _, _, _ => None
  end.

Definition read_enhanced (v : value)
    : option (option bool * option Chat.Analysis * option string
              * option (list string) * option string * option string
              * option (list string)) :=
  match read_optional read_boolean (oget v "enhanced"),
        read_optional read_Analysis (oget v "analysis"),
        read_optional read_string (oget v "sceneContext"),
        read_optional (read_array read_string) (oget v "activities"),
        read_optional read_string (oget v "moodAtmosphere"),
        read_optional read_string (oget v "colorsComposition"),
        read_optional (read_array read_string) (oget v "interestingDetails") with
  | Some enhanced, Some analysis, Some sceneContext, Some activities,
    Some moodAtmosphere, Some colorsComposition, Some interestingDetails =>
      Some (enhanced, analysis, sceneContext, activities, moodAtmosphere,
            colorsComposition, interestingDetails)
  | _, _, _, _, _, _, _ => None
  end.

Definition read_AnalysisResults (v : value) : option Chat.AnalysisResults :=
  match v with
  | VObj _ =>
      match read_standard v, read_enhanced v with
      | Some (caption, description, objects, people, tags, text, color),
        Some (enhanced, analysis, sceneContext, activities, moodAtmosphere,
              colorsComposition, interestingDetails) =>
          Some {| Chat.caption := caption;
                  Chat.description := description;
                  Chat.objects := objects;
                  Chat.people := people;
                  Chat.tags := tags;
                  Chat.text := text;
                  Chat.color := color;
                  Chat.enhanced := enhanced;
                  Chat.analysis := analysis;
                  Chat.sceneContext := sceneContext;
                  Chat.activities := activities;
                  Chat.moodAtmosphere := moodAtmosphere;
                  Chat.colorsComposition := colorsComposition;
                  Chat.interestingDetails := interestingDetails |}
      | _, _ => None
      end
  | _ => None
  end.

End Spec.

(* ================================================================== *)
(** * Concrete requests, servers and service answers *)
(* ================================================================== *)

Module Samples.

(** Stand-ins for the runtime primitives: integers are rendered in
    decimal and other rationals as a fraction, base64 is read in the
    standard alphabet, every buffer is written as one fixed base64
    string and every JSON text is read as the one answer [model_answer]. *)
Definition decimal (n : Z) : string := DecimalString.NilZero.string_of_int (Z.to_int n).

Definition render_number (q : Q) : string :=
  if (Z.pos (Qden q) =? 1) then decimal (Qnum q)
  else decimal (Qnum q) ++ "/" ++ decimal (Z.pos (Qden q)).

Definition sextet (a : ascii) : option N :=
  let n := N_of_ascii a in
  if (65 <=? n)%N && (n <=? 90)%N then Some (n - 65)%N
  else if (97 <=? n)%N && (n <=? 122)%N then Some (n - 71)%N
  else if (48 <=? n)%N && (n <=? 57)%N then Some (n + 4)%N
  else if (n =? 43)%N then Some 62%N
  else if (n =? 47)%N then Some 63%N
  else None.

(** [acc] holds [bits] pending bits; every full octet is emitted. *)
Fixpoint decode_base64 (s : string) (acc : N) (bits : N) : Buffer :=
  match s with
  | EmptyString => []
  | String a rest =>
      match sextet a with
      | None => decode_base64 rest acc bits
      | Some v =>
          let acc := (acc * 64 + v)%N in
          let bits := (bits + 6)%N in
          if (8 <=? bits)%N then
            let bits := (bits - 8)%N in
            match Byte.of_N (acc / 2 ^ bits) with
            | Some b => b :: decode_base64 rest (acc mod 2 ^ bits) bits
            | None => decode_base64 rest (acc mod 2 ^ bits) bits
            end
          else decode_base64 rest acc bits
      end
  end.

(** Services that answer with fixed data. *)
Definition vision_answer : value :=
  VObj
    [("captionResult", VObj [("text", VStr "a cat on a sofa"); ("confidence", VNum (9 # 10))]);
     ("objectsResult",
       VObj [("values",
         VArr [VObj [("tags", VArr [VObj [("name", VStr "cat"); ("confidence", VNum (8 # 10))]]);
                     ("boundingBox",
                       VObj [("x", VInt 1); ("y", VInt 2); ("w", VInt 3); ("h", VInt 4)])]])]);
     ("tagsResult",
       VObj [("values", VArr [VObj [("name", VStr "indoor"); ("confidence", VNum (7 # 10))]])])].

Definition model_answer : value :=
  VObj
    [("mainDescription", VStr "A cat sleeps on a sofa.");
     ("objects", VArr [VStr "cat"; VStr "sofa"]);
     ("sceneContext", VStr "indoor, daytime");
     ("activities", VArr [VStr "sleeping"]);
     ("moodAtmosphere", VStr "calm");
     ("textContent", VStr EmptyString);
     ("colorsComposition", VStr "grey, beige , white, brown");
     ("interestingDetails", VArr [VStr "a folded ear"]);
     ("confidence", VNum (95 # 100))].

Definition runtime : Runtime :=
  {| Number_toString := render_number;
     String_gt :=
       fun s n =>
         match NilEmpty.int_of_string s with
         | Some i => n <? Z.of_int i
         | None => false
         end;
     Buffer_from_base64 :=
       fun v => match v with
                | VStr s => Some (decode_base64 s 0 0)
                | _ => None
                end;
     Buffer_toString_base64 := fun _ => "aGk=";
     JSON_parse := fun v => match v with VStr _ => Some model_answer | _ => None end |}.

(** A server with every client configured, and one with none. *)
Definition configured_env : ProcessEnv :=
  {| NODE_ENV := Some "production";
     VISION_ENDPOINT := Some "https://vision.example";
     VISION_API_KEY := Some "key";
     TRANSLATOR_API_KEY := Some "key";
     OPENAI_ENDPOINT := Some "https://openai.example";
     OPENAI_API_KEY := Some "key";
     STORAGE_CONNECTION_STRING := Some "UseDevelopmentStorage=true";
     KEY_VAULT_URL := None |}.

Definition configured : Server :=
  {| process_env := configured_env;
     azureClients := {| vision := true; translator := true; openai := true;
                        blobService := true; keyVault := false |} |}.

Definition unconfigured : Server :=
  {| process_env :=
       {| NODE_ENV := None; VISION_ENDPOINT := None; VISION_API_KEY := None;
          TRANSLATOR_API_KEY := None; OPENAI_ENDPOINT := None; OPENAI_API_KEY := None;
          STORAGE_CONNECTION_STRING := None; KEY_VAULT_URL := None |};
     azureClients := noClients |}.

Definition chat_answer : value :=
  VObj
    [("choices",
       VArr [VObj [("message", VObj [("role", VStr "assistant");
                                      ("content", VStr "It is a cat.")])]]);
     ("usage", VObj [("total_tokens", VInt 42)])].

Definition world : Outside :=
  {| clock := "2025-01-01T00:00:00.000Z";
     clock_ms := 1735689600000;
     random_hex := "00112233aabbccdd";
     vision_service := fun _ _ _ => Ok vision_answer;
     openai_service := fun _ => Ok chat_answer;
     openai_vision_service :=
       fun _ _ =>
         Ok (VObj [("choices", VArr [VObj [("message", VObj [("content", VStr "{...}")])]]);
                   ("usage", VObj [("total_tokens", VInt 900)])]);
     translator_service :=
       fun _ _ _ =>
         Ok (VObj [("status", VStr "200");
                   ("body", VArr [VObj [("translations",
                                          VArr [VObj [("text", VStr "Bonjour")]])]])]);
     translator_languages := Ok (VObj [("body", VObj [])]);
     blob_service := fun _ name _ => Ok ("https://store.example/images/" ++ name) |}.

(** A POST request carrying [b]. *)
Definition post {B : Type} (mount route : string) (b : B) : Request B :=
  {| method := "POST"; url := mount ++ route; path := route; baseUrl := mount;
     ip := "127.0.0.1"; content_type := Some "application/json"; id := VUndef;
     fields := VObj []; upload := None; file := None; body := b |}.

Definition get_request (mount route : string) : Request value :=
  {| method := "GET"; url := mount ++ route; path := route; baseUrl := mount;
     ip := "127.0.0.1"; content_type := None; id := VUndef;
     fields := VObj []; upload := None; file := None; body := VObj [] |}.

(** Analysis results of the standard path: two objects, two people and
    one line of text. *)
Definition box : Chat.Rectangle := {| Chat.x := 0; Chat.y := 0; Chat.w := 0; Chat.h := 0 |}.

Definition crowded : Chat.AnalysisResults :=
  {| Chat.caption := Some {| Chat.caption_text := "two people at a door";
                             Chat.caption_confidence := 9 # 10 |};
     Chat.description := None;
     Chat.objects :=
       Some [ {| Chat.object := "door"; Chat.object_confidence := 8 # 10;
                 Chat.object_rectangle := box |};
              {| Chat.object := "sign"; Chat.object_confidence := 7 # 10;
                 Chat.object_rectangle := box |} ];
     Chat.people := Some [ {| Chat.person_rectangle := box |};
                           {| Chat.person_rectangle := box |} ];
     Chat.tags := Some [ {| Chat.tag_name := "indoor"; Chat.tag_confidence := 6 # 10 |} ];
     Chat.text := Some ["EXIT"];
     Chat.color := None;
     Chat.enhanced := None;
     Chat.analysis := None;
     Chat.sceneContext := None;
     Chat.activities := None;
     Chat.moodAtmosphere := None;
     Chat.colorsComposition := None;
     Chat.interestingDetails := None |}.

(** The JSON of [crowded]. *)
Definition box_json : value :=
  VObj [("x", VInt 0); ("y", VInt 0); ("w", VInt 0); ("h", VInt 0)].

Definition crowded_json : value :=
  VObj
    [("caption", VObj [("text", VStr "two people at a door");
                       ("confidence", VNum (9 # 10))]);
     ("objects",
       VArr [VObj [("object", VStr "door"); ("confidence", VNum (8 # 10));
                   ("rectangle", box_json)];
             VObj [("object", VStr "sign"); ("confidence", VNum (7 # 10));
                   ("rectangle", box_json)]]);
     ("people", VArr [VObj [("rectangle", box_json)]; VObj [("rectangle", box_json)]]);
     ("tags", VArr [VObj [("name", VStr "indoor"); ("confidence", VNum (6 # 10))]]);
     ("text", VArr [VStr "EXIT"])].

(** Analysis results outside the interface: the text as one string, and
    an object as the Vision route of this backend answers it, with a
    name and a bounding box and without a rectangle. *)
Definition text_as_string : value := VObj [("text", VStr "EXIT")].

Definition objects_by_name : value :=
  VObj [("objects",
          VArr [VObj [("name", VStr "cat"); ("confidence", VNum (9 # 10));
                      ("boundingBox", box_json)]])].

Definition objects_as_string : value := VObj [("objects", VStr "cat")].

(** POST /api/chat/suggestions with a JSON body. *)
Definition suggestions_json_request (analysisResults : value) : Request value :=
  post "/api/chat" "/suggestions" (VObj [("analysisResults", analysisResults)]).

Definition suggestions_request (r : Chat.AnalysisResults) : Request Chat.ChatBody :=
  post "/api/chat" "/suggestions"
    {| Chat.question := None; Chat.analysisResults := Some r;
       Chat.conversationHistory := None |}.

(** An error whose code is 'Unauthorized' and whose name is that of a
    validation error. *)
Definition unauthorized : JsError :=
  {| name := VStr "ValidationError"; code := VStr "Unauthorized"; type := VUndef;
     message := "token rejected"; stack := VUndef; details := VUndef; response := None |}.

(** A translation request with an empty text. *)
Definition empty_text_request : Request value :=
  post "/api/translation" "/translate"
    (VObj [("text", VStr EmptyString); ("targetLanguage", VStr "fr")]).

(** A chat question about [crowded], with one earlier exchange. *)
Definition chat_request : Request Chat.ChatBody :=
  post "/api/chat" "/analyze"
    {| Chat.question := Some "Who is at the door?";
       Chat.analysisResults := Some crowded;
       Chat.conversationHistory :=
         Some [ {| Chat.msg_role := "user"; Chat.msg_content := "What is this?";
                   Chat.msg_timestamp := "2025-01-01T00:00:00.000Z" |};
                {| Chat.msg_role := "assistant"; Chat.msg_content := "A doorway.";
                   Chat.msg_timestamp := "2025-01-01T00:00:01.000Z" |} ] |}.

(** An image sent as base64 JSON. *)
Definition base64_request : Request value :=
  post "/api/vision" "/analyze" (VObj [("image", VStr "aGk="); ("language", VStr "en")]).

(** A multipart upload of a small image with the given type and
    features. *)
Definition image_bytes : Buffer := [Byte.x89; Byte.x50; Byte.x4e; Byte.x47].

Definition multipart_request (mime features : string) : Request value :=
  {| method := "POST"; url := "/api/vision/analyze"; path := "/analyze";
     baseUrl := "/api/vision"; ip := "127.0.0.1";
     content_type := Some "multipart/form-data; boundary=----x"; id := VUndef;
     fields := VObj [("features", VStr features)];
     upload := Some {| fieldname := "image"; originalname := "photo.png";
                       mimetype := mime; size := 4; buffer := image_bytes |};
     file := None;
     body := VObj [] |}.

End Samples.

(* ================================================================== *)
(** * Further definitions used to state properties *)
(* ================================================================== *)

Module Props.

(** The messages that [errorHandler] can put in the [error] field. *)
Definition handler_messages : list string :=
  ["Internal server error"; "Validation error"; "Invalid ID format";
   "Duplicate field value"; "Invalid token"; "Token expired";
   "Invalid JSON payload"; "Payload too large"; "File too large";
   "Unexpected file field"; "Azure service authentication failed";
   "Azure service access denied"; "Azure resource not found";
   "Azure service rate limit exceeded"; "Azure service temporarily unavailable";
   "Service temporarily unavailable"].

(** The statuses that [errorHandler] can answer with. *)
Definition handler_statuses : list Z := [400; 401; 403; 404; 409; 413; 429; 500; 503].

(** An [ErrorInfo] built from the literals of the handler. *)
Definition literal_error (e : ErrorHandler.ErrorInfo) : Prop :=
  In (ErrorHandler.error_message e) handler_messages
  /\ In (ErrorHandler.error_status e) handler_statuses.

(** Every entry of a comma-separated feature list, once trimmed, is one
    of the seven visual features. *)
Definition names_valid_features (s : string) : Prop :=
  Forall (fun f => In (JsString.trim f) Validation.validFeatures) (JsString.split "," s).

(** The keys that the image analysis schema knows. *)
Definition analysis_keys : list string := ["features"; "language"; "genderNeutralCaption"].

(** A 400 answer of a validator. *)
Definition validation_failed {B : Type} (st : Step B) : Prop :=
  exists res,
    st = Responded res /\ statusCode res = 400
    /\ oget (jsonBody res) "error" = VStr "Validation failed".

(** A log line, and a computation that reaches no service. *)
Definition log_line (c : call) : Prop := is_log c = true.

Definition only_logs {A : Type} (m : M A) : Prop := Spec.emits log_line m.

(** A translation body as the schema wants it. *)
Definition valid_translation_body (b : value) : Prop :=
  (exists t, oget b "text" = VStr t /\ 1 <= Joi.strlen t <= 10000)
  /\ (exists c, oget b "targetLanguage" = VStr c /\ In c Validation.supportedLanguages)
  /\ (oget b "sourceLanguage" = VUndef
      \/ exists c, oget b "sourceLanguage" = VStr c
                   /\ In c ("auto" :: Validation.supportedLanguages))
  /\ incl (keys b) ["text"; "targetLanguage"; "sourceLanguage"].

(** Run from the state [s], [m] reaches no service and leaves the state
    as it is. *)
Definition quiet_at {A : Type} (s : Server) (m : M A) : Prop :=
  forall o : Outside, final_state m o s = s /\ Forall log_line (trace m o s).

(** A step other than [next(err)]. *)
Definition no_error_passed {B : Type} (st : Step B) : Prop :=
  match st with NextError _ => False | _ => True end.

(** A handler that always yields a step, and never the step [next(err)]. *)
Definition steady {B : Type} (h : Express.Handler B) : Prop :=
  forall req,
    Spec.answers (h req) /\ Spec.returns no_error_passed (h req).

(** The property names that every object literal inherits from
    [Object.prototype]; looking one of them up in an object literal
    yields the inherited member, not [undefined]. *)
Definition inherited_names : list string :=
  ["constructor"; "__proto__"; "hasOwnProperty"; "isPrototypeOf";
   "propertyIsEnumerable"; "toLocaleString"; "toString"; "valueOf";
   "__defineGetter__"; "__defineSetter__"; "__lookupGetter__"; "__lookupSetter__"].

(** The number of messages with the role [system]. *)
Definition system_messages (l : list Message) : nat :=
  List.length (filter (fun m => String.eqb (role m) "system") l).

(** How many of the six fields that the enhanced suggestions look at are
    set: the main description, the activities, the mood, the interesting
    details, the colors and the scene context. *)
Definition enhanced_fields_set (r : Chat.AnalysisResults) (a : Chat.Analysis) : nat :=
  List.length
    (filter (fun b : bool => b)
       [Chat.truthy_string (Chat.mainDescription a);
        Chat.non_empty (Chat.activities r);
        Chat.truthy_string (Chat.moodAtmosphere r);
        Chat.non_empty (Chat.interestingDetails r);
        Chat.truthy_string (Chat.colorsComposition r);
        Chat.truthy_string (Chat.sceneContext r)]).

(** The answer of the classic analysis route: the five lists are always
    arrays. *)
Definition classic_format : Spec.shape :=
  Spec.SObj
    [("success", Spec.SBool);
     ("timestamp", Spec.SStr);
     ("imageUrl", Spec.SAny);
     ("analysis",
       Spec.SObj [("caption", Spec.SAny);
                  ("confidence", Spec.SAny);
                  ("denseCaptions", Spec.SArr Spec.SAny);
                  ("objects", Spec.SArr Spec.SAny);
                  ("people", Spec.SArr Spec.SAny);
                  ("tags", Spec.SArr Spec.SAny);
                  ("smartCrops", Spec.SArr Spec.SAny);
                  ("text", Spec.SAny)])].

(** [null] or a value that is not falsy. *)
Definition null_or_truthy (v : value) : Prop := v = VNull \/ truthy v = true.

(** Blob storage is out of reach: the client was not created, or the
    service refuses every upload. *)
Definition blob_storage_down (o : Outside) (s : Server) : Prop :=
  blobService (azureClients s) = false
  \/ forall container blobName image, exists e,
       blob_service o container blobName image = Throw e.

(** The request has the content type of a multipart body. *)
Definition multipart {B : Type} (req : Request B) : bool :=
  JsString.includes
    (match content_type req with Some c => c | None => EmptyString end)
    "multipart/form-data".

Section WithRuntime.
Context {rt : Runtime}.

(** The image that POST /analyze reads from a request: the buffer of
    the uploaded file or, without a file, the decoded [image] property
    of a JSON body. *)
Definition image_of (req : Request value) : option Buffer :=
  match file req with
  | Some f => Some (buffer f)
  | None =>
      if truthy (oget (body req) "image")
      then Buffer_from_base64 (oget (body req) "image")
      else None
  end.

(** A request that gets as far as the call to the Vision service: it
    has an image, as a file or as base64, that is not empty and at most
    20MB, its features can be split, its language (en when it names
    none) can be written in a URL, and the two environment variables are
    set. *)
Definition reaches_vision (req : Request value) (s : Server) (image : Buffer)
    (features : list string) (language : string) : Prop :=
  image_of req = Some image
  /\ Vision.requested_features (body req) = Ok features
  /\ ToString (or_else (oget (body req) "language") (VStr "en")) = Ok language
  /\ 0 < Vision.byteLength image <= 20 * 1024 * 1024
  /\ env_truthy (VISION_ENDPOINT (process_env s)) = true
  /\ env_truthy (VISION_API_KEY (process_env s)) = true.

End WithRuntime.

(** An answer other than the refusal of an image over 20MB. *)
Definition not_too_large (res : Response) : Prop :=
  oget (jsonBody res) "error" <> VStr "Image too large".

(** [v.length] of an array, 0 for anything else. *)
Definition count (v : value) : nat := List.length (EnhancedVision.spread v).

(** The prefix that [analyzeImageWithGPT4o] puts before every failure. *)
Definition enhanced_failure : string := "Enhanced vision analysis failed: ".

(** The texts of a batch request: the entries of [texts] when it is an
    array, none otherwise. *)
Definition batch_texts (b : value) : list value :=
  match oget b "texts" with VArr l => l | _ => [] end.

(** A 400 answer with the given error, given without calling a service. *)
Definition refused_with (error : string) (m : M Response) (o : Outside)
    (s : Server) : Prop :=
  exists res,
    run m o s = Ok res /\ statusCode res = 400
    /\ oget (jsonBody res) "error" = VStr error
    /\ service_calls (trace m o s) = [].


End Props.

(* ================================================================== *)
(** * routes/health.js *)
(* ================================================================== *)

Module Health.
Local Open Scope handler_scope.

(** What the health route reads of the process besides the variables
    of [ProcessEnv]: two more environment variables and
    [process.uptime()]. *)
Record Process : Type := {
  npm_package_version : option string;
  TRANSLATOR_ENDPOINT : option string;
  uptime : Q
}.

(** [process.env.X || fallback] *)
Definition env_or (v : option string) (fallback : string) : string :=
  match v with
  | Some x => if JsString.truthy x then x else fallback
  | None => fallback
  end.

(** [client ? 'available' : 'unavailable'] *)
Definition availability (client : bool) : value :=
  VStr (if client then "available" else "unavailable").

(** [healthStatus.services], once the five entries are assigned. *)
Definition services (p : Process) (env : ProcessEnv) (clients : AzureClients)
    : list (string * value) :=
  [("vision",
     VObj [("status", availability (vision clients));
           ("endpoint", VStr (env_or (VISION_ENDPOINT env) "not configured"))]);
   ("translator",
     VObj [("status", availability (translator clients));
           ("endpoint", VStr (env_or (TRANSLATOR_ENDPOINT p) "not configured"))]);
   ("openai",
     VObj [("status", availability (openai clients));
           ("endpoint", VStr (env_or (OPENAI_ENDPOINT env) "not configured"))]);
   ("storage",
     VObj [("status", availability (blobService clients));
           ("configured", VBool (env_truthy (STORAGE_CONNECTION_STRING env)))]);
   ("keyVault",
     VObj [("status", availability (keyVault clients));
           ("url", VStr (env_or (KEY_VAULT_URL env) "not configured"))])].

Section WithRuntime.
Context {rt : Runtime}.

(** GET /health *)
Definition check (p : Process) (req : Request value) : M Response :=
  timestamp <- now ;;
  s <- server ;;
  let env := process_env s in
  let healthStatus (status : string) (services : list (string * value))
      : list (string * value) :=
    [("status", VStr status);
     ("timestamp", VStr timestamp);
     ("version", VStr (env_or (npm_package_version p) "1.0.0"));
     ("environment", VStr (env_or (NODE_ENV env) "development"));
     ("uptime", VNum (uptime p));
     ("services", VObj services)] in
  try_catch
    (clients <- getAzureClients ;;
     let services := services p env clients in
     let unavailableServices :=
       Z.of_nat (List.length
         (filter (fun service => strict_eq_str (oget service "status") "unavailable")
                 (map snd services))) in
     status <-
       (if 0 <? unavailableServices then
          logger_warn ("Health check shows " ++ Number_toString (inject_Z unavailableServices)
                       ++ " unavailable services") ;;;
          ret "degraded"
        else ret "healthy") ;;
     ret (res_status_json (if String.eqb status "healthy" then 200 else 503)
            (VObj (healthStatus status services))))
    (fun error =>
       logger_error "Health check failed:" ;;;
       ret (res_status_json 503
              (VObj (healthStatus "unhealthy" [] ++ [("error", VStr (message error))])%list))).

End WithRuntime.

End Health.

Module Startup.

(** Every client of [config/azure.js] was created. *)
Definition all_clients (c : AzureClients) : bool :=
  vision c && translator c && openai c && blobService c && keyVault c.

(** The seven variables that [initializeAzureClients] reads are set. *)
Definition fully_configured (e : ProcessEnv) : bool :=
  env_truthy (VISION_ENDPOINT e) && env_truthy (VISION_API_KEY e)
  && env_truthy (TRANSLATOR_API_KEY e)
  && env_truthy (OPENAI_ENDPOINT e) && env_truthy (OPENAI_API_KEY e)
  && env_truthy (STORAGE_CONNECTION_STRING e)
  && env_truthy (KEY_VAULT_URL e).

(** The state in which [index.js] calls [initializeAzureClients]: no
    client exists yet. *)
Definition fresh (s : Server) : Prop := azureClients s = noClients.

End Startup.

(* ================================================================== *)
(** * More concrete requests, servers and service answers *)
(* ================================================================== *)

Module MoreSamples.
Import Samples.

(** The answer of a handler that is known to answer. *)
Definition answer_of (m : M Response) (o : Outside) (s : Server) : Response :=
  match run m o s with
  | Ok res => res
  | Throw _ => res_status_json 0 VUndef
  end.

Definition value_of (r : result string value) : value :=
  match r with Ok v => v | Throw _ => VUndef end.

(** An analysis request that asks for two features, with a space after
    the comma. *)
Definition features_request : Request value :=
  post "/api/vision" "/analyze" (VObj [("features", VStr "Caption, Tags")]).

(** An uploaded PNG of four bytes, and the request once the upload
    middleware has set [req.file]. *)
Definition png : UploadedFile :=
  {| fieldname := "image"; originalname := "photo.png"; mimetype := "image/png";
     size := 4; buffer := image_bytes |}.

Definition uploaded_request : Request value :=
  let req := multipart_request "image/png" "Caption" in
  with_file (with_body req (fields req)) png.

(** A translation request from English to French. *)
Definition translate_request : Request value :=
  post "/api/translation" "/translate"
    (VObj [("text", VStr "Hello"); ("targetLanguage", VStr "fr");
           ("sourceLanguage", VStr "en")]).

(** A batch of one text, and an empty batch. *)
Definition batch_request : Request value :=
  post "/api/translation" "/batch"
    (VObj [("texts", VArr [VStr "Hello"]); ("targetLanguage", VStr "fr")]).

Definition empty_batch_request : Request value :=
  post "/api/translation" "/batch"
    (VObj [("texts", VArr []); ("targetLanguage", VStr "fr")]).

(** An error of the completion API for a used-up quota, an error of the
    Vision service with a 401 response, and a world in which both
    services fail in these ways and blob storage refuses every upload. *)
Definition quota_error : JsError :=
  {| name := VStr "Error"; code := VStr "insufficient_quota"; type := VUndef;
     message := "You exceeded your current quota"; stack := VUndef; details := VUndef;
     response := None |}.

Definition denied_error : JsError :=
  {| name := VStr "AxiosError"; code := VStr "ERR_BAD_REQUEST"; type := VUndef;
     message := "Request failed with status code 401"; stack := VUndef;
     details := VUndef;
     response := Some (401, VObj [("error", VObj [("message", VStr "Access denied")])]) |}.

Definition failing_world : Outside :=
  {| clock := clock world; clock_ms := clock_ms world; random_hex := random_hex world;
     vision_service := fun _ _ _ => Throw denied_error;
     openai_service := fun _ => Throw quota_error;
     openai_vision_service := openai_vision_service world;
     translator_service := translator_service world;
     translator_languages := translator_languages world;
     blob_service := fun _ _ _ => Throw (Error "The specified container is being deleted") |}.

(** The world of [Samples], with a blob storage that refuses every
    upload. *)
Definition no_storage_world : Outside :=
  {| clock := clock world; clock_ms := clock_ms world; random_hex := random_hex world;
     vision_service := vision_service world;
     openai_service := openai_service world;
     openai_vision_service := openai_vision_service world;
     translator_service := translator_service world;
     translator_languages := translator_languages world;
     blob_service := fun _ _ _ => Throw (Error "The specified container is being deleted") |}.

(** Analysis results of the enhanced path with a description and a
    mood. *)
Definition enhanced_analysis : Chat.Analysis :=
  {| Chat.mainDescription := Some "A cat sleeps on a sofa.";
     Chat.analysis_objects := Some ["cat"; "sofa"];
     Chat.analysis_confidence := Some (95 # 100)%Q |}.

Definition enhanced_results : Chat.AnalysisResults :=
  {| Chat.caption := None; Chat.description := None; Chat.objects := None;
     Chat.people := None; Chat.tags := None; Chat.text := None; Chat.color := None;
     Chat.enhanced := Some true;
     Chat.analysis := Some enhanced_analysis;
     Chat.sceneContext := None;
     Chat.activities := None;
     Chat.moodAtmosphere := Some "calm";
     Chat.colorsComposition := None;
     Chat.interestingDetails := None |}.

(** Client constructors that all return. *)
Definition sdk : Sdk :=
  {| DefaultAzureCredential := Ok tt;
     ComputerVisionClient := fun _ _ => Ok tt;
     TextTranslationClient := fun _ => Ok tt;
     OpenAI := fun _ _ => Ok tt;
     BlobServiceClient_fromConnectionString := fun _ => Ok tt;
     SecretClient := fun _ => Ok tt |}.

(** What the health route reads of the process. *)
Definition process : Health.Process :=
  {| Health.npm_package_version := Some "1.0.0";
     Health.TRANSLATOR_ENDPOINT := None;
     Health.uptime := 12 # 1 |}.

End MoreSamples.

(* ================================================================== *)
(** * Facts about the JavaScript layer *)
(* ================================================================== *)

Lemma append_nil_r (s : string) : s ++ EmptyString = s.
Proof. induction s as [|a s IH]; simpl; [reflexivity | now rewrite IH]. Qed.

Lemma append_assoc (a b c : string) : (a ++ b) ++ c = a ++ (b ++ c).
Proof. induction a as [|x a IH]; simpl; [reflexivity | now rewrite IH]. Qed.

Lemma mem_In (x : string) (l : list string) : mem x l = true <-> In x l.
Proof.
  unfold mem. rewrite existsb_exists. split.
  - intros [y [Hy He]]. apply String.eqb_eq in He. now subst.
  - intros H. exists x. split; [assumption | apply String.eqb_refl].
Qed.

(* ================================================================== *)
(** * Facts about the handler monad *)
(* ================================================================== *)

Section MonadFacts.
Import Spec.

Lemma preserves_ret {A : Type} (a : A) : preserves (ret a).
Proof. intros o s. reflexivity. Qed.

Lemma preserves_throw {A : Type} (e : JsError) : preserves (throw (A := A) e).
Proof. intros o s. reflexivity. Qed.

Lemma preserves_emit (c : call) : preserves (emit c).
Proof. intros o s. reflexivity. Qed.

Lemma preserves_await {A : Type} (c : call) (f : Outside -> result JsError A) :
  preserves (await c f).
Proof. intros o s. reflexivity. Qed.

Lemma preserves_server : preserves server.
Proof. intros o s. reflexivity. Qed.

Lemma preserves_outside : preserves outside.
Proof. intros o s. reflexivity. Qed.

Lemma preserves_lift {A : Type} (r : result string A) : preserves (lift r).
Proof. intros o s. destruct r; reflexivity. Qed.

Lemma preserves_bind {A C : Type} (m : M A) (k : A -> M C) :
  preserves m -> (forall a, preserves (k a)) -> preserves (bind m k).
Proof.
  intros Hm Hk o s. specialize (Hm o s). unfold final_state, bind in *.
  destruct (m o s) as [[[a|e] s1] t1]; cbn [fst snd] in *; subst s1.
  - specialize (Hk a o s). unfold final_state in Hk.
    destruct (k a o s) as [[r s2] t2]. exact Hk.
  - reflexivity.
Qed.

Lemma preserves_try_catch {A : Type} (m : M A) (h : JsError -> M A) :
  preserves m -> (forall e, preserves (h e)) -> preserves (try_catch m h).
Proof.
  intros Hm Hh o s. specialize (Hm o s). unfold final_state, try_catch in *.
  destruct (m o s) as [[[a|e] s1] t1]; cbn [fst snd] in *; subst s1.
  - reflexivity.
  - specialize (Hh e o s). unfold final_state in Hh.
    destruct (h e o s) as [[r s2] t2]. exact Hh.
Qed.

Lemma emits_ret {A : Type} (P : call -> Prop) (a : A) : emits P (ret a).
Proof. intros o s. constructor. Qed.

Lemma emits_throw {A : Type} (P : call -> Prop) (e : JsError) : emits P (throw (A := A) e).
Proof. intros o s. constructor. Qed.

Lemma emits_emit (P : call -> Prop) (c : call) : P c -> emits P (emit c).
Proof. intros H o s. repeat constructor. exact H. Qed.

Lemma emits_await {A : Type} (P : call -> Prop) (c : call) (f : Outside -> result JsError A) :
  P c -> emits P (await c f).
Proof. intros H o s. repeat constructor. exact H. Qed.

Lemma emits_server (P : call -> Prop) : emits P server.
Proof. intros o s. constructor. Qed.

Lemma emits_outside (P : call -> Prop) : emits P outside.
Proof. intros o s. constructor. Qed.

Lemma emits_lift {A : Type} (P : call -> Prop) (r : result string A) : emits P (lift r).
Proof. intros o s. destruct r; constructor. Qed.

Lemma emits_bind {A C : Type} (P : call -> Prop) (m : M A) (k : A -> M C) :
  emits P m -> (forall a, emits P (k a)) -> emits P (bind m k).
Proof.
  intros Hm Hk o s. specialize (Hm o s). unfold trace, bind in *.
  destruct (m o s) as [[[a|e] s1] t1]; cbn [fst snd] in *.
  - specialize (Hk a o s1). unfold trace in Hk.
    destruct (k a o s1) as [[r s2] t2]. cbn [snd] in *.
    apply Forall_app. now split.
  - exact Hm.
Qed.

Lemma emits_try_catch {A : Type} (P : call -> Prop) (m : M A) (h : JsError -> M A) :
  emits P m -> (forall e, emits P (h e)) -> emits P (try_catch m h).
Proof.
  intros Hm Hh o s. specialize (Hm o s). unfold trace, try_catch in *.
  destruct (m o s) as [[[a|e] s1] t1]; cbn [fst snd] in *.
  - exact Hm.
  - specialize (Hh e o s1). unfold trace in Hh.
    destruct (h e o s1) as [[r s2] t2]. cbn [snd] in *.
    apply Forall_app. now split.
Qed.

Lemma answers_ret {A : Type} (a : A) : answers (ret a).
Proof. intros o s. now exists a. Qed.

Lemma answers_bind {A C : Type} (m : M A) (k : A -> M C) :
  answers m -> (forall a, answers (k a)) -> answers (bind m k).
Proof.
  intros Hm Hk o s. destruct (Hm o s) as [a Ha]. unfold run, bind in *.
  destruct (m o s) as [[[a'|e] s1] t1]; cbn [fst] in Ha; [|discriminate].
  destruct (Hk a' o s1) as [c Hc]. unfold run in Hc.
  destruct (k a' o s1) as [[r s2] t2]. now exists c.
Qed.

Lemma answers_try_catch {A : Type} (m : M A) (h : JsError -> M A) :
  (forall e, answers (h e)) -> answers (try_catch m h).
Proof.
  intros Hh o s. unfold run, try_catch.
  destruct (m o s) as [[[a|e] s1] t1]; cbn [fst].
  - now exists a.
  - destruct (Hh e o s1) as [c Hc]. unfold run in Hc.
    destruct (h e o s1) as [[r s2] t2]. now exists c.
Qed.

Lemma answers_emit (c : call) : answers (emit c).
Proof. intros o s. now exists tt. Qed.

Lemma answers_server : answers server.
Proof. intros o s. now exists s. Qed.

Lemma answers_outside : answers outside.
Proof. intros o s. now exists o. Qed.

Lemma returns_ret {A : Type} (Q : A -> Prop) (a : A) : Q a -> returns Q (ret a).
Proof. intros H o s a' Hr. unfold run, ret in Hr. cbn in Hr. now inversion Hr; subst. Qed.

Lemma returns_throw {A : Type} (Q : A -> Prop) (e : JsError) : returns Q (throw e).
Proof. intros o s a Hr. discriminate. Qed.

Lemma returns_trivial {A : Type} (m : M A) : returns (fun _ => True) m.
Proof. intros o s a _. exact I. Qed.

Lemma returns_bind {A C : Type} (P : A -> Prop) (Q : C -> Prop) (m : M A) (k : A -> M C) :
  returns P m -> (forall a, P a -> returns Q (k a)) -> returns Q (bind m k).
Proof.
  intros Hm Hk o s c Hr. unfold run, bind in Hr.
  specialize (Hm o s). unfold run in Hm.
  destruct (m o s) as [[[a|e] s1] t1]; cbn [fst] in *; [|discriminate].
  specialize (Hk a (Hm a eq_refl) o s1 c). unfold run in Hk.
  destruct (k a o s1) as [[r s2] t2]. cbn [fst] in *. now apply Hk.
Qed.

Lemma returns_try_catch {A : Type} (Q : A -> Prop) (m : M A) (h : JsError -> M A) :
  returns Q m -> (forall e, returns Q (h e)) -> returns Q (try_catch m h).
Proof.
  intros Hm Hh o s c Hr. unfold run, try_catch in Hr.
  specialize (Hm o s). unfold run in Hm.
  destruct (m o s) as [[[a|e] s1] t1]; cbn [fst] in *.
  - now apply Hm.
  - specialize (Hh e o s1 c). unfold run in Hh.
    destruct (h e o s1) as [[r s2] t2]. cbn [fst] in *. now apply Hh.
Qed.

End MonadFacts.

Create HintDb frame.
Create HintDb calls.
Create HintDb total.
#[local] Hint Resolve preserves_ret preserves_throw preserves_emit preserves_await
  preserves_server preserves_outside preserves_lift : frame.
#[local] Hint Resolve emits_ret emits_throw emits_server emits_outside emits_lift : calls.
#[local] Hint Resolve answers_ret answers_emit answers_server answers_outside : total.

(** One step of a structural proof about a handler: split a bind or a
    try, or decide the conditional at the head. *)
Ltac handler_step :=
  match goal with
  | |- Spec.preserves (bind _ _) => apply preserves_bind; [|intros ?]
  | |- Spec.preserves (try_catch _ _) => apply preserves_try_catch; [|intros ?]
  | |- Spec.emits _ (bind _ _) => apply emits_bind; [|intros ?]
  | |- Spec.emits _ (try_catch _ _) => apply emits_try_catch; [|intros ?]
  | |- Spec.answers (bind _ _) => apply answers_bind; [|intros ?]
  | |- Spec.answers (try_catch _ _) => apply answers_try_catch; intros ?
  | |- Spec.returns _ (try_catch _ _) => apply returns_try_catch; [|intros ?]
  | |- _ (if ?c then _ else _) => destruct c eqn:?
  | |- _ (match ?x with _ => _ end) => destruct x eqn:?
  | |- _ _ (if ?c then _ else _) => destruct c eqn:?
  | |- _ _ (match ?x with _ => _ end) => destruct x eqn:?
  end.

Ltac handler_unfold :=
  unfold logger_info, logger_warn, logger_error, now, getAzureClients, getenv,
    Express.respond.

Ltac handler_frame := handler_unfold; repeat handler_step; auto with frame.
Ltac handler_total := handler_unfold; repeat handler_step; auto with total.

(* ================================================================== *)
(** * The global error handler *)
(* ================================================================== *)

Section ErrorHandlerFacts.
Import ErrorHandler Spec.
Variable B : Type.

Lemma errorHandler_returns (err : JsError) (req : Request B) (o : Outside) (s : Server) :
  exists res,
    run (errorHandler err req) o s = Ok res /\
    statusCode res = error_status (classified err) /\
    oget (jsonBody res) "error" = VStr (error_message (classified err)) /\
    final_state (errorHandler err req) o s = s /\
    service_calls (trace (errorHandler err req) o s) = [].
Proof.
  unfold run, final_state, trace, errorHandler, classified.
  unfold bind, logger_error, emit, now, getenv, outside, server, ret. simpl.
  destruct (env_is (NODE_ENV (process_env s)) "development");
    destruct (truthy (id req)); simpl;
    eexists; repeat split; reflexivity.
Qed.

Lemma classified_azure_code (err : JsError) (c : string) (st : Z) (msg : string) :
  In (c, st, msg)
     [("Unauthorized", 401, "Azure service authentication failed");
      ("Forbidden", 403, "Azure service access denied");
      ("NotFound", 404, "Azure resource not found");
      ("TooManyRequests", 429, "Azure service rate limit exceeded");
      ("ServiceUnavailable", 503, "Azure service temporarily unavailable")]%Z ->
  code err = VStr c ->
  classified err = mkError st msg.
Proof.
  intros Hin Hc. unfold classified, network_error, azure_error. rewrite Hc.
  simpl in Hin.
  repeat (destruct Hin as [Hin | Hin];
          [inversion Hin; subst; reflexivity |]).
  contradiction.
Qed.

Lemma classified_default (err : JsError) :
  recognized err = false ->
  classified err = mkError 500 "Internal server error".
Proof.
  unfold recognized, recognized_names, recognized_types, recognized_codes.
  simpl. intros H.
  repeat match goal with
         | h : (_ || _) = false |- _ =>
             apply orb_false_iff in h; destruct h as [? ?]
         end.
  unfold classified, network_error, azure_error, specific_error.
  repeat match goal with
         | h : strict_eq_str _ _ = false |- _ => rewrite h; clear h
         | h : strict_eq_num _ _ = false |- _ => rewrite h; clear h
         end.
  simpl. destruct (truthy (code err)); reflexivity.
Qed.

(** C7: an [err.code] of 'Unauthorized', 'Forbidden', 'NotFound',
    'TooManyRequests' or 'ServiceUnavailable' makes the global error
    handler answer with HTTP 401, 403, 404, 429 or 503, whatever the
    other properties of the error are; an error that matches none of the
    names, codes and types the handler tests for is answered with status
    500 and the message 'Internal server error'. *)
Theorem errorHandler_status_mapping
    (err : JsError) (req : Request B) (o : Outside) (s : Server) :
  exists res,
    run (errorHandler err req) o s = Ok res /\
    (code err = VStr "Unauthorized" -> statusCode res = 401) /\
    (code err = VStr "Forbidden" -> statusCode res = 403) /\
    (code err = VStr "NotFound" -> statusCode res = 404) /\
    (code err = VStr "TooManyRequests" -> statusCode res = 429) /\
    (code err = VStr "ServiceUnavailable" -> statusCode res = 503) /\
    (recognized err = false ->
       statusCode res = 500 /\
       oget (jsonBody res) "error" = VStr "Internal server error").
Proof.
  destruct (errorHandler_returns err req o s) as [res [Hrun [Hst [Hmsg _]]]].
  exists res. split; [exact Hrun|].
  repeat match goal with |- _ /\ _ => split end; intros H; rewrite ?Hst, ?Hmsg.
  - now rewrite (classified_azure_code err (st := 401)
        (msg := "Azure service authentication failed") (c := "Unauthorized"));
      simpl; auto.
  - now rewrite (classified_azure_code err (st := 403)
        (msg := "Azure service access denied") (c := "Forbidden"));
      simpl; auto.
  - now rewrite (classified_azure_code err (st := 404)
        (msg := "Azure resource not found") (c := "NotFound"));
      simpl; auto 6.
  - now rewrite (classified_azure_code err (st := 429)
        (msg := "Azure service rate limit exceeded") (c := "TooManyRequests"));
      simpl; auto 6.
  - now rewrite (classified_azure_code err (st := 503)
        (msg := "Azure service temporarily unavailable") (c := "ServiceUnavailable"));
      simpl; auto 8.
  - rewrite (classified_default err H). split; reflexivity.
Qed.

End ErrorHandlerFacts.

(* ================================================================== *)
(** * Translation: validation and the two GET /languages handlers *)
(* ================================================================== *)

Section TranslationFacts.
Import Joi Validation Express Translation Spec.

Lemma strlen_truthy (t : string) : 0 < strlen t -> JsString.truthy t = true.
Proof. destruct t; unfold strlen; simpl; [lia | reflexivity]. Qed.

Lemma translationSchema_refuses (b : value) :
  bad_translation_body b -> exists d, validate translationSchema b = Some d.
Proof.
  intros Hbad. unfold validate.
  enough (exists d, check_keys translationSchema b = Some d) as [d Hd]
    by (destruct b; try rewrite Hd; eauto).
  unfold translationSchema, check_keys.
  destruct Hbad as [H | [H | [[t [H Hlen]] | H]]].
  - rewrite H. simpl. eauto.
  - rewrite H. simpl. eauto.
  - rewrite H. unfold check, check_string. simpl valid. cbv iota.
    rewrite (strlen_truthy t) by lia. simpl negb. cbv iota.
    simpl min. simpl max. simpl custom. cbv iota beta.
    replace (strlen t <? 1) with false by (symmetry; apply Z.ltb_ge; lia).
    replace (10000 <? strlen t) with true by (symmetry; apply Z.ltb_lt; lia).
    eauto.
  - destruct (check _ (oget b "text")) as [c|]; [eauto|].
    destruct (oget b "targetLanguage") as [| | | |x| |] eqn:Ht;
      try (simpl; eauto; fail).
    unfold check, check_string. simpl valid. cbv iota.
    destruct (JsString.mem x Validation.supportedLanguages) eqn:Hm; [|eauto].
    apply mem_In in Hm. exfalso. exact (H x Hm eq_refl).
Qed.

(** C3: POST /api/translation/translate answers 400 with the error
    'Validation failed', and makes no call to the Translator service (or
    to any other service), whenever the text of the body is missing,
    empty or longer than 10000 characters, or the target language is not
    one of the 16 supported codes. *)
Theorem translate_rejects_invalid_body
    (req : Request value) (o : Outside) (s : Server) :
  method req = "POST" ->
  path req = "/translate" ->
  bad_translation_body (body req) ->
  exists res,
    run (api_translation req) o s = Ok res /\
    statusCode res = 400 /\
    oget (jsonBody res) "error" = VStr "Validation failed" /\
    service_calls (trace (api_translation req) o s) = [].
Proof.
  intros Hm Hp Hbad.
  destruct (translationSchema_refuses Hbad) as [d Hd].
  unfold run, trace, api_translation, serve, run_stack, dispatch, router, matches.
  simpl route_method. simpl route_path. simpl route_stack.
  rewrite Hm, Hp. simpl.
  unfold bind, validateTranslationRequest. rewrite Hd.
  unfold bind, logger_warn, emit, ret. simpl.
  eexists. repeat split.
Qed.

Lemma bind_pointwise {A C : Type} (m : M A) (k1 k2 : A -> M C) (o : Outside) (s : Server) :
  (forall a s', k1 a o s' = k2 a o s') -> bind m k1 o s = bind m k2 o s.
Proof.
  intros H. unfold bind. destruct (m o s) as [[[a|e] s1] t1]; [|reflexivity].
  now rewrite H.
Qed.

(** A route whose only handler always answers hides what follows it
    from the requests it matches. *)
Lemma dispatch_cons_responding (r : Route value) (h : Request value -> M Response)
    (rest rest' : list (Route value)) (req : Request value) (o : Outside) (s : Server) :
  route_stack r = [respond h] ->
  (matches r req = false -> dispatch rest req o s = dispatch rest' req o s) ->
  dispatch (r :: rest) req o s = dispatch (r :: rest') req o s.
Proof.
  intros Hst Hrest. cbn [dispatch].
  destruct (matches r req); [|now apply Hrest].
  rewrite Hst. cbn [run_stack]. unfold respond, bind, ret.
  destruct (h req o s) as [[[res|e] s1] t1]; reflexivity.
Qed.

Lemma dispatch_cons_pointwise (r : Route value) (rest rest' : list (Route value))
    (req : Request value) (o : Outside) (s : Server) :
  (forall req' s', dispatch rest req' o s' = dispatch rest' req' o s') ->
  dispatch (r :: rest) req o s = dispatch (r :: rest') req o s.
Proof.
  intros Hrest. cbn [dispatch].
  destruct (matches r req); [|apply Hrest].
  apply bind_pointwise. intros [res|req'|err] s'; try reflexivity. apply Hrest.
Qed.

(** The second registration of GET /languages is never reached. *)
Lemma second_languages_shadowed (req : Request value) (o : Outside) (s : Server) :
  dispatch router req o s = dispatch router_without_second req o s.
Proof.
  unfold router_without_second, router. cbn [removelast].
  apply dispatch_cons_pointwise. intros req' s'.
  apply dispatch_cons_responding with (h := detect); [reflexivity|]. intros _.
  apply dispatch_cons_responding with (h := languages_static); [reflexivity|].
  intros Hno.
  apply dispatch_cons_responding with (h := batch); [reflexivity|]. intros _.
  cbn [dispatch]. unfold matches in *. cbn [route_method route_path] in *.
  now rewrite Hno.
Qed.

(** C10: GET /api/translation/languages is always answered by the first
    registered handler, with the hard-coded map of 16 languages and
    autoDetectionSupported set to true, without any call to the
    Translator service and without change to the server state; the
    second handler registered on the same path is never reached: the
    router behaves on every request as it does without it. *)
Theorem languages_first_handler_wins :
  (forall (req : Request value) (o : Outside) (s : Server),
     method req = "GET" -> path req = "/languages" ->
     run (api_translation req) o s = Ok (res_json languagesResponse) /\
     service_calls (trace (api_translation req) o s) = [] /\
     final_state (api_translation req) o s = s) /\
  keys (oget languagesResponse "supportedLanguages") = Validation.supportedLanguages /\
  List.length Translation.supportedLanguages = 16%nat /\
  oget languagesResponse "autoDetectionSupported" = VBool true /\
  (forall (req : Request value) (o : Outside) (s : Server),
     api_translation req o s = serve [dispatch router_without_second] req o s).
Proof.
  split; [|repeat split].
  - intros req o s Hm Hp.
    unfold run, trace, final_state, api_translation, serve, run_stack, dispatch,
      router, matches.
    simpl route_method. simpl route_path. simpl route_stack.
    rewrite Hm, Hp. cbv. repeat split.
  - intros req o s. unfold api_translation, serve. cbn [run_stack].
    unfold bind at 1 3. unfold bind at 1 2.
    rewrite second_languages_shadowed. reflexivity.
Qed.

End TranslationFacts.

(* ================================================================== *)
(** * Chat: context assembly *)
(* ================================================================== *)

Section ChatContextFacts.
Import Chat Spec.
Context {rt : Runtime}.

Lemma concat_empty_cons (s : string) (l : list string) :
  String.concat EmptyString (s :: l) = s ++ String.concat EmptyString l.
Proof.
  destruct l as [|t l]; simpl; [now rewrite append_nil_r | reflexivity].
Qed.

(** A [forEach] whose callback appends to the accumulator appends the
    lines of the items, in order, each with its index. *)
Lemma forEach_from_append {A : Type} (g : A -> nat -> string) (l : list A)
    (i : nat) (ctx : string) :
  forEach_from i l (fun a j c => c ++ g a j) ctx
  = ctx ++ String.concat EmptyString
             (map (fun ja => g (snd ja) (fst ja)) (combine (seq i (List.length l)) l)).
Proof.
  revert i ctx. induction l as [|a l IH]; intros i ctx.
  - simpl. now rewrite append_nil_r.
  - cbn [forEach_from List.length seq combine map]. rewrite IH.
    rewrite concat_empty_cons. cbn [fst snd]. now rewrite append_assoc.
Qed.

Lemma map_combine_seq_snd {A B : Type} (f : A -> B) (l : list A) (i : nat) :
  map (fun ja => f (snd ja)) (combine (seq i (List.length l)) l) = map f l.
Proof.
  revert i. induction l as [|a l IH]; intros i; simpl; [reflexivity | now rewrite IH].
Qed.

Ltac assoc := repeat rewrite append_assoc.

Ltac foreach_as g :=
  match goal with
  | |- context [forEach_from ?i ?l ?f ?c] =>
      change (forEach_from i l f c)
        with (forEach_from i l (fun a j c0 => c0 ++ g a j) c);
      rewrite (forEach_from_append g)
  end.

Lemma add_caption_appends (r : AnalysisResults) (ctx : string) :
  add_caption r ctx
  = ctx ++ (if section_due r SecCaption then section_text r SecCaption else EmptyString).
Proof.
  unfold add_caption. simpl. destruct (caption r); simpl;
    [reflexivity | now rewrite append_nil_r].
Qed.

Lemma add_detailed_captions_appends (r : AnalysisResults) (ctx : string) :
  add_detailed_captions r ctx
  = ctx ++ (if section_due r SecDetailedCaptions
            then section_text r SecDetailedCaptions else EmptyString).
Proof.
  unfold add_detailed_captions. simpl. destruct (description r) as [d|]; simpl;
    [|now rewrite append_nil_r].
  unfold forEach.
  foreach_as (fun cap (_ : nat) => caption_line cap).
  rewrite (map_combine_seq_snd caption_line). now assoc.
Qed.

Lemma add_objects_appends (r : AnalysisResults) (ctx : string) :
  add_objects r ctx
  = ctx ++ (if section_due r SecObjects then section_text r SecObjects else EmptyString).
Proof.
  unfold add_objects. cbn [section_due section_text].
  destruct (non_empty (objects r)); [|now rewrite append_nil_r].
  cbv zeta. unfold forEach.
  foreach_as (fun obj (_ : nat) => object_line obj).
  rewrite (map_combine_seq_snd object_line). unfold from_option. now assoc.
Qed.

Lemma add_people_appends (r : AnalysisResults) (ctx : string) :
  add_people r ctx
  = ctx ++ (if section_due r SecPeople then section_text r SecPeople else EmptyString).
Proof.
  unfold add_people. cbn [section_due section_text].
  destruct (non_empty (people r)); [|now rewrite append_nil_r].
  cbv zeta. unfold forEach.
  foreach_as (fun person (i : nat) => person_line (i, person)).
  unfold from_option. now assoc.
Qed.

Lemma add_tags_appends (r : AnalysisResults) (ctx : string) :
  add_tags r ctx
  = ctx ++ (if section_due r SecTags then section_text r SecTags else EmptyString).
Proof.
  unfold add_tags. cbn [section_due section_text].
  destruct (non_empty (tags r)); [reflexivity | now rewrite append_nil_r].
Qed.

Lemma add_text_appends (r : AnalysisResults) (ctx : string) :
  add_text r ctx
  = ctx ++ (if section_due r SecOcrText then section_text r SecOcrText else EmptyString).
Proof.
  unfold add_text. cbn [section_due section_text].
  destruct (non_empty (text r)); [reflexivity | now rewrite append_nil_r].
Qed.

Lemma add_color_appends (r : AnalysisResults) (ctx : string) :
  add_color r ctx
  = ctx ++ (if section_due r SecColor then section_text r SecColor else EmptyString).
Proof.
  unfold add_color. cbn [section_due section_text].
  destruct (color r) as [c|]; cbn [present]; [|now rewrite append_nil_r].
  unfold color_lines. cbv zeta.
  destruct (dominantColorForeground c) as [[|a fg]|];
    destruct (dominantColorBackground c) as [[|b bg]|];
    destruct (dominantColors c) as [cs|];
    cbn [truthy_string JsString.truthy show JsString.join];
    repeat (assoc; cbn [String.append]; rewrite ?append_nil_r);
    reflexivity.
Qed.

Lemma expected_context_unfold (r : AnalysisResults) :
  expected_context r
  = (if section_due r SecCaption then section_text r SecCaption else EmptyString)
    ++ (if section_due r SecDetailedCaptions
        then section_text r SecDetailedCaptions else EmptyString)
    ++ (if section_due r SecObjects then section_text r SecObjects else EmptyString)
    ++ (if section_due r SecPeople then section_text r SecPeople else EmptyString)
    ++ (if section_due r SecTags then section_text r SecTags else EmptyString)
    ++ (if section_due r SecOcrText then section_text r SecOcrText else EmptyString)
    ++ (if section_due r SecColor then section_text r SecColor else EmptyString).
Proof.
  unfold expected_context, section_order. cbn [filter].
  destruct (section_due r SecCaption), (section_due r SecDetailedCaptions),
    (section_due r SecObjects), (section_due r SecPeople), (section_due r SecTags),
    (section_due r SecOcrText), (section_due r SecColor);
    cbn [map]; rewrite ?concat_empty_cons; cbn [String.concat String.append];
    rewrite ?append_nil_r; reflexivity.
Qed.

Lemma due_section_not_empty (r : AnalysisResults) (k : ContextSection) :
  section_due r k = true -> section_text r k <> EmptyString.
Proof.
  destruct k; cbn [section_due section_text]; intros Hdue.
  - destruct (caption r); [cbn [String.append] | discriminate Hdue]. discriminate.
  - destruct (description r); [cbn [String.append] | discriminate Hdue]. discriminate.
  - cbn [String.append]. discriminate.
  - cbn zeta. cbn [String.append]. discriminate.
  - cbn [String.append]. discriminate.
  - cbn [String.append]. discriminate.
  - destruct (color r); [cbn [String.append] | discriminate Hdue]. discriminate.
Qed.

(** On the records of the interface, [buildAnalysisContext] returns
    the concatenation of the sections that are due, in the fixed
    order. *)
Lemma typed_context_sections (r : AnalysisResults) :
  buildAnalysisContext r
  = String.concat EmptyString
      (map (section_text r) (filter (section_due r) section_order)).
Proof.
  change (buildAnalysisContext r = expected_context r).
  unfold buildAnalysisContext. cbv zeta.
  rewrite add_color_appends, add_text_appends, add_tags_appends, add_people_appends,
    add_objects_appends, add_detailed_captions_appends, add_caption_appends.
  rewrite expected_context_unfold. cbn [String.append]. now assoc.
Qed.

End ChatContextFacts.

(* ================================================================== *)
(** * Chat: suggested questions *)
(* ================================================================== *)

Section ChatSuggestionFacts.
Import Chat Spec Express.
Context {rt : Runtime}.

Lemma isEnhanced_without_flag (r : AnalysisResults) :
  enhanced r <> Some true -> isEnhanced r = None.
Proof.
  unfold isEnhanced. destruct (enhanced r) as [[|]|]; intros H;
    [now exfalso | reflexivity | reflexivity].
Qed.

Lemma more_than_one {A : Type} (l : list A) :
  (1 <? Z.of_nat (List.length l))
  = match l with _ :: _ :: _ => true | _ => false end.
Proof.
  destruct l as [|a [|b l]]; try reflexivity.
  apply Z.ltb_lt. cbn [List.length]. lia.
Qed.

(** Standard suggestions, as a function of the three fields. *)
Lemma standard_suggestions_shape (r : AnalysisResults) :
  enhanced r <> Some true ->
  let l := generateQuestionSuggestions r in
  has_object_questions l = non_empty (objects r)
  /\ has_people_questions l = non_empty (people r)
  /\ JsString.mem first_text_question l
     = non_empty (text r) && (questions_before_text r <=? 3)%nat
  /\ JsString.mem second_text_question l
     = non_empty (text r) && (questions_before_text r <=? 2)%nat
  /\ has_openers l = true
  /\ List.length l = 6%nat.
Proof.
  intros Hflag. unfold generateQuestionSuggestions, questions_before_text.
  rewrite (isEnhanced_without_flag r Hflag). cbv zeta.
  rewrite length_map, !more_than_one.
  destruct (objects r) as [[|o1 [|o2 objs]]|];
    destruct (people r) as [[|p1 [|p2 ps]]|];
    destruct (text r) as [[|t1 ts]|];
    repeat split; reflexivity.
Qed.

(** POST /suggestions with analysis results answers with the generated
    list, makes no call and leaves the server as it was. *)
Lemma suggestions_handler_runs (req : Request ChatBody) (o : Outside) (s : Server)
    (r : AnalysisResults) :
  method req = "POST" ->
  path req = "/suggestions" ->
  analysisResults (body req) = Some r ->
  api_chat req o s
  = (Ok (res_json (VObj [("suggestions", VArr (map VStr (generateQuestionSuggestions r)));
                         ("timestamp", VStr (clock o))])),
     s, []).
Proof.
  intros Hm Hp Hr.
  unfold api_chat, serve, router. cbn [run_stack dispatch]. unfold matches.
  cbn [route_method route_path route_stack]. rewrite Hm, Hp.
  change (String.eqb "/analyze" "/suggestions") with false.
  change (String.eqb "POST" "POST") with true.
  change (String.eqb "/suggestions" "/suggestions") with true.
  cbn [andb run_stack]. unfold respond, suggestions. rewrite Hr.
  reflexivity.
Qed.

Lemma suggestions_handler_refuses (req : Request ChatBody) (o : Outside) (s : Server) :
  method req = "POST" ->
  path req = "/suggestions" ->
  analysisResults (body req) = None ->
  api_chat req o s
  = (Ok (res_status_json 400 (VObj
           [("error", VStr "Bad Request");
            ("message", VStr "Missing required field: analysisResults")])),
     s, []).
Proof.
  intros Hm Hp Hr.
  unfold api_chat, serve, router. cbn [run_stack dispatch]. unfold matches.
  cbn [route_method route_path route_stack]. rewrite Hm, Hp.
  change (String.eqb "/analyze" "/suggestions") with false.
  change (String.eqb "POST" "POST") with true.
  change (String.eqb "/suggestions" "/suggestions") with true.
  cbn [andb run_stack]. unfold respond, suggestions. rewrite Hr.
  reflexivity.
Qed.

(** C6: POST /api/chat/suggestions is deterministic and local. Two
    requests with equal analysisResults, served at any two moments by
    servers in any two states with any answers of the outside services,
    get the same status and the same suggestion list, and neither makes
    a call to an AI service (nor to any other service); this covers the
    standard branch, the enhanced branch and the refusal of a body
    without analysisResults. *)
Theorem suggestions_deterministic_and_local
    (req1 req2 : Request ChatBody) (o1 o2 : Outside) (s1 s2 : Server) :
  method req1 = "POST" -> path req1 = "/suggestions" ->
  method req2 = "POST" -> path req2 = "/suggestions" ->
  analysisResults (body req1) = analysisResults (body req2) ->
  exists res1 res2 : Response,
    run (api_chat req1) o1 s1 = Ok res1
    /\ run (api_chat req2) o2 s2 = Ok res2
    /\ statusCode res1 = statusCode res2
    /\ suggestions_of res1 = suggestions_of res2
    /\ service_calls (trace (api_chat req1) o1 s1) = []
    /\ service_calls (trace (api_chat req2) o2 s2) = [].
Proof.
  intros Hm1 Hp1 Hm2 Hp2 Heq. unfold run, trace.
  destruct (analysisResults (body req2)) as [r|] eqn:Hr2.
  - rewrite (suggestions_handler_runs req1 o1 s1 Hm1 Hp1 Heq).
    rewrite (suggestions_handler_runs req2 o2 s2 Hm2 Hp2 Hr2).
    do 2 eexists. repeat split.
  - rewrite (suggestions_handler_refuses req1 o1 s1 Hm1 Hp1 Heq).
    rewrite (suggestions_handler_refuses req2 o2 s2 Hm2 Hp2 Hr2).
    do 2 eexists. repeat split.
Qed.

End ChatSuggestionFacts.

(* ================================================================== *)
(** * Chat on JSON data: agreement with the records of the interface *)
(* ================================================================== *)

Unset Implicit Arguments.

Section ChatJsonFacts.
Import Chat Spec Express.
Context {rt : Runtime}.

Lemma Qle_bool_inject (a b : Z) : Qle_bool (inject_Z a) (inject_Z b) = (a <=? b).
Proof. unfold Qle_bool, inject_Z. cbn [Qnum Qden]. now rewrite !Z.mul_1_r. Qed.

Lemma get_defined (v : value) (k : string) :
  nullish v = false -> get v k = Ok (oget v k).
Proof. intros H. unfold get. now rewrite H. Qed.

Lemma show_string (v : value) (k s : string) :
  nullish v = false -> oget v k = VStr s -> ChatJson.show v k = Ok s.
Proof.
  intros Hv Hk. unfold ChatJson.show. rewrite (get_defined _ _ Hv), Hk. reflexivity.
Qed.

Lemma show_number (v : value) (k : string) (q : Q) :
  nullish v = false -> oget v k = VNum q -> ChatJson.show v k = Ok (num q).
Proof.
  intros Hv Hk. unfold ChatJson.show. rewrite (get_defined _ _ Hv), Hk. reflexivity.
Qed.

(** ** What a successful reading says about the JSON value *)

Ltac read_object v H :=
  destruct v; cbn in H; try discriminate H;
  repeat match type of H with
         | context [match lookup ?k ?fields with _ => _ end] =>
             destruct (lookup k fields) eqn:?; try discriminate H
         end.

Lemma read_Rectangle_spec (v : value) (rectangle : Rectangle) :
  read_Rectangle v = Some rectangle ->
  nullish v = false
  /\ oget v "x" = VNum (x rectangle) /\ oget v "y" = VNum (y rectangle).
Proof.
  unfold read_Rectangle. intros H. read_object v H.
  inversion H; subst. cbn [oget x y]. repeat split; assumption.
Qed.

Lemma read_Caption_spec (v : value) (c : Caption) :
  read_Caption v = Some c ->
  nullish v = false
  /\ oget v "text" = VStr (caption_text c)
  /\ oget v "confidence" = VNum (caption_confidence c).
Proof.
  unfold read_Caption. intros H. read_object v H.
  inversion H; subst. cbn [oget caption_text caption_confidence].
  repeat split; assumption.
Qed.

Lemma read_DetectedObject_spec (v : value) (obj : DetectedObject) :
  read_DetectedObject v = Some obj ->
  nullish v = false
  /\ oget v "object" = VStr (object obj)
  /\ oget v "confidence" = VNum (object_confidence obj)
  /\ read_Rectangle (oget v "rectangle") = Some (object_rectangle obj).
Proof.
  unfold read_DetectedObject. intros H.
  destruct v as [| | | | | |fs]; cbn in H; try discriminate H.
  destruct (lookup "object" fs) eqn:Ho; try discriminate H.
  destruct (lookup "confidence" fs) eqn:Hc; try discriminate H.
  destruct (read_Rectangle (lookup "rectangle" fs)) eqn:Hr; [|discriminate H].
  inversion H; subst. cbn [oget object object_confidence object_rectangle].
  repeat split; assumption.
Qed.

Lemma read_Person_spec (v : value) (person : Person) :
  read_Person v = Some person ->
  nullish v = false
  /\ read_Rectangle (oget v "rectangle") = Some (person_rectangle person).
Proof.
  unfold read_Person. intros H.
  destruct (read_Rectangle (oget v "rectangle")) eqn:Hr; [|discriminate H].
  inversion H; subst. cbn [person_rectangle]. split; [|reflexivity].
  destruct v; try reflexivity; cbn in Hr; discriminate Hr.
Qed.

Lemma read_Tag_spec (v : value) (tag : Tag) :
  read_Tag v = Some tag ->
  nullish v = false
  /\ oget v "name" = VStr (tag_name tag)
  /\ oget v "confidence" = VNum (tag_confidence tag).
Proof.
  unfold read_Tag. intros H. read_object v H.
  inversion H; subst. cbn [oget tag_name tag_confidence].
  repeat split; assumption.
Qed.

Lemma read_strings (items : list value) (l : list string) :
  read_items read_string items = Some l -> items = map VStr l.
Proof.
  revert l. induction items as [|item items IH]; intros l H; cbn in H.
  - inversion H. reflexivity.
  - destruct item; cbn in H; try discriminate H.
    destruct (read_items read_string items) as [l'|]; [|discriminate H].
    inversion H; subst. cbn [map]. now rewrite (IH l' eq_refl).
Qed.

Lemma read_optional_string (v : value) (o : option string) :
  read_optional read_string v = Some o ->
  truthy v = truthy_string o
  /\ (truthy v = true -> ToString v = Ok (Chat.show o)).
Proof.
  intros H. destruct v; cbn in H; try discriminate H; inversion H; subst;
    cbn; split; try reflexivity; intros Ht; try discriminate Ht; reflexivity.
Qed.

(** ** Loops and joins *)

Lemma non_empty_array {A : Type} (read : value -> option A) (v : value)
    (o : option (list A)) :
  read_optional (read_array read) v = Some o ->
  ChatJson.non_empty v = Ok (Chat.non_empty o).
Proof.
  intros H. destruct v; cbn in H; try discriminate H.
  - inversion H. reflexivity.
  - destruct (read_items read items) as [l|] eqn:Hl; [|discriminate H].
    inversion H; subst. unfold ChatJson.non_empty. cbn [truthy length_prop gt].
    rewrite Qle_bool_inject.
    destruct items as [|item items]; cbn in Hl.
    + inversion Hl. reflexivity.
    + destruct (read item); [|discriminate Hl].
      destruct (read_items read items); [|discriminate Hl].
      inversion Hl; subst. cbn [Chat.non_empty].
      replace (Z.of_nat (List.length (item :: items)) <=? 0) with false; [reflexivity|].
      symmetry. apply Z.leb_gt. cbn [List.length]. lia.
Qed.

Lemma read_items_length {A : Type} (read : value -> option A) (items : list value)
    (l : list A) :
  read_items read items = Some l -> List.length items = List.length l.
Proof.
  revert l. induction items as [|item items IH]; intros l H; cbn in H.
  - inversion H. reflexivity.
  - destruct (read item); [|discriminate H].
    destruct (read_items read items) as [l'|]; [|discriminate H].
    inversion H; subst. cbn [List.length]. now rewrite (IH l' eq_refl).
Qed.

Lemma forEach_from_refines {A : Type} (read : value -> option A)
    (f : value -> nat -> string -> result string string)
    (g : A -> nat -> string -> string) :
  (forall item a i ctx, read item = Some a -> f item i ctx = Ok (g a i ctx)) ->
  forall items l i ctx,
    read_items read items = Some l ->
    ChatJson.forEach_from i items f ctx = Ok (Chat.forEach_from i l g ctx).
Proof.
  intros Hf. induction items as [|item items IH]; intros l i ctx H; cbn in H.
  - inversion H. reflexivity.
  - destruct (read item) as [a|] eqn:Hr; [|discriminate H].
    destruct (read_items read items) as [l'|] eqn:Hl; [|discriminate H].
    inversion H; subst. cbn [ChatJson.forEach_from Chat.forEach_from].
    rewrite (Hf _ _ _ _ Hr). now apply IH.
Qed.

Lemma mapM_read {A : Type} (read : value -> option A)
    (f : value -> result string value) (g : A -> string) :
  (forall item a, read item = Some a -> f item = Ok (VStr (g a))) ->
  forall items l,
    read_items read items = Some l ->
    mapM f items = Ok (map VStr (map g l)).
Proof.
  intros Hf. induction items as [|item items IH]; intros l H; cbn in H.
  - inversion H. reflexivity.
  - destruct (read item) as [a|] eqn:Hr; [|discriminate H].
    destruct (read_items read items) as [l'|] eqn:Hl; [|discriminate H].
    inversion H; subst. cbn [mapM map]. rewrite (Hf _ _ Hr), (IH l' eq_refl).
    reflexivity.
Qed.

Lemma join_strings (l : list string) (sep : string) :
  join_strict (VArr (map VStr l)) sep = Ok (JsString.join sep l).
Proof.
  unfold join_strict.
  assert (H : mapM (fun x => if nullish x then Ok EmptyString else ToString x)
                (map VStr l) = Ok l).
  { induction l as [|a l IH]; [reflexivity|]. cbn [map mapM nullish ToString].
    now rewrite IH. }
  rewrite H. reflexivity.
Qed.

(** ** The seven blocks of [buildAnalysisContext] *)

Lemma add_caption_refines (v : value) (r : AnalysisResults) (ctx : string) :
  nullish v = false ->
  read_optional read_Caption (oget v "caption") = Some (caption r) ->
  ChatJson.add_caption v ctx = Ok (Chat.add_caption r ctx).
Proof.
  intros Hv H. unfold ChatJson.add_caption, Chat.add_caption.
  rewrite (get_defined _ _ Hv). cbn [rbind].
  destruct (oget v "caption") as [| | | | | |fs] eqn:Hc; cbn in H; try discriminate H.
  - inversion H. reflexivity.
  - destruct (read_Caption (VObj fs)) as [c|] eqn:Hr; [|discriminate H].
    inversion H; subst. apply read_Caption_spec in Hr. destruct Hr as [Hn [Ht Hq]].
    cbn [truthy]. rewrite (show_string _ _ _ Hn Ht), (show_number _ _ _ Hn Hq). reflexivity.
Qed.

Lemma add_detailed_captions_refines (v : value) (r : AnalysisResults) (ctx : string) :
  nullish v = false ->
  read_optional read_Description (oget v "description") = Some (description r) ->
  ChatJson.add_detailed_captions v ctx = Ok (Chat.add_detailed_captions r ctx).
Proof.
  intros Hv H. unfold ChatJson.add_detailed_captions, Chat.add_detailed_captions.
  rewrite (get_defined _ _ Hv). cbn [rbind].
  destruct (oget v "description") as [| | | | | |fs] eqn:Hd; cbn in H;
    try discriminate H.
  - inversion H. reflexivity.
  - destruct (lookup "captions" fs) as [| | | | |items|] eqn:Hc; cbn in H;
      try discriminate H.
    destruct (read_items read_Caption items) as [l|] eqn:Hl; [|discriminate H].
    inversion H; subst. cbn [oget]. rewrite Hc. cbn [truthy captions].
    unfold ChatJson.forEach, Chat.forEach.
    rewrite (forEach_from_refines read_Caption _
               (fun cap _ context =>
                  context ++ "- " ++ caption_text cap ++ " (confidence: "
                    ++ num (caption_confidence cap) ++ ")" ++ nl))
      with (l := l); [reflexivity | | exact Hl].
    intros item a i c Hr. apply read_Caption_spec in Hr. destruct Hr as [Hn [Ht Hq]].
    rewrite (show_string _ _ _ Hn Ht), (show_number _ _ _ Hn Hq). reflexivity.
Qed.

Lemma array_of_non_empty {A : Type} (read : value -> option A) (v : value)
    (o : option (list A)) :
  read_optional (read_array read) v = Some o ->
  Chat.non_empty o = true ->
  exists items l, v = VArr items /\ o = Some l /\ read_items read items = Some l.
Proof.
  intros H Hne. destruct v; cbn in H; try discriminate H.
  - inversion H; subst. discriminate Hne.
  - destruct (read_items read items) as [l|] eqn:Hl; [|discriminate H].
    inversion H; subst. now exists items, l.
Qed.

Lemma add_objects_refines (v : value) (r : AnalysisResults) (ctx : string) :
  nullish v = false ->
  read_optional (read_array read_DetectedObject) (oget v "objects") = Some (objects r) ->
  ChatJson.add_objects v ctx = Ok (Chat.add_objects r ctx).
Proof.
  intros Hv H. unfold ChatJson.add_objects, Chat.add_objects.
  rewrite (get_defined _ _ Hv). cbn [rbind]. rewrite (non_empty_array _ _ _ H). cbn [rbind].
  destruct (Chat.non_empty (objects r)) eqn:Hne; [|reflexivity].
  destruct (array_of_non_empty _ _ _ H Hne) as [items [l [Hitems [Hl Hread]]]].
  rewrite Hitems, Hl. unfold ChatJson.forEach, Chat.forEach.
  rewrite (forEach_from_refines read_DetectedObject _
             (fun obj _ context =>
                context ++ "- " ++ object obj ++ " at location ("
                  ++ num (x (object_rectangle obj)) ++ ", "
                  ++ num (y (object_rectangle obj)) ++ ") with confidence "
                  ++ num (object_confidence obj) ++ nl))
    with (l := l); [reflexivity | | exact Hread].
  intros item a i c Hr. apply read_DetectedObject_spec in Hr.
  destruct Hr as [Hn [Ho [Hq Hrect]]].
  apply read_Rectangle_spec in Hrect. destruct Hrect as [Hrn [Hx Hy]].
  rewrite (show_string _ _ _ Hn Ho), (get_defined _ _ Hn). cbn [rbind].
  rewrite (show_number _ _ _ Hrn Hx), (show_number _ _ _ Hrn Hy), (show_number _ _ _ Hn Hq).
  reflexivity.
Qed.

Lemma add_people_refines (v : value) (r : AnalysisResults) (ctx : string) :
  nullish v = false ->
  read_optional (read_array read_Person) (oget v "people") = Some (people r) ->
  ChatJson.add_people v ctx = Ok (Chat.add_people r ctx).
Proof.
  intros Hv H. unfold ChatJson.add_people, Chat.add_people.
  rewrite (get_defined _ _ Hv). cbn [rbind]. rewrite (non_empty_array _ _ _ H). cbn [rbind].
  destruct (Chat.non_empty (people r)) eqn:Hne; [|reflexivity].
  destruct (array_of_non_empty _ _ _ H Hne) as [items [l [Hitems [Hl Hread]]]].
  rewrite Hitems, Hl. cbn [length_prop ToString rbind].
  rewrite (read_items_length _ _ _ Hread).
  unfold ChatJson.forEach, Chat.forEach.
  rewrite (forEach_from_refines read_Person _
             (fun person i context =>
                context ++ "- Person " ++ Chat.int (i + 1)%nat ++ " at location ("
                  ++ num (x (person_rectangle person)) ++ ", "
                  ++ num (y (person_rectangle person)) ++ ")" ++ nl))
    with (l := l); [reflexivity | | exact Hread].
  intros item a i c Hr. apply read_Person_spec in Hr. destruct Hr as [Hn Hrect].
  apply read_Rectangle_spec in Hrect. destruct Hrect as [Hrn [Hx Hy]].
  rewrite (get_defined _ _ Hn). cbn [rbind].
  rewrite (show_number _ _ _ Hrn Hx), (show_number _ _ _ Hrn Hy). reflexivity.
Qed.

Lemma add_tags_refines (v : value) (r : AnalysisResults) (ctx : string) :
  nullish v = false ->
  read_optional (read_array read_Tag) (oget v "tags") = Some (tags r) ->
  ChatJson.add_tags v ctx = Ok (Chat.add_tags r ctx).
Proof.
  intros Hv H. unfold ChatJson.add_tags, Chat.add_tags.
  rewrite (get_defined _ _ Hv). cbn [rbind]. rewrite (non_empty_array _ _ _ H). cbn [rbind].
  destruct (Chat.non_empty (tags r)) eqn:Hne; [|reflexivity].
  destruct (array_of_non_empty _ _ _ H Hne) as [items [l [Hitems [Hl Hread]]]].
  rewrite Hitems, Hl. unfold map_strict.
  rewrite (mapM_read read_Tag _
             (fun tag => tag_name tag ++ " (" ++ num (tag_confidence tag) ++ ")"))
    with (l := l); [| | exact Hread].
  - cbn [rbind]. rewrite join_strings. reflexivity.
  - intros item a Hr. apply read_Tag_spec in Hr. destruct Hr as [Hn [Ht Hq]].
    rewrite (show_string _ _ _ Hn Ht), (show_number _ _ _ Hn Hq). reflexivity.
Qed.

Lemma add_text_refines (v : value) (r : AnalysisResults) (ctx : string) :
  nullish v = false ->
  read_optional (read_array read_string) (oget v "text") = Some (text r) ->
  ChatJson.add_text v ctx = Ok (Chat.add_text r ctx).
Proof.
  intros Hv H. unfold ChatJson.add_text, Chat.add_text.
  rewrite (get_defined _ _ Hv). cbn [rbind]. rewrite (non_empty_array _ _ _ H). cbn [rbind].
  destruct (Chat.non_empty (text r)) eqn:Hne; [|reflexivity].
  destruct (array_of_non_empty _ _ _ H Hne) as [items [l [Hitems [Hl Hread]]]].
  rewrite Hitems, Hl. rewrite (read_strings _ _ Hread), join_strings. reflexivity.
Qed.

Lemma color_line (v : value) (o : option string) (label c : string) :
  read_optional read_string v = Some o ->
  (if truthy v
   then rbind (rbind (Ok v) ToString) (fun shown => Ok (c ++ label ++ shown ++ nl))
   else Ok c)
  = Ok (if truthy_string o then c ++ label ++ Chat.show o ++ nl else c).
Proof.
  intros H. destruct (read_optional_string _ _ H) as [Ht Hs]. rewrite <- Ht.
  destruct (truthy v); [|reflexivity]. cbn [rbind]. rewrite (Hs eq_refl). reflexivity.
Qed.

Lemma color_join (v : value) (colors : option (list string)) (c : string) :
  read_optional (read_array read_string) v = Some colors ->
  (if truthy v
   then rbind (join_strict v ", ")
          (fun joined => Ok (c ++ "- Dominant colors: " ++ joined ++ nl))
   else Ok c)
  = Ok match colors with
       | Some cs => c ++ "- Dominant colors: " ++ JsString.join ", " cs ++ nl
       | None => c
       end.
Proof.
  intros H. destruct v as [| | | | |items|]; cbn in H; try discriminate H.
  - inversion H. reflexivity.
  - destruct (read_items read_string items) as [l|] eqn:Hl; [|discriminate H].
    inversion H; subst. cbn [truthy]. rewrite (read_strings _ _ Hl), join_strings.
    reflexivity.
Qed.

Lemma add_color_refines (v : value) (r : AnalysisResults) (ctx : string) :
  nullish v = false ->
  read_optional read_Color (oget v "color") = Some (color r) ->
  ChatJson.add_color v ctx = Ok (Chat.add_color r ctx).
Proof.
  intros Hv H. unfold ChatJson.add_color, Chat.add_color.
  rewrite (get_defined _ _ Hv). cbn [rbind].
  destruct (oget v "color") as [| | | | | |fs] eqn:Hc; cbn in H; try discriminate H.
  - inversion H. reflexivity.
  - destruct (read_optional read_string (lookup "dominantColorForeground" fs))
      as [foreground|] eqn:Hf; [|discriminate H].
    destruct (read_optional read_string (lookup "dominantColorBackground" fs))
      as [background|] eqn:Hb; [|discriminate H].
    destruct (read_optional (read_array read_string) (lookup "dominantColors" fs))
      as [colors|] eqn:Hd; [|discriminate H].
    inversion H; subst.
    cbn [truthy oget dominantColorForeground dominantColorBackground dominantColors].
    unfold ChatJson.show, get. cbn [nullish oget].
    rewrite (color_line _ _ _ _ Hf). cbn [rbind].
    rewrite (color_line _ _ _ _ Hb). cbn [rbind].
    rewrite (color_join _ _ _ Hd). cbn [rbind].
    reflexivity.
Qed.

(** On JSON that follows the interface, the function on JSON data
    returns what the function on the record returns. *)
Lemma read_AnalysisResults_fields (v : value) (r : AnalysisResults) :
  read_AnalysisResults v = Some r ->
  nullish v = false
  /\ read_standard v
     = Some (caption r, description r, objects r, people r, tags r, text r, color r)
  /\ read_enhanced v
     = Some (enhanced r, analysis r, sceneContext r, activities r, moodAtmosphere r,
             colorsComposition r, interestingDetails r).
Proof.
  unfold read_AnalysisResults. intros H. destruct v as [| | | | | |fs]; try discriminate H.
  destruct (read_standard (VObj fs)) as [[[[[[[c d] o] p] t] x] col]|];
    [|discriminate H].
  destruct (read_enhanced (VObj fs)) as [[[[[[[e a] sc] ac] m] cc] i]|];
    [|discriminate H].
  inversion H; subst. cbn. repeat split.
Qed.

Lemma read_standard_fields (v : value) c d o p t x col :
  read_standard v = Some (c, d, o, p, t, x, col) ->
  read_optional read_Caption (oget v "caption") = Some c
  /\ read_optional read_Description (oget v "description") = Some d
  /\ read_optional (read_array read_DetectedObject) (oget v "objects") = Some o
  /\ read_optional (read_array read_Person) (oget v "people") = Some p
  /\ read_optional (read_array read_Tag) (oget v "tags") = Some t
  /\ read_optional (read_array read_string) (oget v "text") = Some x
  /\ read_optional read_Color (oget v "color") = Some col.
Proof.
  unfold read_standard. intros H.
  destruct (read_optional read_Caption _); [|discriminate H].
  destruct (read_optional read_Description _); [|discriminate H].
  destruct (read_optional (read_array read_DetectedObject) _); [|discriminate H].
  destruct (read_optional (read_array read_Person) _); [|discriminate H].
  destruct (read_optional (read_array read_Tag) _); [|discriminate H].
  destruct (read_optional (read_array read_string) _); [|discriminate H].
  destruct (read_optional read_Color _); [|discriminate H].
  inversion H; subst. repeat split.
Qed.

Lemma buildAnalysisContext_refines (v : value) (r : AnalysisResults) :
  read_AnalysisResults v = Some r ->
  ChatJson.buildAnalysisContext v = Ok (Chat.buildAnalysisContext r).
Proof.
  intros H. destruct (read_AnalysisResults_fields _ _ H) as [Hv [Hs _]].
  destruct (read_standard_fields _ _ _ _ _ _ _ _ Hs) as [Hc [Hd [Ho [Hp [Ht [Hx Hcol]]]]]].
  unfold ChatJson.buildAnalysisContext, Chat.buildAnalysisContext. cbv zeta.
  rewrite (add_caption_refines _ _ _ Hv Hc). cbn [rbind].
  rewrite (add_detailed_captions_refines _ _ _ Hv Hd). cbn [rbind].
  rewrite (add_objects_refines _ _ _ Hv Ho). cbn [rbind].
  rewrite (add_people_refines _ _ _ Hv Hp). cbn [rbind].
  rewrite (add_tags_refines _ _ _ Hv Ht). cbn [rbind].
  rewrite (add_text_refines _ _ _ Hv Hx). cbn [rbind].
  rewrite (add_color_refines _ _ _ Hv Hcol). reflexivity.
Qed.

(** ** The suggestions *)

Lemma read_enhanced_fields (v : value) e a sc ac m cc i :
  read_enhanced v = Some (e, a, sc, ac, m, cc, i) ->
  read_optional read_boolean (oget v "enhanced") = Some e
  /\ read_optional read_Analysis (oget v "analysis") = Some a
  /\ read_optional read_string (oget v "sceneContext") = Some sc
  /\ read_optional (read_array read_string) (oget v "activities") = Some ac
  /\ read_optional read_string (oget v "moodAtmosphere") = Some m
  /\ read_optional read_string (oget v "colorsComposition") = Some cc
  /\ read_optional (read_array read_string) (oget v "interestingDetails") = Some i.
Proof.
  unfold read_enhanced. intros H.
  destruct (read_optional read_boolean _); [|discriminate H].
  destruct (read_optional read_Analysis _); [|discriminate H].
  destruct (read_optional read_string (oget v "sceneContext")); [|discriminate H].
  destruct (read_optional (read_array read_string) (oget v "activities"));
    [|discriminate H].
  destruct (read_optional read_string (oget v "moodAtmosphere")); [|discriminate H].
  destruct (read_optional read_string (oget v "colorsComposition")); [|discriminate H].
  destruct (read_optional (read_array read_string) (oget v "interestingDetails"));
    [|discriminate H].
  inversion H; subst. repeat split.
Qed.

Lemma isEnhanced_refines (v : value) (r : AnalysisResults) :
  read_optional read_boolean (oget v "enhanced") = Some (enhanced r) ->
  read_optional read_Analysis (oget v "analysis") = Some (analysis r) ->
  truthy (oget v "enhanced") && truthy (oget v "analysis")
  = match isEnhanced r with Some _ => true | None => false end.
Proof.
  intros He Ha. unfold isEnhanced.
  destruct (oget v "enhanced") as [| |b| | | |]; cbn in He; try discriminate He;
    inversion He as [He']; cbn [truthy andb]; [reflexivity|].
  destruct b; [|reflexivity]. cbn [andb].
  destruct (oget v "analysis") as [| | | | | |fs]; cbn in Ha; try discriminate Ha.
  - inversion Ha. reflexivity.
  - destruct (read_optional read_string (lookup "mainDescription" fs));
      [|discriminate Ha].
    destruct (read_optional (read_array read_string) (lookup "objects" fs));
      [|discriminate Ha].
    destruct (read_optional read_number (lookup "confidence" fs)); [|discriminate Ha].
    inversion Ha. reflexivity.
Qed.

Lemma first_of_strings (v : value) (o : option (list string)) :
  read_optional (read_array read_string) v = Some o ->
  Chat.non_empty o = true ->
  ToString (ofirst v)
  = Ok match o with Some (a :: _) => a | _ => "undefined" end.
Proof.
  intros H Hne.
  destruct (array_of_non_empty _ _ _ H Hne) as [items [l [-> [-> Hread]]]].
  rewrite (read_strings _ _ Hread). destruct l as [|a l]; [discriminate Hne|].
  reflexivity.
Qed.

Lemma generateEnhancedSuggestions_refines (v : value) (r : AnalysisResults)
    (a : Analysis) :
  read_AnalysisResults v = Some r ->
  analysis r = Some a ->
  ChatJson.generateEnhancedSuggestions v = Ok (Chat.generateEnhancedSuggestions r a).
Proof.
  intros H Hsome. destruct (read_AnalysisResults_fields _ _ H) as [Hv [_ He]].
  destruct (read_enhanced_fields _ _ _ _ _ _ _ _ He)
    as [_ [Ha [Hsc [Hac [Hm [Hcc Hi]]]]]].
  unfold ChatJson.generateEnhancedSuggestions, Chat.generateEnhancedSuggestions.
  cbv zeta. rewrite (get_defined _ _ Hv). cbn [rbind].
  rewrite Hsome in Ha.
  destruct (oget v "analysis") as [| | | | | |fs]; cbn in Ha; try discriminate Ha.
  destruct (read_optional read_string (lookup "mainDescription" fs))
    as [md|] eqn:Hmd; [|discriminate Ha].
  destruct (read_optional (read_array read_string) (lookup "objects" fs));
    [|discriminate Ha].
  destruct (read_optional read_number (lookup "confidence" fs)); [|discriminate Ha].
  inversion Ha; subst. cbn [get nullish oget rbind mainDescription].
  rewrite (proj1 (read_optional_string _ _ Hmd)).
  rewrite (non_empty_array _ _ _ Hac). cbn [rbind].
  rewrite (non_empty_array _ _ _ Hi).
  rewrite (proj1 (read_optional_string _ _ Hm)).
  rewrite (proj1 (read_optional_string _ _ Hcc)).
  rewrite (proj1 (read_optional_string _ _ Hsc)).
  destruct (Chat.non_empty (activities r)) eqn:Hne.
  - rewrite (first_of_strings _ _ Hac Hne). reflexivity.
  - reflexivity.
Qed.

Lemma object_names (items : list value) (l : list DetectedObject) :
  read_items read_DetectedObject items = Some l ->
  mapM (fun obj => get obj "object") items = Ok (map VStr (map object l)).
Proof.
  apply mapM_read. intros item a Hr. apply read_DetectedObject_spec in Hr.
  destruct Hr as [Hn [Ho _]]. now rewrite (get_defined _ _ Hn), Ho.
Qed.

Lemma gt_length_one (items : list value) :
  gt (length_prop (VArr items)) 1 = Ok (1 <? Z.of_nat (List.length items)).
Proof.
  cbn [length_prop gt]. now rewrite Qle_bool_inject, Z.ltb_antisym.
Qed.

Lemma generateQuestionSuggestions_refines (v : value) (r : AnalysisResults) :
  read_AnalysisResults v = Some r ->
  ChatJson.generateQuestionSuggestions v = Ok (Chat.generateQuestionSuggestions r).
Proof.
  intros H. destruct (read_AnalysisResults_fields _ _ H) as [Hv [Hs He]].
  destruct (read_standard_fields _ _ _ _ _ _ _ _ Hs) as [_ [_ [Ho [Hp [_ [Hx _]]]]]].
  destruct (read_enhanced_fields _ _ _ _ _ _ _ _ He) as [Hen [Ha _]].
  unfold ChatJson.generateQuestionSuggestions, Chat.generateQuestionSuggestions.
  cbv zeta. rewrite (get_defined _ _ Hv). cbn [rbind].
  rewrite (isEnhanced_refines _ _ Hen Ha).
  destruct (isEnhanced r) as [a|] eqn:Hflag.
  - apply generateEnhancedSuggestions_refines; [exact H|].
    unfold isEnhanced in Hflag. destruct (enhanced r) as [[|]|]; try discriminate Hflag.
    exact Hflag.
  - rewrite (non_empty_array _ _ _ Ho). cbn [rbind].
    rewrite (non_empty_array _ _ _ Hp).
    rewrite (non_empty_array _ _ _ Hx).
    assert (Hobjects :
      (if Chat.non_empty (objects r)
       then
         (objectNames <- map_strict (oget v "objects") (fun obj => get obj "object") ;;
          first <- ToString (ofirst objectNames) ;;
          more <- gt (length_prop objectNames) 1 ;;
          Ok (if more
              then push (push (push (push [] "What do you see in this image?")
                                    "Can you describe the main subject?")
                              ("Tell me more about the " ++ first ++ " in the image"))
                        "What's the relationship between the objects?"
              else push (push (push [] "What do you see in this image?")
                              "Can you describe the main subject?")
                        ("Tell me more about the " ++ first ++ " in the image")))%res
       else Ok (push (push [] "What do you see in this image?")
                     "Can you describe the main subject?"))
      = Ok (if Chat.non_empty (objects r)
            then
              let objectNames :=
                map object (match objects r with Some l => l | None => [] end) in
              let first := match objectNames with n :: _ => n | [] => "undefined" end in
              if 1 <? Z.of_nat (List.length objectNames)
              then push (push (push (push [] "What do you see in this image?")
                                    "Can you describe the main subject?")
                              ("Tell me more about the " ++ first ++ " in the image"))
                        "What's the relationship between the objects?"
              else push (push (push [] "What do you see in this image?")
                              "Can you describe the main subject?")
                        ("Tell me more about the " ++ first ++ " in the image")
            else push (push [] "What do you see in this image?")
                      "Can you describe the main subject?")).
    { destruct (Chat.non_empty (objects r)) eqn:Hne; [|reflexivity].
      destruct (array_of_non_empty _ _ _ Ho Hne) as [items [l [Hitems [Hl Hread]]]].
      rewrite Hitems, Hl. unfold map_strict. rewrite (object_names _ _ Hread).
      cbn [rbind]. rewrite gt_length_one, !length_map.
      destruct l as [|obj l]; [rewrite Hl in Hne; discriminate Hne|].
      cbn [map ofirst ToString rbind]. reflexivity. }
    cbv zeta in Hobjects. rewrite Hobjects. cbn [rbind].
    destruct (Chat.non_empty (objects r)) eqn:Hne_o;
      (destruct (Chat.non_empty (people r)) eqn:Hne_p;
       [destruct (array_of_non_empty _ _ _ Hp Hne_p) as [items [l [Hitems [Hl Hread]]]];
        rewrite Hitems, Hl, gt_length_one, (read_items_length _ _ _ Hread)
       |]; cbn [rbind]; reflexivity).
Qed.

(** POST /suggestions with analysis results that follow the interface
    answers with the list that the function on the record gives, makes
    no call and leaves the server as it was. *)
Lemma suggestions_json_runs (req : Request value) (o : Outside) (s : Server)
    (results : value) (r : AnalysisResults) :
  oget (body req) "analysisResults" = results ->
  read_AnalysisResults results = Some r ->
  ChatJson.suggestions req o s
  = (Ok (res_json (VObj [("suggestions", VArr (map VStr (Chat.generateQuestionSuggestions r)));
                         ("timestamp", VStr (clock o))])),
     s, []).
Proof.
  intros Hbody Hread.
  assert (Hobj : exists fs, results = VObj fs).
  { destruct results; try discriminate Hread. eauto. }
  destruct Hobj as [fs Hfs].
  assert (Hget : get (body req) "analysisResults" = Ok results).
  { unfold get. destruct (body req); cbn in Hbody |- *;
      try (rewrite <- Hbody in Hfs; discriminate Hfs); now rewrite Hbody. }
  unfold ChatJson.suggestions. rewrite Hget.
  cbv beta iota delta [try_catch bind lift ret].
  replace (truthy results) with true by now rewrite Hfs.
  cbv beta iota delta [negb].
  rewrite (generateQuestionSuggestions_refines _ _ Hread).
  reflexivity.
Qed.

(** C4 (as the code has it): for every analysis results object that
    follows the interface [AnalysisResults] of the client,
    [buildAnalysisContext] returns the concatenation, in the fixed order
    caption, detailed captions, objects, people, tags, OCR text, color,
    of exactly the sections whose field is present (and not empty for
    objects, people, tags and text); each of these sections is a
    non-empty text, and a section whose field is absent, or empty for
    those four, contributes nothing. *)
Theorem buildAnalysisContext_sections (results : value) (r : AnalysisResults) :
  read_AnalysisResults results = Some r ->
  ChatJson.buildAnalysisContext results
  = Ok (String.concat EmptyString
          (map (section_text r) (filter (section_due r) section_order)))
  /\ (forall k, section_due r k = true -> section_text r k <> EmptyString).
Proof.
  intros H. split; [|intros k; apply due_section_not_empty].
  rewrite (buildAnalysisContext_refines _ _ H). f_equal.
  apply typed_context_sections.
Qed.

(** C5 (as the code has it): for analysis results that follow the
    interface [AnalysisResults] and have no enhanced flag, POST
    /api/chat/suggestions answers 200 with a list of exactly six
    entries, which contains the two opener questions, contains an object
    question iff results.objects is not empty and a people question iff
    results.people is not empty; it contains a text question only if
    results.text is not empty, and then the first text question is kept
    iff the objects and people contributed at most three questions, the
    second iff they contributed at most two: the cut to six entries drops
    what comes later. *)
Theorem suggestions_follow_fields
    (req : Request value) (o : Outside) (s : Server) (results : value)
    (r : AnalysisResults) :
  oget (body req) "analysisResults" = results ->
  read_AnalysisResults results = Some r ->
  enhanced r <> Some true ->
  exists (res : Response) (l : list string),
    run (ChatJson.suggestions req) o s = Ok res
    /\ statusCode res = 200
    /\ suggestions_of res = VArr (map VStr l)
    /\ List.length l = 6%nat
    /\ has_openers l = true
    /\ has_object_questions l = Chat.non_empty (objects r)
    /\ has_people_questions l = Chat.non_empty (people r)
    /\ (has_text_questions l = true -> Chat.non_empty (text r) = true)
    /\ JsString.mem first_text_question l
       = Chat.non_empty (text r) && (questions_before_text r <=? 3)%nat
    /\ JsString.mem second_text_question l
       = Chat.non_empty (text r) && (questions_before_text r <=? 2)%nat.
Proof.
  intros Hbody Hread Hflag.
  destruct (standard_suggestions_shape r Hflag) as [Ho [Hpe [Ht1 [Ht2 [Hop Hlen]]]]].
  eexists. exists (Chat.generateQuestionSuggestions r).
  unfold run. rewrite (suggestions_json_runs req o s _ _ Hbody Hread). cbn [fst].
  repeat match goal with |- _ /\ _ => split end;
    try reflexivity; try assumption.
  unfold has_text_questions. rewrite Ht1, Ht2.
  destruct (Chat.non_empty (text r)); [reflexivity | discriminate].
Qed.

End ChatJsonFacts.

Set Implicit Arguments.

(* ================================================================== *)
(** * Chat: the handlers keep no state *)
(* ================================================================== *)

Section ChatStateFacts.
Import Chat Spec Express.
Context {rt : Runtime}.

Lemma errorHandler_preserves {B : Type} (err : JsError) (req : Request B) :
  preserves (ErrorHandler.errorHandler err req).
Proof. unfold ErrorHandler.errorHandler. handler_frame. Qed.

Lemma errorHandler_answers {B : Type} (err : JsError) (req : Request B) :
  answers (ErrorHandler.errorHandler err req).
Proof. unfold ErrorHandler.errorHandler. handler_total. Qed.

Lemma errorHandler_emits_logs {B : Type} (P : call -> Prop) (err : JsError) (req : Request B) :
  (forall l m, P (Logged l m)) -> emits P (ErrorHandler.errorHandler err req).
Proof.
  intros HP. unfold ErrorHandler.errorHandler. handler_unfold.
  repeat handler_step; auto with calls; apply emits_emit; apply HP.
Qed.

Lemma api_chat_preserves (req : Request ChatBody) : preserves (api_chat req).
Proof.
  unfold api_chat, serve, router. cbn [run_stack dispatch route_stack].
  unfold analyze, suggestions.
  handler_unfold; repeat handler_step; auto with frame; apply errorHandler_preserves.
Qed.

Lemma api_chat_answers (req : Request ChatBody) : answers (api_chat req).
Proof.
  unfold api_chat, serve, router. cbn [run_stack dispatch route_stack].
  unfold analyze, suggestions.
  handler_unfold; repeat handler_step; auto with total; apply errorHandler_answers.
Qed.

Lemma api_chat_calls (req : Request ChatBody) :
  emits (chat_call_from_body (body req)) (api_chat req).
Proof.
  unfold api_chat, serve, router. cbn [run_stack dispatch route_stack].
  unfold analyze, suggestions.
  handler_unfold; repeat handler_step; auto with calls;
    try (apply errorHandler_emits_logs; intros; exact I);
    try (apply emits_emit; exact I).
  apply emits_await. cbn [chat_call_from_body]. do 2 eexists.
  repeat split; eassumption.
Qed.

Lemma messages_sent_In (P : call -> Prop) (t : list call) (msgs : list Message) :
  Forall P t -> In msgs (messages_sent t) ->
  exists mt te, P (OpenAIChat msgs mt te).
Proof.
  induction 1 as [|c t Hc Ht IH]; cbn [messages_sent]; [contradiction|].
  destruct c; auto. intros [<- | Hin]; eauto.
Qed.

(** C8: the chat handlers keep no state. Serving any request on
    /api/chat (POST /analyze, POST /suggestions, or anything else) leaves
    the server state as it was; the only message array a request sends to
    the completion API is the one built from the question,
    analysisResults and conversationHistory of its own body, so that two
    requests that agree on these three fields send the same messages
    whatever else differs (state, clock, service answers, other request
    fields); and a request served after another one is answered exactly
    as when it is served alone. *)
Theorem chat_handlers_stateless
    (req1 req2 : Request ChatBody) (o1 o2 : Outside) (s1 s2 : Server) :
  final_state (api_chat req1) o1 s1 = s1
  /\ (forall msgs,
        In msgs (messages_sent (trace (api_chat req1) o1 s1)) ->
        exists q r,
          question (body req1) = Some q /\ analysisResults (body req1) = Some r
          /\ msgs = buildMessages q r (from_option (conversationHistory (body req1))))
  /\ (question (body req1) = question (body req2) ->
      analysisResults (body req1) = analysisResults (body req2) ->
      conversationHistory (body req1) = conversationHistory (body req2) ->
      forall m1 m2,
        In m1 (messages_sent (trace (api_chat req1) o1 s1)) ->
        In m2 (messages_sent (trace (api_chat req2) o2 s2)) ->
        m1 = m2)
  /\ (run (bind (api_chat req1) (fun _ => api_chat req2)) o1 s1
      = run (api_chat req2) o1 s1).
Proof.
  assert (Hsent : forall req o s msgs,
    In msgs (messages_sent (trace (api_chat req) o s)) ->
    exists q r,
      question (body req) = Some q /\ analysisResults (body req) = Some r
      /\ msgs = buildMessages q r (from_option (conversationHistory (body req)))).
  { intros req o s msgs Hin.
    pose proof (api_chat_calls req o s) as Hcalls.
    destruct (messages_sent_In _ Hcalls Hin) as [mt [te H]].
    exact H. }
  repeat match goal with |- _ /\ _ => split end.
  - apply api_chat_preserves.
  - apply Hsent.
  - intros Hq Hr Hh m1 m2 H1 H2.
    destruct (Hsent _ _ _ _ H1) as [q1 [r1 [Hq1 [Hr1 ->]]]].
    destruct (Hsent _ _ _ _ H2) as [q2 [r2 [Hq2 [Hr2 ->]]]].
    rewrite Hq, Hq2 in Hq1. rewrite Hr, Hr2 in Hr1. rewrite Hh.
    now inversion Hq1; inversion Hr1.
  - pose proof (api_chat_preserves req1 o1 s1) as Hf.
    destruct (api_chat_answers req1 o1 s1) as [res Hres].
    unfold run, final_state, bind in *.
    destruct (api_chat req1 o1 s1) as [[[a|e] s'] t]; cbn [fst snd] in *;
      [|discriminate].
    subst s'. destruct (api_chat req2 o1 s1) as [[r2 s2'] t2]. reflexivity.
Qed.

End ChatStateFacts.

(* ================================================================== *)
(** * Enhanced analysis: the shape of the result *)
(* ================================================================== *)

Section EnhancedFacts.
Import Spec EnhancedVision.

Lemma mapM_pure {E A C : Type} (g : A -> C) (l : list A) :
  mapM (E := E) (fun x => Ok (g x)) l = Ok (map g l).
Proof.
  induction l as [|a l IH]; cbn [mapM map]; [reflexivity | now rewrite IH].
Qed.

Lemma forallb_map_const {A C : Type} (p : C -> bool) (g : A -> C) (l : list A) :
  (forall x, p (g x) = true) -> forallb p (map g l) = true.
Proof.
  intros H. induction l as [|a l IH]; cbn [map forallb]; [reflexivity|].
  now rewrite H, IH.
Qed.

Lemma forallb_map_str (p : value -> bool) (g : value -> value) (l : list value) :
  (forall s, p (g (VStr s)) = true) ->
  forallb (conforms SStr) l = true -> forallb p (map g l) = true.
Proof.
  intros H. induction l as [|a l IH]; cbn [map forallb]; [reflexivity|].
  intros Hl. apply andb_true_iff in Hl. destruct Hl as [Ha Hl].
  destruct a; try discriminate. now rewrite H, IH.
Qed.

Lemma forallb_app_true {A : Type} (p : A -> bool) (l1 l2 : list A) :
  forallb p l1 = true -> forallb p l2 = true -> forallb p (l1 ++ l2)%list = true.
Proof. intros H1 H2. rewrite forallb_app. now rewrite H1, H2. Qed.

Lemma conforms_strings (l : list string) : forallb (conforms SStr) (map VStr l) = true.
Proof. now apply forallb_map_const. Qed.

(** The reshaping step on an answer in the format of the prompt. *)
Lemma reshape_has_legacy_format (analysisResult usage : value) :
  conforms prompt_format analysisResult = true ->
  exists v,
    reshape analysisResult usage = Ok v
    /\ keys v = enhanced_keys
    /\ conforms legacy_format v = true
    /\ oget v "analysis" = analysisResult
    /\ has_key "success" v = false
    /\ has_key "timestamp" v = false
    /\ has_key "imageUrl" v = false.
Proof.
  intros H. destruct analysisResult as [| | | | | |fs]; try discriminate.
  cbn [conforms prompt_format oget] in H.
  repeat (apply andb_true_iff in H; destruct H as [H ?]).
  repeat match goal with
         | h : (_ && _) = true |- _ => apply andb_true_iff in h; destruct h as [? ?]
         end.
  unfold reshape, get, dominantColors. cbn [nullish oget rbind].
  destruct (lookup "mainDescription" fs) as [| | | |main| |] eqn:Em; try discriminate.
  destruct (lookup "objects" fs) as [| | | | |objs|] eqn:Eo; try discriminate.
  destruct (lookup "sceneContext" fs) as [| | | |scene| |]; try discriminate.
  destruct (lookup "activities" fs) as [| | | | |acts|]; try discriminate.
  destruct (lookup "moodAtmosphere" fs) as [| | | |mood| |]; try discriminate.
  destruct (lookup "textContent" fs) as [| | | |textContent| |]; try discriminate.
  destruct (lookup "colorsComposition" fs) as [| | | |colors| |]; try discriminate.
  destruct (lookup "interestingDetails" fs) as [| | | | |dets|]; try discriminate.
  destruct (lookup "confidence" fs) as [| | |conf| | |] eqn:Ec; try discriminate.
  cbn [omap]. rewrite !mapM_pure. cbn [rbind or_else truthy spread].
  eexists. split; [reflexivity|].
  split; [reflexivity|].
  split; [|repeat split; reflexivity].
  cbn [conforms legacy_format caption_shape has_key keys map fst oget lookup
       JsString.mem existsb String.eqb Ascii.eqb Bool.eqb orb andb forallb].
  repeat (apply andb_true_intro; split);
    try reflexivity; try assumption;
    try (unfold or_else; destruct (truthy _); reflexivity);
    try (destruct (JsString.truthy textContent); reflexivity);
    try (rewrite forallb_app; apply andb_true_intro; split);
    try (apply forallb_map_str; [intros; reflexivity | assumption]).
  all: rewrite ?Em, ?Eo, ?Ec; try reflexivity; try assumption.
  apply (conforms_strings (firstn 3 (map JsString.trim (JsString.split "," colors)))).
Qed.

(** C1 (as the code has it): when the model answers in the format the
    prompt asks for, the enhanced path returns an object with the keys
    enhanced, model, analysis, caption, description, objects, tags, text,
    color, sceneContext, activities, moodAtmosphere, colorsComposition,
    interestingDetails and usage, which carries the raw answer under
    analysis and has the legacy analysis format read by the chat routes:
    caption with text and confidence, description.captions, objects with
    object, confidence and rectangle, tags with name and confidence, text
    as an array of strings, and color.dominantColors. It has none of the
    fields success, timestamp and imageUrl of the classic response. *)
Theorem enhanced_result_has_legacy_format
    {rt : Runtime} (imageBuffer : Buffer) (mimeType : string) (o : Outside) (s : Server)
    (response content analysisResult : value) :
  openai (azureClients s) = true ->
  openai_vision_service o analysisPrompt
    ("data:" ++ mimeType ++ ";base64," ++ Buffer_toString_base64 imageBuffer)
    = Ok response ->
  first_content response = Ok content ->
  JSON_parse content = Some analysisResult ->
  conforms prompt_format analysisResult = true ->
  exists v,
    run (analyzeImageWithGPT4o imageBuffer mimeType) o s = Ok v
    /\ keys v = enhanced_keys
    /\ conforms legacy_format v = true
    /\ oget v "analysis" = analysisResult
    /\ has_key "success" v = false
    /\ has_key "timestamp" v = false
    /\ has_key "imageUrl" v = false.
Proof.
  intros Hclient Hservice Hcontent Hparse Hformat.
  destruct (reshape_has_legacy_format analysisResult (oget response "usage") Hformat)
    as [v [Hv Hrest]].
  exists v. split; [|exact Hrest].
  assert (Hobj : get analysisResult "confidence" = Ok (oget analysisResult "confidence")).
  { destruct analysisResult; try discriminate Hformat; reflexivity. }
  cbv beta iota zeta delta
    [run analyzeImageWithGPT4o try_catch bind getAzureClients server ret
     logger_info emit await lift fst snd].
  rewrite Hclient. cbv beta iota zeta delta [negb fst snd].
  rewrite Hservice. cbv beta iota zeta delta [lift ret fst snd].
  rewrite Hcontent. cbv beta iota zeta delta [lift ret fst snd].
  rewrite Hparse. cbv beta iota zeta delta [lift ret fst snd].
  rewrite Hobj. cbv beta iota zeta delta [lift ret fst snd].
  rewrite Hv. reflexivity.
Qed.

End EnhancedFacts.

(* ================================================================== *)
(** * Vision analysis: requests without a multipart file *)
(* ================================================================== *)

Section VisionFacts.
Import Spec Express Vision.
Context {rt : Runtime}.

(** Without a multipart file part the upload middleware passes the
    request on, with the body it arrived with or, when it is a multipart
    request, with the text fields as its body; the request reaches the
    route handler. *)
Lemma api_vision_without_upload (req : Request value) (o : Outside) (s : Server) :
  upload req = None ->
  method req = "POST" ->
  path req = "/analyze" ->
  exists req',
    (req' = req \/ req' = with_body req (fields req))
    /\ api_vision req o s = analyze req' o s.
Proof.
  intros Hu Hm Hp.
  assert (Hup : exists req',
             (req' = req \/ req' = with_body req (fields req))
             /\ Upload.conditionalUpload req = ret (Next req')).
  { unfold Upload.conditionalUpload, Upload.upload_single.
    cbn [upload with_body]. rewrite Hu.
    destruct (JsString.includes _ _); eauto. }
  destruct Hup as [req' [Hreq' Hup]]. exists req'. split; [exact Hreq'|].
  assert (Hmatch : matches {| route_method := "POST"; route_path := "/analyze";
                              route_stack := [respond analyze] |} req' = true).
  { unfold matches. cbn [route_method route_path].
    destruct Hreq' as [-> | ->]; cbn [method path with_body]; now rewrite Hm, Hp. }
  unfold api_vision, serve. cbn [run_stack]. rewrite Hup.
  unfold router. cbn [dispatch]. unfold bind at 1 2. unfold ret at 1.
  cbn [dispatch]. rewrite Hmatch. cbn [route_stack run_stack].
  unfold respond, bind, ret.
  destruct (analyze req' o s) as [[[res|e] s'] t]; cbn [app]; rewrite ?app_nil_r;
    reflexivity.
Qed.

(** The route handler catches every error, so the pipeline always
    answers. *)
Lemma api_vision_total (req : Request value) : answers (api_vision req).
Proof.
  unfold api_vision, serve. cbn [run_stack].
  apply answers_bind.
  - unfold Upload.conditionalUpload, Upload.upload_single, router.
    cbn [dispatch route_stack run_stack]. unfold analyze.
    handler_total.
  - intros [res|req'|err]; auto with total; apply errorHandler_answers.
Qed.

Lemma analysisResponse_imageUrl (timestamp : string) (imageUrl result v : value) :
  analysisResponse timestamp imageUrl result = Ok v -> oget v "imageUrl" = imageUrl.
Proof.
  unfold analysisResponse, rbind.
  repeat match goal with
         | |- context [match ?x with Ok _ => _ | Throw _ => _ end] => destruct x
         end; intros H; inversion H; reflexivity.
Qed.

Ltac refusal := apply returns_ret; intros Hs; discriminate Hs.

Ltac any_bind :=
  apply returns_bind with (P := fun _ => True); [apply returns_trivial | intros ? _].

Lemma analyze_without_file_imageUrl (req : Request value) :
  file req = None -> returns null_imageUrl_on_success (analyze req).
Proof.
  intros Hf. unfold analyze, read_input. rewrite Hf.
  apply returns_try_catch.
  - apply returns_bind
      with (P := fun input => forall r, input = inr r -> null_imageUrl_on_success r).
    { destruct (truthy (oget (body req) "image")).
      - apply returns_try_catch.
        + any_bind. any_bind. apply returns_ret. intros r Hr. discriminate Hr.
        + intros e. apply returns_ret. intros r Hr. inversion Hr. intros Hs.
          discriminate Hs.
      - apply returns_ret. intros r Hr. inversion Hr. intros Hs. discriminate Hs. }
    intros [[[imageBuffer features] language]|r] Hin;
      [|apply returns_ret; now apply Hin].
    handler_unfold. any_bind.
    destruct (byteLength imageBuffer =? 0); [refusal|].
    destruct (20 * 1024 * 1024 <? byteLength imageBuffer); [refusal|].
    any_bind. any_bind.
    destruct (negb _ || negb _); [refusal|].
    any_bind. any_bind. any_bind. any_bind. any_bind.
    apply returns_bind with (P := fun v => v = VNull).
    { apply returns_try_catch; [apply returns_throw|]. intros e.
      any_bind. now apply returns_ret. }
    intros imageUrl ->. any_bind.
    apply returns_bind with (P := fun v => oget v "imageUrl" = VNull).
    { intros o s v Hr. unfold run, lift in Hr.
      match type of Hr with
      | context [analysisResponse ?t VNull ?res] =>
          destruct (analysisResponse t VNull res) as [v'|msg] eqn:Hresp
      end; cbn in Hr; [|discriminate].
      inversion Hr; subst. now apply analysisResponse_imageUrl in Hresp. }
    intros response Hnull. any_bind.
    apply returns_ret. intros _. exact Hnull.
  - intros error. handler_unfold. any_bind. any_bind.
    destruct (response error) as [[st data]|]; [any_bind|]; refusal.
Qed.

Lemma uploadless_calls (req : Request value) :
  file req = None -> emits not_blob_upload (analyze req).
Proof.
  intros Hf. unfold analyze, read_input. rewrite Hf.
  handler_unfold; repeat handler_step; auto with calls;
    try (apply emits_emit; exact I); try (apply emits_await; exact I).
Qed.

(** What the upload middleware and the error handler make of a
    multipart file that reaches the size limit or is not an image: 413
    and 500, without a call to any service. *)
Lemma refused_upload_status (req : Request value) (f : UploadedFile)
    (o : Outside) (s : Server) :
  JsString.includes
    (match content_type req with Some c => c | None => EmptyString end)
    "multipart/form-data" = true ->
  upload req = Some f ->
  fieldname f = "image" ->
  exists res,
    run (api_vision req) o s = Ok res
    /\ (Upload.fileFilter f = false -> statusCode res = 500)
    /\ (Upload.fileFilter f = true -> Upload.fileSize <= size f -> statusCode res = 413)
    /\ (Upload.fileFilter f = false \/ Upload.fileSize <= size f ->
        service_calls (trace (api_vision req) o s) = []).
Proof.
  intros Hct Hu Hname.
  assert (Hup : forall e,
    Upload.conditionalUpload req = ret (NextError e) ->
    api_vision req o s = ErrorHandler.errorHandler e req o s).
  { intros e He. unfold api_vision, serve. cbn [run_stack]. rewrite He.
    unfold bind, ret. cbn [fst snd app].
    destruct (ErrorHandler.errorHandler e req o s) as [[r s'] t]. reflexivity. }
  assert (Hcond : Upload.conditionalUpload req
                  = if negb (Upload.fileFilter f)
                    then ret (NextError (Error "Only image files are allowed!"))
                    else if Upload.fileSize <=? size f
                         then ret (NextError (Upload.MulterError "LIMIT_FILE_SIZE"
                                                "File too large"))
                         else ret (Next (with_file (with_body req (fields req)) f))).
  { unfold Upload.conditionalUpload, Upload.upload_single. rewrite Hct.
    cbn [upload with_body]. rewrite Hu, Hname.
    change (String.eqb "image" "image") with true. reflexivity. }
  destruct (Upload.fileFilter f) eqn:Hfilter; cbn [negb] in Hcond.
  - destruct (Upload.fileSize <=? size f) eqn:Hsize.
    + destruct (errorHandler_returns
                  (Upload.MulterError "LIMIT_FILE_SIZE" "File too large") req o s)
        as [res [Hrun [Hst [_ [_ Hcalls]]]]].
      exists res. unfold run, trace in *. rewrite (Hup _ Hcond).
      split; [exact Hrun|]. split; [discriminate|]. split; [intros _ _; exact Hst|].
      intros _. exact Hcalls.
    + destruct (api_vision_total req o s) as [res Hres]. exists res.
      apply Z.leb_gt in Hsize.
      split; [exact Hres|]. split; [discriminate|]. split; [intros _ Hlt; lia|].
      intros [H|H]; [discriminate H | lia].
  - destruct (errorHandler_returns (Error "Only image files are allowed!") req o s)
      as [res [Hrun [Hst [_ [_ Hcalls]]]]].
    exists res. unfold run, trace in *. rewrite (Hup _ Hcond).
    split; [exact Hrun|]. split; [intros _; exact Hst|]. split; [discriminate|].
    intros _. exact Hcalls.
Qed.

(** C9: a POST /api/vision/analyze request that carries its image as
    base64 JSON, with no multipart file, and that is answered with a
    successful analysis, has a null imageUrl in its answer; on such a
    request the blob storage service is not called at all (the upload
    step fails on reading [req.file.originalname] and the failure is
    caught). *)
Theorem base64_analysis_has_null_imageUrl
    (req : Request value) (o : Outside) (s : Server) (res : Response) :
  method req = "POST" ->
  path req = "/analyze" ->
  upload req = None ->
  file req = None ->
  run (api_vision req) o s = Ok res ->
  oget (jsonBody res) "success" = VBool true ->
  oget (jsonBody res) "imageUrl" = VNull
  /\ Forall not_blob_upload (trace (api_vision req) o s).
Proof.
  intros Hm Hp Hu Hf Hrun Hsuccess.
  destruct (api_vision_without_upload req o s Hu Hm Hp) as [req' [Hreq' Heq]].
  assert (Hf' : file req' = None) by (destruct Hreq' as [-> | ->]; exact Hf).
  unfold run, trace in *. rewrite Heq in *.
  split.
  - eapply analyze_without_file_imageUrl; eassumption.
  - now apply uploadless_calls.
Qed.

End VisionFacts.

(* ================================================================== *)
(** * The properties on concrete requests *)
(* ================================================================== *)

(** C1, counterexample: for one image sent to both paths, the classic
    response has the fields success and analysis.objects[].name, and the
    result of the enhanced path has neither: it does not have the schema
    of the classic response. *)
Lemma enhanced_schema_is_not_classic :
  exists (classic : Response) (enhanced : value),
    run (Vision.api_vision (rt := Samples.runtime) Samples.base64_request)
        Samples.world Samples.configured = Ok classic
    /\ run (EnhancedVision.analyzeImageWithGPT4o (rt := Samples.runtime)
              (Samples.decode_base64 "aGk=" 0 0) "image/jpeg")
           Samples.world Samples.configured = Ok enhanced
    /\ Spec.has_path (jsonBody classic) ["success"] = true
    /\ Spec.has_path enhanced ["success"] = false
    /\ Spec.has_path (jsonBody classic) ["analysis"; "objects"; "[]"; "name"] = true
    /\ Spec.has_path enhanced ["analysis"; "objects"; "[]"; "name"] = false
    /\ ~ Spec.same_schema (jsonBody classic) enhanced.
Proof.
  do 2 eexists.
  split; [vm_compute; reflexivity|].
  split; [vm_compute; reflexivity|].
  repeat split; try (vm_compute; reflexivity).
  intros H. specialize (H ["success"] eq_refl). vm_compute in H. discriminate H.
Qed.

(** C4, counterexample: analysis results whose text is one string, not
    a list of lines, have a text that is present and not empty, and
    [buildAnalysisContext] returns no context for them: it throws a
    TypeError, since a string has no method join. It also throws on an
    object that has a name and a bounding box, as the Vision route
    answers it, and no rectangle. Neither value follows the interface. *)
Lemma buildAnalysisContext_throws_outside_interface :
  (oget Samples.text_as_string "text" = VStr "EXIT"
   /\ Spec.read_AnalysisResults Samples.text_as_string = None
   /\ ChatJson.buildAnalysisContext (rt := Samples.runtime) Samples.text_as_string
      = Throw "TypeError: join is not a function")
  /\ (Spec.read_AnalysisResults Samples.objects_by_name = None
      /\ ChatJson.buildAnalysisContext (rt := Samples.runtime) Samples.objects_by_name
         = Throw "TypeError: Cannot read properties of undefined (reading 'x')").
Proof. repeat split; vm_compute; reflexivity. Qed.

(** C5, counterexample: with two objects, two people and a line of
    text, and no enhanced flag, the answer of POST /api/chat/suggestions
    holds no text question although results.text is not empty; and for
    analysis results whose objects are one string the route answers 500
    with no list at all. *)
Lemma suggestions_text_questions_cut :
  (Spec.read_AnalysisResults Samples.crowded_json = Some Samples.crowded
   /\ Chat.enhanced Samples.crowded = None
   /\ exists (res : Response) (l : list string),
        run (ChatJson.suggestions (rt := Samples.runtime)
               (Samples.suggestions_json_request Samples.crowded_json))
            Samples.world Samples.configured = Ok res
        /\ Spec.suggestions_of res = VArr (map VStr l)
        /\ Chat.non_empty (Chat.text Samples.crowded) = true
        /\ Spec.has_text_questions l = false
        /\ ~ Spec.derived_from_fields Samples.crowded l)
  /\ (truthy (oget Samples.objects_as_string "enhanced") = false
      /\ exists res : Response,
           run (ChatJson.suggestions (rt := Samples.runtime)
                  (Samples.suggestions_json_request Samples.objects_as_string))
               Samples.world Samples.configured = Ok res
           /\ statusCode res = 500
           /\ oget (jsonBody res) "message" = VStr "Failed to generate suggestions"
           /\ Spec.suggestions_of res = VUndef).
Proof.
  split.
  - split; [vm_compute; reflexivity|]. split; [reflexivity|].
    eexists. exists (Chat.generateQuestionSuggestions Samples.crowded).
    repeat match goal with |- _ /\ _ => split end; try (vm_compute; reflexivity).
    unfold Spec.derived_from_fields. intros [_ [_ [H _]]]. vm_compute in H. discriminate.
  - split; [reflexivity|]. eexists.
    split; [vm_compute; reflexivity|]. repeat split.
Qed.

(** The enhanced path on a small image, with a model that answers in the
    format of the prompt. *)
Lemma enhanced_result_has_legacy_format_witness :
  exists v,
    run (EnhancedVision.analyzeImageWithGPT4o (rt := Samples.runtime)
           Samples.image_bytes "image/png")
        Samples.world Samples.configured = Ok v
    /\ keys v = Spec.enhanced_keys
    /\ Spec.conforms Spec.legacy_format v = true.
Proof.
  destruct (@enhanced_result_has_legacy_format Samples.runtime
              Samples.image_bytes "image/png" Samples.world Samples.configured
              _ _ Samples.model_answer eq_refl eq_refl eq_refl eq_refl eq_refl)
    as [v [Hv [Hk [Hc _]]]].
  exists v. repeat split; assumption.
Defined.

(** The context of analysis results with a caption, objects, people,
    tags and text, and without detailed captions and colors. *)
Lemma buildAnalysisContext_sections_witness :
  ChatJson.buildAnalysisContext (rt := Samples.runtime) Samples.crowded_json
  = Ok (String.concat EmptyString
          (map (Spec.section_text (rt := Samples.runtime) Samples.crowded)
             [Spec.SecCaption; Spec.SecObjects; Spec.SecPeople; Spec.SecTags;
              Spec.SecOcrText])).
Proof.
  exact (proj1 (@buildAnalysisContext_sections Samples.runtime
                  Samples.crowded_json Samples.crowded eq_refl)).
Defined.

(** A translation request with an empty text. *)
Lemma translate_rejects_invalid_body_witness :
  exists res,
    run (Translation.api_translation Samples.empty_text_request)
        Samples.world Samples.configured = Ok res
    /\ statusCode res = 400
    /\ oget (jsonBody res) "error" = VStr "Validation failed"
    /\ service_calls
         (trace (Translation.api_translation Samples.empty_text_request)
                Samples.world Samples.configured) = [].
Proof.
  apply translate_rejects_invalid_body;
    [reflexivity | reflexivity | right; left; reflexivity].
Defined.

(** Suggestions for analysis results of the standard path. *)
Lemma suggestions_follow_fields_witness :
  exists (res : Response) (l : list string),
    run (ChatJson.suggestions (rt := Samples.runtime)
           (Samples.suggestions_json_request Samples.crowded_json))
        Samples.world Samples.configured = Ok res
    /\ Spec.suggestions_of res = VArr (map VStr l)
    /\ List.length l = 6%nat.
Proof.
  destruct (@suggestions_follow_fields Samples.runtime
              (Samples.suggestions_json_request Samples.crowded_json)
              Samples.world Samples.configured Samples.crowded_json Samples.crowded
              eq_refl eq_refl)
    as [res [l [Hrun [_ [Hs [Hl _]]]]]].
  - discriminate.
  - exists res, l. repeat split; assumption.
Defined.

(** The same analysis results served by a configured and by an
    unconfigured server. *)
Lemma suggestions_deterministic_and_local_witness :
  exists res1 res2 : Response,
    run (Chat.api_chat (rt := Samples.runtime)
           (Samples.suggestions_request Samples.crowded))
        Samples.world Samples.configured = Ok res1
    /\ run (Chat.api_chat (rt := Samples.runtime)
              (Samples.suggestions_request Samples.crowded))
           Samples.world Samples.unconfigured = Ok res2
    /\ Spec.suggestions_of res1 = Spec.suggestions_of res2.
Proof.
  destruct (suggestions_deterministic_and_local (rt := Samples.runtime)
              (Samples.suggestions_request Samples.crowded)
              (Samples.suggestions_request Samples.crowded)
              Samples.world Samples.world Samples.configured Samples.unconfigured
              eq_refl eq_refl eq_refl eq_refl eq_refl)
    as [res1 [res2 [H1 [H2 [_ [Hs _]]]]]].
  exists res1, res2. repeat split; assumption.
Defined.

(** An error with the code 'Unauthorized' and the name of a validation
    error is answered with 401. *)
Lemma errorHandler_status_mapping_witness :
  exists res,
    run (ErrorHandler.errorHandler Samples.unauthorized
           (Samples.get_request "/api/translation" "/languages"))
        Samples.world Samples.configured = Ok res
    /\ statusCode res = 401.
Proof.
  destruct (errorHandler_status_mapping Samples.unauthorized
              (Samples.get_request "/api/translation" "/languages")
              Samples.world Samples.configured)
    as [res [Hrun [H401 _]]].
  exists res. split; [exact Hrun | apply H401; reflexivity].
Defined.

(** One chat question: the state is kept and the one message array sent
    is the one built from the body. *)
Lemma chat_handlers_stateless_witness :
  final_state (Chat.api_chat (rt := Samples.runtime) Samples.chat_request)
              Samples.world Samples.configured = Samples.configured
  /\ Spec.messages_sent
       (trace (Chat.api_chat (rt := Samples.runtime) Samples.chat_request)
              Samples.world Samples.configured)
     = [Chat.buildMessages (rt := Samples.runtime) "Who is at the door?" Samples.crowded
          (Spec.from_option (Chat.conversationHistory (body Samples.chat_request)))].
Proof.
  split.
  - exact (proj1 (chat_handlers_stateless (rt := Samples.runtime)
                    Samples.chat_request Samples.chat_request
                    Samples.world Samples.world
                    Samples.configured Samples.configured)).
  - vm_compute. reflexivity.
Defined.

(** A base64 request answered with a successful analysis. *)
Lemma base64_analysis_has_null_imageUrl_witness :
  exists res,
    run (Vision.api_vision (rt := Samples.runtime) Samples.base64_request)
        Samples.world Samples.configured = Ok res
    /\ oget (jsonBody res) "success" = VBool true
    /\ oget (jsonBody res) "imageUrl" = VNull.
Proof.
  eexists. split; [vm_compute; reflexivity|]. split; [reflexivity|].
  refine (proj1 (@base64_analysis_has_null_imageUrl Samples.runtime
                   Samples.base64_request Samples.world Samples.configured _
                   eq_refl eq_refl eq_refl eq_refl _ _));
    [vm_compute; reflexivity | reflexivity].
Defined.

(** GET /languages on a server without a Translator client. *)
Lemma languages_first_handler_wins_witness :
  run (Translation.api_translation (Samples.get_request "/api/translation" "/languages"))
      Samples.world Samples.unconfigured
  = Ok (res_json Translation.languagesResponse).
Proof.
  exact (proj1 (proj1 languages_first_handler_wins
                  (Samples.get_request "/api/translation" "/languages")
                  Samples.world Samples.unconfigured eq_refl eq_refl)).
Defined.

(* ================================================================== *)
(** * Further properties: the global error handler *)
(* ================================================================== *)

Section ErrorHandlerMore.
Import ErrorHandler Spec Props.
Variable B : Type.

Lemma mkError_literal (st : Z) (msg : string) :
  In msg handler_messages -> In st handler_statuses -> literal_error (mkError st msg).
Proof. intros Hm Hs. split; assumption. Qed.

Ltac literal := apply mkError_literal; cbn; tauto.

Lemma specific_error_literal (err : JsError) (e : ErrorInfo) :
  literal_error e -> literal_error (specific_error err e).
Proof.
  intros He. unfold specific_error.
  repeat match goal with
         | |- literal_error (if ?c then _ else _) => destruct c
         end; try assumption; literal.
Qed.

Lemma azure_error_literal (err : JsError) (e : ErrorInfo) :
  literal_error e -> literal_error (azure_error err e).
Proof.
  intros He. unfold azure_error.
  repeat match goal with
         | |- literal_error (if ?c then _ else _) => destruct c
         end; try assumption; literal.
Qed.

Lemma network_error_literal (err : JsError) (e : ErrorInfo) :
  literal_error e -> literal_error (network_error err e).
Proof.
  intros He. unfold network_error.
  destruct (_ || _); [literal | assumption].
Qed.

Lemma classified_literal (err : JsError) : literal_error (classified err).
Proof.
  unfold classified.
  apply network_error_literal, azure_error_literal, specific_error_literal. literal.
Qed.

(** The whole answer of the handler. *)
Lemma errorHandler_response (err : JsError) (req : Request B) (o : Outside) (s : Server) :
  run (errorHandler err req) o s
  = Ok (res_status_json (error_status (classified err))
          (VObj
             ([("error", VStr (error_message (classified err)));
               ("status", VInt (error_status (classified err)));
               ("timestamp", VStr (clock o));
               ("path", VStr (baseUrl req ++ path req))]
              ++ (if env_is (NODE_ENV (process_env s)) "development"
                  then [("stack", stack err);
                        ("details",
                          or_else (error_details (classified err)) (VStr (message err)))]
                  else [])
              ++ (if truthy (id req) then [("requestId", id req)] else []))%list)).
Proof.
  cbv beta iota zeta delta
    [run errorHandler bind logger_error emit now getenv outside server ret fst snd].
  destruct (env_is (NODE_ENV (process_env s)) "development");
    destruct (truthy (id req)); reflexivity.
Qed.

(** X1: the global error handler sets the properties stack and details
    of its answer exactly when NODE_ENV is 'development'. Elsewhere the
    answer has the properties error, status, timestamp and path (and
    requestId when the request has an id) and nothing else. In both
    cases its error text is one of the sixteen fixed messages of the
    handler; it is never taken from the error. *)
Theorem errorHandler_exposes_details_only_in_development
    (err : JsError) (req : Request B) (o : Outside) (s : Server) :
  exists res,
    run (errorHandler err req) o s = Ok res
    /\ has_key "stack" (jsonBody res) = env_is (NODE_ENV (process_env s)) "development"
    /\ has_key "details" (jsonBody res) = env_is (NODE_ENV (process_env s)) "development"
    /\ (exists msg, oget (jsonBody res) "error" = VStr msg /\ In msg handler_messages)
    /\ (env_is (NODE_ENV (process_env s)) "development" = false ->
        keys (jsonBody res)
        = (["error"; "status"; "timestamp"; "path"]
           ++ (if truthy (id req) then ["requestId"] else []))%list).
Proof.
  eexists. split; [apply errorHandler_response|].
  cbn [jsonBody res_status_json].
  assert (Hmsg : exists msg,
            VStr (error_message (classified err)) = VStr msg /\ In msg handler_messages)
    by (eexists; split; [reflexivity | apply (proj1 (classified_literal err))]).
  destruct (env_is (NODE_ENV (process_env s)) "development");
    destruct (truthy (id req));
    (split; [reflexivity|]); (split; [reflexivity|]);
    (split; [exact Hmsg|]); intros H; try discriminate H; reflexivity.
Qed.

(** X2: whatever the error, the global error handler answers with one of
    the statuses 400, 401, 403, 404, 409, 413, 429, 500 and 503, and the
    status field of the body is the HTTP status of the answer. *)
Theorem errorHandler_status_is_consistent
    (err : JsError) (req : Request B) (o : Outside) (s : Server) :
  exists res,
    run (errorHandler err req) o s = Ok res
    /\ In (statusCode res) handler_statuses
    /\ oget (jsonBody res) "status" = VInt (statusCode res).
Proof.
  eexists. split; [apply errorHandler_response|].
  cbn [jsonBody statusCode res_status_json]. split.
  - apply (proj2 (classified_literal err)).
  - reflexivity.
Qed.

End ErrorHandlerMore.

(* ================================================================== *)
(** * Further properties: the image analysis validator *)
(* ================================================================== *)

Section ValidatorMore.
Import Joi Validation Spec Props.

Lemma filter_nil_Forall {A : Type} (p : A -> bool) (l : list A) :
  filter p l = [] <-> Forall (fun x => p x = false) l.
Proof.
  induction l as [|a l IH]; cbn [filter].
  - split; [constructor | reflexivity].
  - destruct (p a) eqn:Hp; split; intros H.
    + discriminate H.
    + inversion H; subst. congruence.
    + constructor; [assumption | now apply IH].
    + inversion H; subst. now apply IH.
Qed.

Lemma features_rule_spec (s : string) :
  features_rule s = true <-> names_valid_features s.
Proof.
  unfold features_rule, names_valid_features.
  set (bad := filter _ _).
  assert (Hbad : bad = [] <-> Forall (fun f => In (JsString.trim f) validFeatures)
                                  (JsString.split "," s)).
  { unfold bad. rewrite filter_nil_Forall, Forall_map, !Forall_forall.
    split; intros H f Hf; specialize (H f Hf); cbv beta in *.
    - apply negb_false_iff in H. now apply mem_In.
    - apply negb_false_iff. now apply mem_In. }
  rewrite <- Hbad. destruct bad as [|b bad'].
  - split; reflexivity.
  - split; [|discriminate].
    cbn [List.length]. intros H. apply negb_true_iff, Z.ltb_ge in H. lia.
Qed.

Lemma check_unknown_spec (known present : list string) :
  check_unknown known present = None <-> incl present known.
Proof.
  induction present as [|k rest IH]; cbn [check_unknown].
  - split; [intros _ x [] | reflexivity].
  - destruct (JsString.mem k known) eqn:Hk.
    + rewrite IH. apply mem_In in Hk. split.
      * intros H x [<- | Hx]; [assumption | now apply H].
      * intros H x Hx. apply H. now right.
    + split; [discriminate|]. intros H.
      assert (Hin : In k known) by (apply H; now left).
      apply mem_In in Hin. congruence.
Qed.

(** What the middleware does, by the outcome of the schema. *)
Lemma validateImage_refuses (req : Request value) (o : Outside) (s : Server) (d : Detail) :
  validate imageAnalysisSchema (body req) = Some d ->
  exists st, run (validateImageAnalysisRequest req) o s = Ok st /\ validation_failed st.
Proof.
  intros Hd. unfold run, validateImageAnalysisRequest. rewrite Hd.
  eexists. split; [reflexivity|]. eexists. repeat split.
Qed.

(** X3: for a request without a file whose body has only a features
    string (no language, no genderNeutralCaption, no other key), the
    image analysis validator calls next() exactly when the string is not
    empty and each of its comma-separated entries, once trimmed, is one
    of Caption, DenseCaptions, Objects, People, Read, SmartCrops, Tags;
    otherwise it answers 400 'Validation failed'. *)
Theorem features_validated_entrywise
    (req : Request value) (o : Outside) (st : Server) (s : string) :
  file req = None ->
  oget (body req) "features" = VStr s ->
  oget (body req) "language" = VUndef ->
  oget (body req) "genderNeutralCaption" = VUndef ->
  incl (keys (body req)) analysis_keys ->
  (s <> EmptyString /\ names_valid_features s ->
     run (validateImageAnalysisRequest req) o st = Ok (Next req))
  /\ (~ (s <> EmptyString /\ names_valid_features s) ->
      exists step,
        run (validateImageAnalysisRequest req) o st = Ok step /\ validation_failed step).
Proof.
  intros Hfile Hf Hl Hg Hkeys.
  assert (Hunknown : check_unknown (map fst imageAnalysisSchema) (keys (body req)) = None)
    by (apply check_unknown_spec; exact Hkeys).
  assert (Hval : validate imageAnalysisSchema (body req)
                 = match check_string
                           {| required := false; min := None; max := None; valid := None;
                              custom := Some features_rule |} s with
                   | Some c => Some {| detail_code := c; detail_key := "features" |}
                   | None => None
                   end).
  { assert (Hobj : exists fs, body req = VObj fs).
    { destruct (body req); try discriminate Hf. eauto. }
    destruct Hobj as [fs Hobj]. unfold validate. rewrite Hobj at 1. cbv iota.
    unfold imageAnalysisSchema. cbn [check_keys]. rewrite Hf, Hl, Hg.
    cbn [check]. destruct (check_string _ s); [reflexivity|].
    cbn [required]. exact Hunknown. }
  unfold check_string in Hval. cbn [valid min max custom] in Hval.
  split.
  - intros [Hne Hvalid]. apply features_rule_spec in Hvalid.
    destruct s as [|a s']; [now exfalso|]. cbn [JsString.truthy negb] in Hval.
    rewrite Hvalid in Hval.
    unfold run, validateImageAnalysisRequest. rewrite Hval, Hfile. reflexivity.
  - intros Hnot.
    destruct s as [|a s'].
    + cbn [JsString.truthy negb] in Hval. eapply validateImage_refuses. exact Hval.
    + cbn [JsString.truthy negb] in Hval.
      destruct (features_rule (String a s')) eqn:Hrule.
      * exfalso. apply Hnot. split; [discriminate | now apply features_rule_spec].
      * eapply validateImage_refuses. exact Hval.
Qed.

(** X4: the image analysis validator refuses every body that has a key
    other than features, language and genderNeutralCaption with 400
    'Validation failed'; the image key of a base64 request is such a
    key. *)
Theorem analysis_validator_refuses_unknown_keys
    (req : Request value) (o : Outside) (s : Server) (k : string) :
  In k (keys (body req)) ->
  ~ In k analysis_keys ->
  exists step,
    run (validateImageAnalysisRequest req) o s = Ok step /\ validation_failed step.
Proof.
  intros Hin Hnot.
  destruct (validate imageAnalysisSchema (body req)) as [d|] eqn:Hval;
    [eapply validateImage_refuses; exact Hval|].
  exfalso. unfold validate in Hval. revert Hin Hval.
  destruct (body req); try discriminate; intros Hin Hval; [contradiction Hin|].
  destruct (check_keys imageAnalysisSchema _); [discriminate|].
  apply check_unknown_spec in Hval. apply Hnot. apply (Hval k Hin).
Qed.

(** X5: when the body passes the schema and the request has a file, the
    image analysis validator calls next() exactly when the file is at
    most 10MB (10485760 bytes) and its type is one of image/jpeg,
    image/png, image/gif, image/bmp and image/webp; a larger file is
    answered 400 'File too large', whatever its type, and another type
    400 'Invalid file type'. *)
Theorem analysis_validator_checks_file
    (req : Request value) (o : Outside) (s : Server) (f : UploadedFile) :
  validate imageAnalysisSchema (body req) = None ->
  file req = Some f ->
  (size f <= 10485760 /\ In (mimetype f) allowedTypes ->
     run (validateImageAnalysisRequest req) o s = Ok (Next req))
  /\ (10485760 < size f ->
      exists res,
        run (validateImageAnalysisRequest req) o s = Ok (Responded res)
        /\ statusCode res = 400 /\ oget (jsonBody res) "error" = VStr "File too large")
  /\ (size f <= 10485760 -> ~ In (mimetype f) allowedTypes ->
      exists res,
        run (validateImageAnalysisRequest req) o s = Ok (Responded res)
        /\ statusCode res = 400 /\ oget (jsonBody res) "error" = VStr "Invalid file type").
Proof.
  intros Hval Hfile. unfold run, validateImageAnalysisRequest. rewrite Hval, Hfile.
  cbv zeta. change (10 * 1024 * 1024) with 10485760.
  split; [|split].
  - intros [Hsize Htype]. apply Z.ltb_ge in Hsize. rewrite Hsize.
    apply mem_In in Htype. rewrite Htype. reflexivity.
  - intros Hsize. apply Z.ltb_lt in Hsize. rewrite Hsize.
    eexists. repeat split.
  - intros Hsize Htype. apply Z.ltb_ge in Hsize. rewrite Hsize.
    destruct (JsString.mem (mimetype f) allowedTypes) eqn:Hm.
    + apply mem_In in Hm. contradiction.
    + eexists. repeat split.
Qed.

End ValidatorMore.

(* ================================================================== *)
(** * Further properties: traces *)
(* ================================================================== *)

Section TraceFacts.
Import Spec Props.

Lemma trace_bind {A C : Type} (m : M A) (k : A -> M C) (o : Outside) (s : Server) :
  trace (bind m k) o s
  = (trace m o s
     ++ match run m o s with
        | Ok a => trace (k a) o (final_state m o s)
        | Throw _ => []
        end)%list.
Proof.
  unfold trace, run, final_state, bind.
  destruct (m o s) as [[[a|e] s1] t1]; cbn [fst snd].
  - destruct (k a o s1) as [[r s2] t2]. reflexivity.
  - now rewrite app_nil_r.
Qed.

Lemma trace_try_catch {A : Type} (m : M A) (h : JsError -> M A) (o : Outside) (s : Server) :
  trace (try_catch m h) o s
  = (trace m o s
     ++ match run m o s with
        | Ok _ => []
        | Throw e => trace (h e) o (final_state m o s)
        end)%list.
Proof.
  unfold trace, run, final_state, try_catch.
  destruct (m o s) as [[[a|e] s1] t1]; cbn [fst snd].
  - now rewrite app_nil_r.
  - destruct (h e o s1) as [[r s2] t2]. reflexivity.
Qed.

Lemma service_calls_app (t1 t2 : list call) :
  service_calls (t1 ++ t2) = (service_calls t1 ++ service_calls t2)%list.
Proof. unfold service_calls. apply filter_app. Qed.

Lemma service_calls_logs (t : list call) :
  Forall log_line t -> service_calls t = [].
Proof.
  induction 1 as [|c t Hc Ht IH]; [reflexivity|].
  unfold service_calls in *. cbn [filter]. unfold log_line in Hc. rewrite Hc. exact IH.
Qed.

Lemma only_logs_calls {A : Type} (m : M A) (o : Outside) (s : Server) :
  only_logs m -> service_calls (trace m o s) = [].
Proof. intros H. apply service_calls_logs, H. Qed.

Lemma emits_log (level msg : string) : only_logs (emit (Logged level msg)).
Proof. apply emits_emit. reflexivity. Qed.

End TraceFacts.

Section CallFacts.
Import Spec Props.

Lemma service_calls_try_catch {A : Type} (m : M A) (h : JsError -> M A)
    (o : Outside) (s : Server) :
  (forall e, only_logs (h e)) ->
  service_calls (trace (try_catch m h) o s) = service_calls (trace m o s).
Proof.
  intros Hh. rewrite trace_try_catch, service_calls_app.
  destruct (run m o s) as [a|e]; [apply app_nil_r|].
  rewrite (only_logs_calls _ _ (Hh e)). apply app_nil_r.
Qed.

Lemma service_calls_bind_log {A : Type} (level msg : string) (k : unit -> M A)
    (o : Outside) (s : Server) :
  service_calls (trace (bind (emit (Logged level msg)) k) o s)
  = service_calls (trace (k tt) o s).
Proof.
  unfold trace, bind, emit. destruct (k tt o s) as [[r s2] t2]. reflexivity.
Qed.

Lemma service_calls_bind_clients {A : Type} (k : AzureClients -> M A)
    (o : Outside) (s : Server) :
  service_calls (trace (bind getAzureClients k) o s)
  = service_calls (trace (k (azureClients s)) o s).
Proof.
  cbv beta iota delta [trace bind getAzureClients server ret].
  destruct (k (azureClients s) o s) as [[r s2] t2]. reflexivity.
Qed.

Lemma service_calls_bind_getenv {A : Type} (var : ProcessEnv -> option string)
    (k : option string -> M A) (o : Outside) (s : Server) :
  service_calls (trace (bind (getenv var) k) o s)
  = service_calls (trace (k (var (process_env s))) o s).
Proof.
  cbv beta iota delta [trace bind getenv server ret].
  destruct (k (var (process_env s)) o s) as [[r s2] t2]. reflexivity.
Qed.

Lemma service_calls_bind_ret {A C : Type} (a : A) (k : A -> M C)
    (o : Outside) (s : Server) :
  service_calls (trace (bind (ret a) k) o s) = service_calls (trace (k a) o s).
Proof.
  cbv beta iota delta [trace bind ret]. destruct (k a o s) as [[r s2] t2]. reflexivity.
Qed.

Lemma service_calls_bind_await_first {A C : Type} (c : call)
    (f : Outside -> result JsError A) (k : A -> M C) (o : Outside) (s : Server) :
  is_log c = false ->
  exists rest, service_calls (trace (bind (await c f) k) o s) = c :: rest.
Proof.
  intros Hc. rewrite trace_bind, service_calls_app.
  assert (Hone : service_calls (trace (await c f) o s) = [c])
    by (unfold trace, await, service_calls; cbn [snd filter]; now rewrite Hc).
  rewrite Hone. eexists. reflexivity.
Qed.

Lemma service_calls_bind_await {A C : Type} (c : call) (f : Outside -> result JsError A)
    (k : A -> M C) (o : Outside) (s : Server) :
  is_log c = false ->
  (forall a, only_logs (k a)) ->
  service_calls (trace (bind (await c f) k) o s) = [c].
Proof.
  intros Hc Hk. rewrite trace_bind, service_calls_app.
  assert (Hone : service_calls (trace (await c f) o s) = [c])
    by (unfold trace, await, service_calls; cbn [snd filter]; now rewrite Hc).
  rewrite Hone. unfold run, final_state, await. cbn [fst snd].
  destruct (f o) as [a|e]; [|reflexivity].
  now rewrite (only_logs_calls _ _ (Hk a)).
Qed.

End CallFacts.

#[local] Hint Resolve emits_log : calls.

(** A handler that only writes log lines. *)
Ltac handler_logs :=
  unfold Props.only_logs; handler_unfold; repeat handler_step; auto with calls;
  try (apply emits_emit; reflexivity).

Section QuietFacts.
Import Spec Props.
Variable s : Server.

Lemma quiet_ret {A : Type} (a : A) : quiet_at s (ret a).
Proof. intros o. split; [reflexivity | constructor]. Qed.

Lemma quiet_throw {A : Type} (e : JsError) : quiet_at s (throw (A := A) e).
Proof. intros o. split; [reflexivity | constructor]. Qed.

Lemma quiet_log (level msg : string) : quiet_at s (emit (Logged level msg)).
Proof. intros o. split; [reflexivity | repeat constructor]. Qed.

Lemma quiet_outside : quiet_at s outside.
Proof. intros o. split; [reflexivity | constructor]. Qed.

Lemma quiet_lift {A : Type} (r : result string A) : quiet_at s (lift r).
Proof. intros o. destruct r; (split; [reflexivity | constructor]). Qed.

Lemma quiet_bind {A C : Type} (m : M A) (k : A -> M C) :
  quiet_at s m -> (forall a, quiet_at s (k a)) -> quiet_at s (bind m k).
Proof.
  intros Hm Hk o. destruct (Hm o) as [Hs Ht].
  unfold final_state, trace, bind in *.
  destruct (m o s) as [[[a|e] s1] t1]; cbn [fst snd] in *; subst s1.
  - destruct (Hk a o) as [Hs' Ht']. unfold final_state, trace in *.
    destruct (k a o s) as [[r s2] t2]. cbn [fst snd] in *.
    split; [assumption | apply Forall_app; now split].
  - now split.
Qed.

Lemma quiet_try_catch {A : Type} (m : M A) (h : JsError -> M A) :
  quiet_at s m -> (forall e, quiet_at s (h e)) -> quiet_at s (try_catch m h).
Proof.
  intros Hm Hh o. destruct (Hm o) as [Hs Ht].
  unfold final_state, trace, try_catch in *.
  destruct (m o s) as [[[a|e] s1] t1]; cbn [fst snd] in *; subst s1.
  - now split.
  - destruct (Hh e o) as [Hs' Ht']. unfold final_state, trace in *.
    destruct (h e o s) as [[r s2] t2]. cbn [fst snd] in *.
    split; [assumption | apply Forall_app; now split].
Qed.

(** Reading the state yields [s] itself. *)
Lemma quiet_server {C : Type} (k : Server -> M C) :
  quiet_at s (k s) -> quiet_at s (bind server k).
Proof.
  intros Hk o. destruct (Hk o) as [Hs Ht].
  unfold final_state, trace, bind, server in *.
  destruct (k s o s) as [[r s2] t2]. cbn [fst snd] in *. now split.
Qed.

Lemma quiet_clients {C : Type} (k : AzureClients -> M C) :
  quiet_at s (k (azureClients s)) -> quiet_at s (bind getAzureClients k).
Proof.
  intros Hk o. destruct (Hk o) as [Hs Ht].
  cbv beta iota delta [final_state trace bind getAzureClients server ret] in *.
  destruct (k (azureClients s) o s) as [[r s2] t2]. cbn [fst snd] in *. now split.
Qed.

Lemma quiet_getenv {C : Type} (var : ProcessEnv -> option string)
    (k : option string -> M C) :
  quiet_at s (k (var (process_env s))) -> quiet_at s (bind (getenv var) k).
Proof.
  intros Hk o. destruct (Hk o) as [Hs Ht].
  cbv beta iota delta [final_state trace bind getenv server ret] in *.
  destruct (k (var (process_env s)) o s) as [[r s2] t2]. cbn [fst snd] in *. now split.
Qed.

Lemma quiet_calls {A : Type} (m : M A) (o : Outside) :
  quiet_at s m -> service_calls (trace m o s) = [].
Proof. intros H. apply service_calls_logs, H. Qed.

End QuietFacts.

Create HintDb quiet.
#[local] Hint Resolve quiet_ret quiet_throw quiet_log quiet_outside quiet_lift : quiet.

Ltac quiet_step :=
  match goal with
  | |- Props.quiet_at _ (bind server _) => apply quiet_server
  | |- Props.quiet_at _ (bind getAzureClients _) => apply quiet_clients
  | |- Props.quiet_at _ (bind (getenv _) _) => apply quiet_getenv
  | |- Props.quiet_at _ (bind _ _) => apply quiet_bind; [|intros ?]
  | |- Props.quiet_at _ (try_catch _ _) => apply quiet_try_catch; [|intros ?]
  | |- Props.quiet_at _ (if ?c then _ else _) => destruct c eqn:?
  | |- Props.quiet_at _ (match ?x with _ => _ end) => destruct x eqn:?
  end.

Ltac handler_quiet :=
  unfold logger_info, logger_warn, logger_error, now, Express.respond;
  repeat quiet_step; auto with quiet.

(* ================================================================== *)
(** * Further properties: routes/translation.js *)
(* ================================================================== *)

Section ExpressMore.
Import Express Spec Props.
Variable B : Type.

Lemma respond_steady (h : Request B -> M Response) :
  (forall req, answers (h req)) -> steady (respond h).
Proof.
  intros Hh req. unfold respond. split.
  - apply answers_bind; [apply Hh | intros res; apply answers_ret].
  - apply returns_bind with (P := fun _ => True); [apply returns_trivial|].
    intros res _. now apply returns_ret.
Qed.

Lemma run_stack_steady (hs : list (Handler B)) (req : Request B) :
  Forall steady hs ->
  answers (run_stack hs req) /\ returns no_error_passed (run_stack hs req).
Proof.
  intros Hs. revert req. induction Hs as [|h hs Hh _ IH]; intros req; cbn [run_stack].
  - split; [apply answers_ret | now apply returns_ret].
  - destruct (Hh req) as [Ha Hr]. split.
    + apply answers_bind; [exact Ha|]. intros [res|req'|err];
        [apply answers_ret | apply IH | apply answers_ret].
    + apply returns_bind with (P := no_error_passed); [exact Hr|].
      intros [res|req'|err] Hst; [now apply returns_ret | apply IH | contradiction].
Qed.

Lemma dispatch_steady (routes : list (Route B)) (req : Request B) :
  Forall (fun r => Forall steady (route_stack r)) routes ->
  answers (dispatch routes req) /\ returns no_error_passed (dispatch routes req).
Proof.
  intros Hs. revert req. induction Hs as [|r routes Hr _ IH]; intros req; cbn [dispatch].
  - split; [apply answers_ret | now apply returns_ret].
  - destruct (matches r req); [|apply IH].
    destruct (run_stack_steady req Hr) as [Ha Hn]. split.
    + apply answers_bind; [exact Ha|]. intros [res|req'|err];
        [apply answers_ret | apply IH | apply answers_ret].
    + apply returns_bind with (P := no_error_passed); [exact Hn|].
      intros [res|req'|err] Hst; [now apply returns_ret | apply IH | contradiction].
Qed.

End ExpressMore.

Section TranslationMore.
Import Joi Validation Express Translation Spec Props.

Lemma check_valid_string (allowed : list string) (req' : bool) (v : value) :
  check (JString {| required := req'; min := None; max := None;
                    valid := Some allowed; custom := None |}) v = None
  <-> (v = VUndef /\ req' = false) \/ (exists c, v = VStr c /\ In c allowed).
Proof.
  destruct v as [| |b|q|x|items|fields]; cbn [check required].
  - destruct req'; split; try discriminate; auto.
    intros [[_ H] | [c [H _]]]; discriminate.
  - split; [discriminate|]. intros [[H _] | [c [H _]]]; discriminate.
  - split; [discriminate|]. intros [[H _] | [c [H _]]]; discriminate.
  - split; [discriminate|]. intros [[H _] | [c [H _]]]; discriminate.
  - unfold check_string. cbn [valid].
    destruct (JsString.mem x allowed) eqn:Hm.
    + apply mem_In in Hm. split; [|reflexivity]. intros _. right. now exists x.
    + split; [discriminate|]. intros [[H _] | [c [H Hin]]]; [discriminate|].
      inversion H; subst. apply mem_In in Hin. congruence.
  - split; [discriminate|]. intros [[H _] | [c [H _]]]; discriminate.
  - split; [discriminate|]. intros [[H _] | [c [H _]]]; discriminate.
Qed.

Lemma check_text (v : value) :
  check (JString {| required := true; min := Some 1; max := Some 10000;
                    valid := None; custom := None |}) v = None
  <-> exists t, v = VStr t /\ 1 <= strlen t <= 10000.
Proof.
  destruct v as [| |b|q|x|items|fields]; cbn [check required];
    try (split; [discriminate | intros [t [H _]]; discriminate]).
  unfold check_string. cbn [valid min max custom].
  destruct x as [|a x'].
  - cbn [JsString.truthy negb]. split; [discriminate|].
    intros [t [H Hl]]. inversion H; subst. unfold strlen in Hl. cbn in Hl. lia.
  - cbn [JsString.truthy negb].
    destruct (strlen (String a x') <? 1) eqn:H1.
    + split; [discriminate|]. intros [t [H Hl]]. inversion H; subst.
      apply Z.ltb_lt in H1. lia.
    + destruct (10000 <? strlen (String a x')) eqn:H2.
      * split; [discriminate|]. intros [t [H Hl]]. inversion H; subst.
        apply Z.ltb_lt in H2. lia.
      * split; [|reflexivity]. intros _. exists (String a x').
        apply Z.ltb_ge in H1, H2. split; [reflexivity | lia].
Qed.

Lemma translation_schema_spec (b : value) :
  validate translationSchema b = None
  <-> valid_translation_body b.
Proof.
  assert (Hobject :
    match check_keys translationSchema b with
    | Some d => Some d
    | None => check_unknown (map fst translationSchema) (keys b)
    end = None <-> valid_translation_body b);
    [|unfold validate; destruct b; try exact Hobject;
      (split; [discriminate | intros [[t [H _]] _]; discriminate H])].
  unfold translationSchema, valid_translation_body. cbn [check_keys map fst].
  rewrite <- check_text.
  pose proof (check_valid_string Validation.supportedLanguages true
                (oget b "targetLanguage")) as Ht.
  pose proof (check_valid_string ("auto" :: Validation.supportedLanguages) false
                (oget b "sourceLanguage")) as Hs.
  pose proof (check_unknown_spec ["text"; "targetLanguage"; "sourceLanguage"] (keys b)) as Hu.
  destruct (check _ (oget b "text")) as [c|].
  { split; [discriminate | intros [H _]; discriminate]. }
  destruct (check _ (oget b "targetLanguage")) as [c|].
  { split; [discriminate|]. intros [_ [H _]].
    assert (Some c = None) by (apply Ht; right; exact H). discriminate. }
  destruct (check _ (oget b "sourceLanguage")) as [c|].
  { split; [discriminate|]. intros [_ [_ [H _]]].
    assert (Some c = None) by (apply Hs; destruct H as [H | H]; [left; now split | now right]).
    discriminate. }
  rewrite Hu. split.
  - intros Hk. split; [reflexivity|]. split; [|split; [|exact Hk]].
    + destruct (proj1 Ht eq_refl) as [[_ H] | H]; [discriminate | exact H].
    + destruct (proj1 Hs eq_refl) as [[H _] | H]; [now left | now right].
  - intros [_ [_ [_ Hk]]]. exact Hk.
Qed.

(** X6: the translation validator calls next() exactly when the text of
    the body is a string of 1 to 10000 characters, its targetLanguage is
    one of the 16 supported codes, its sourceLanguage is absent, 'auto'
    or a supported code, and the body has no other key; every other body
    is answered 400 'Validation failed'. *)
Theorem translation_validator_accepts (req : Request value) (o : Outside) (s : Server) :
  (run (validateTranslationRequest req) o s = Ok (Next req)
   <-> valid_translation_body (body req))
  /\ exists step,
       run (validateTranslationRequest req) o s = Ok step
       /\ (step = Next req \/ validation_failed step).
Proof.
  pose proof (translation_schema_spec (body req)) as Hspec.
  unfold run, validateTranslationRequest.
  destruct (validate translationSchema (body req)) as [d|].
  - split.
    + split; [discriminate|]. intros H. apply Hspec in H. discriminate H.
    + eexists. split; [reflexivity|]. right. eexists. repeat split.
  - split.
    + split; [intros _; now apply Hspec | reflexivity].
    + eexists. split; [reflexivity|]. now left.
Qed.

Lemma errorHandler_quiet {B : Type} (err : JsError) (req : Request B) (s : Server) :
  quiet_at s (ErrorHandler.errorHandler err req).
Proof. unfold ErrorHandler.errorHandler. handler_quiet. Qed.

(** A valid POST /translate reaches the handler. *)
Lemma api_translation_translate (req : Request value) (o : Outside) (s : Server) :
  method req = "POST" -> path req = "/translate" ->
  validate translationSchema (body req) = None ->
  run (api_translation req) o s = run (translate req) o s
  /\ trace (api_translation req) o s = trace (translate req) o s
  /\ final_state (api_translation req) o s = final_state (translate req) o s.
Proof.
  intros Hm Hp Hv.
  unfold run, trace, final_state, api_translation, serve, router.
  cbn [run_stack dispatch]. unfold matches. cbn [route_method route_path route_stack].
  rewrite Hm, Hp. cbn [String.eqb Ascii.eqb Bool.eqb andb]. cbn [run_stack].
  unfold validateTranslationRequest. rewrite Hv.
  unfold respond, bind, ret.
  destruct (translate req o s) as [[[res|e] s1] t1]; cbn [fst snd];
    rewrite ?app_nil_r; repeat split; reflexivity.
Qed.

Lemma translation_handlers_steady :
  Forall (fun r => Forall (steady (B := value)) (route_stack r)) router.
Proof.
  assert (Hsteady : forall h : Request value -> M Response,
            In h [translate; detect; languages_static; batch; languages_service] ->
            steady (respond h)).
  { intros h Hin. apply respond_steady. intros req. cbn [In] in Hin.
    repeat (destruct Hin as [<- | Hin]); try contradiction;
      unfold translate, detect, languages_static, batch, languages_service;
      handler_total. }
  unfold router.
  repeat (apply Forall_cons; cbn [route_stack]);
    repeat (apply Forall_cons); try apply Forall_nil;
    try (apply Hsteady; cbn [In]; tauto).
  intros req. unfold validateTranslationRequest. split.
  - handler_total.
  - destruct (validate _ _).
    + apply returns_bind with (P := fun _ => True); [apply returns_trivial|].
      intros _ _. now apply returns_ret.
    + now apply returns_ret.
Qed.

(** X7: no route of the translation router throws or passes an error to
    next(): whatever the request, the state and the answers of the
    Translator service, the router yields a response or passes the
    request on, so a failure in a translation route is always answered by
    the route's own catch block and never by the global error handler;
    the server state is left as it was. *)
Theorem translation_errors_stay_local (req : Request value) (o : Outside) (s : Server) :
  exists st,
    run (dispatch router req) o s = Ok st
    /\ no_error_passed st
    /\ final_state (dispatch router req) o s = s.
Proof.
  destruct (dispatch_steady req translation_handlers_steady) as [Ha Hn].
  destruct (Ha o s) as [st Hst]. exists st.
  split; [exact Hst|]. split; [exact (Hn o s st Hst)|].
  revert o s st Hst. 
  assert (Hp : preserves (dispatch router req)).
  { unfold router. cbn [dispatch route_stack run_stack].
    unfold validateTranslationRequest, translate, detect, languages_static, batch,
      languages_service.
    handler_frame. }
  intros o s st _. apply Hp.
Qed.

Lemma translate_trace (req : Request value) (o : Outside) (s : Server) :
  truthy (oget (body req) "text") = true ->
  truthy (oget (body req) "targetLanguage") = true ->
  translator (azureClients s) = true ->
  service_calls (trace (translate req) o s)
  = [TranslatorTranslate (oget (body req) "text") (oget (body req) "targetLanguage")
       (if truthy (oget (body req) "sourceLanguage")
           && negb (strict_eq_str (oget (body req) "sourceLanguage") "auto")
        then Some (oget (body req) "sourceLanguage") else None)].
Proof.
  intros Ht Hg Hc. unfold translate. cbv zeta. rewrite Ht, Hg. cbn [negb orb].
  set (from := if _ && _ then _ else _).
  rewrite service_calls_try_catch by (intros e; handler_logs).
  rewrite service_calls_bind_clients, Hc. cbn [negb]. unfold logger_info at 1.
  rewrite service_calls_bind_log.
  apply service_calls_bind_await; [reflexivity|]. intros result. handler_logs.
Qed.

Lemma supported_language_truthy (c : string) :
  In c ("auto" :: Validation.supportedLanguages) -> JsString.truthy c = true.
Proof.
  intros Hin. cbn [In Validation.supportedLanguages] in Hin.
  repeat (destruct Hin as [<- | Hin]; [reflexivity|]). contradiction.
Qed.

(** X8: a POST /translate whose body passes the validator, served with
    a Translator client, makes exactly one service call, the translation
    of the text of the body to its targetLanguage; the source language is
    left out of the call (so that the service detects it) when the body
    has no sourceLanguage or has 'auto', and is the sourceLanguage of the
    body otherwise. *)
Theorem valid_translation_calls_service_once
    (req : Request value) (o : Outside) (s : Server) :
  method req = "POST" ->
  path req = "/translate" ->
  valid_translation_body (body req) ->
  translator (azureClients s) = true ->
  exists from,
    service_calls (trace (api_translation req) o s)
    = [TranslatorTranslate (oget (body req) "text") (oget (body req) "targetLanguage") from]
    /\ (oget (body req) "sourceLanguage" = VUndef
        \/ oget (body req) "sourceLanguage" = VStr "auto" -> from = None)
    /\ (forall c, oget (body req) "sourceLanguage" = VStr c -> c <> "auto" ->
        from = Some (VStr c)).
Proof.
  intros Hm Hp Hvalid Hc.
  pose proof (proj2 (translation_schema_spec (body req)) Hvalid) as Hv.
  destruct (api_translation_translate req o s Hm Hp Hv) as [_ [Htrace _]].
  destruct Hvalid as [[t [Ht Hlen]] [[c [Hg Hin]] [Hsrc _]]].
  rewrite Htrace, translate_trace; [| | |exact Hc].
  - eexists. split; [reflexivity|]. split.
    + intros [H | H]; rewrite H; reflexivity.
    + intros c' Hc' Hne. rewrite Hc'. cbn [truthy strict_eq_str].
      destruct Hsrc as [Hu | [c'' [Hs Hin']]]; [congruence|].
      assert (c'' = c') by congruence. subst c''.
      rewrite (supported_language_truthy Hin').
      destruct (String.eqb c' "auto") eqn:He; [|reflexivity].
      apply String.eqb_eq in He. contradiction.
  - rewrite Ht. apply strlen_truthy. lia.
  - rewrite Hg. cbn [truthy]. apply supported_language_truthy. now right.
Qed.

Lemma api_translation_quiet (req : Request value) (s : Server) :
  translator (azureClients s) = false -> quiet_at s (api_translation req).
Proof.
  intros Hc.
  unfold api_translation, serve, router. cbn [run_stack dispatch route_stack].
  unfold validateTranslationRequest, translate, detect, languages_static, batch,
    languages_service.
  handler_quiet; try apply errorHandler_quiet;
    match goal with
    | H : negb (translator (azureClients s)) = false |- _ =>
        rewrite Hc in H; discriminate H
    end.
Qed.

(** X9: on a server without a Translator client no request to the
    translation router reaches any outside service, whatever its method,
    path and body, and the server state is left as it was. *)
Theorem translation_needs_client (req : Request value) (o : Outside) (s : Server) :
  translator (azureClients s) = false ->
  service_calls (trace (api_translation req) o s) = []
  /\ final_state (api_translation req) o s = s.
Proof.
  intros Hc. pose proof (api_translation_quiet req s Hc) as Hq.
  split; [apply quiet_calls; exact Hq | apply Hq].
Qed.

Lemma assoc_None (c : string) (table : list (string * string)) :
  ~ In c (map fst table) -> JsString.assoc c table = None.
Proof.
  induction table as [|[k v] rest IH]; cbn [JsString.assoc map fst In]; [reflexivity|].
  intros Hn. destruct (String.eqb c k) eqn:He.
  - apply String.eqb_eq in He. exfalso. apply Hn. now left.
  - apply IH. intros H. apply Hn. now right.
Qed.

(** X10: getLanguageName knows exactly the 16 codes that the translation
    validator accepts: for each of them it yields a non-empty name, the
    one that GET /languages lists for the code; any other string (that is
    not a property name inherited from Object.prototype) is returned
    unchanged. *)
Theorem getLanguageName_agrees_with_tables (c : string) :
  (In c Validation.supportedLanguages ->
     exists n, getLanguageName (VStr c) = VStr n
               /\ n <> EmptyString
               /\ oget (oget languagesResponse "supportedLanguages") c = VStr n)
  /\ (~ In c Validation.supportedLanguages -> ~ In c inherited_names ->
      getLanguageName (VStr c) = VStr c).
Proof.
  split.
  - intros Hin. cbn [In Validation.supportedLanguages] in Hin.
    repeat (destruct Hin as [<- | Hin];
            [eexists; split; [reflexivity|]; split; [discriminate | reflexivity]|]).
    contradiction.
  - intros Hn _. unfold getLanguageName. now rewrite assoc_None.
Qed.

(** X11: POST /detect never returns a detection. A request without a
    text is answered 400 and a request on a server without a Translator
    client 503; every other request is answered 500 'Detection failed',
    because the handler calls translator.translate, a method that the
    REST client created in config/azure.js does not have. No request
    reaches the Translator service, and the server state is left as it
    was. *)
Theorem detect_never_detects (req : Request value) (o : Outside) (s : Server) :
  exists res,
    run (detect req) o s = Ok res
    /\ statusCode res
       = (if negb (truthy (oget (body req) "text")) then 400
          else if negb (translator (azureClients s)) then 503 else 500)
    /\ (statusCode res = 500 ->
        oget (jsonBody res) "error" = VStr "Detection failed"
        /\ (env_is (NODE_ENV (process_env s)) "development" = true ->
            oget (jsonBody res) "details"
            = VStr "translator.translate is not a function"))
    /\ oget (jsonBody res) "detectedLanguage" = VUndef
    /\ service_calls (trace (detect req) o s) = []
    /\ final_state (detect req) o s = s.
Proof.
  unfold detect, translator_translate.
  cbv beta iota zeta delta [run trace final_state try_catch bind getAzureClients getenv
                              server ret logger_info logger_error emit throw fst snd].
  destruct (negb (truthy (oget (body req) "text")));
    [eexists; split; [reflexivity|]; split; [reflexivity|];
     split; [intros H; discriminate H | repeat split]|].
  destruct (negb (translator (azureClients s)));
    [eexists; split; [reflexivity|]; split; [reflexivity|];
     split; [intros H; discriminate H | repeat split]|].
  eexists. split; [reflexivity|]. split; [reflexivity|].
  split; [|repeat split].
  intros _. split; [reflexivity|]. intros Hdev. cbn [jsonBody res_status_json fst snd].
  rewrite Hdev. reflexivity.
Qed.

Lemma omap_array (v : value) (f : value -> result string value) (a : value) :
  omap v f = Ok a -> exists l, or_else a (VArr []) = VArr l.
Proof.
  destruct v; cbn [omap]; intros H; try discriminate;
    try (inversion H; subst; now exists []).
  destruct (mapM f items) as [items'|]; [|discriminate].
  inversion H; subst. now exists items'.
Qed.

Lemma or_else_truthy (a b : value) : truthy b = true -> truthy (or_else a b) = true.
Proof. intros Hb. unfold or_else. now destruct (truthy a) eqn:Ha. Qed.

(** X12: a 200 answer of POST /translate always carries a translation.
    Whatever the Translator service returned, the answer repeats the
    text and the targetLanguage of the request, its translatedText and
    its sourceLanguage are never empty, null or undefined (they fall back
    to 'Translation not available' and 'unknown'), and its alternatives
    are an array. *)
Theorem translate_answer_is_complete
    (req : Request value) (o : Outside) (s : Server) (res : Response) :
  run (translate req) o s = Ok res ->
  statusCode res = 200 ->
  oget (jsonBody res) "success" = VBool true
  /\ oget (jsonBody res) "originalText" = oget (body req) "text"
  /\ oget (jsonBody res) "targetLanguage" = oget (body req) "targetLanguage"
  /\ truthy (oget (jsonBody res) "translatedText") = true
  /\ truthy (oget (jsonBody res) "sourceLanguage") = true
  /\ exists l, oget (jsonBody res) "alternatives" = VArr l.
Proof.
  unfold translate. cbv zeta.
  set (from := if _ && _ then _ else _).
  cbv beta iota delta [run try_catch bind getAzureClients getenv server ret logger_info
                         logger_error emit await now outside lift throw fst snd].
  destruct (negb (truthy (oget (body req) "text")) || _);
    [cbn; intros H; inversion H; subst; discriminate|].
  destruct (negb (translator (azureClients s)));
    [cbn; intros H; inversion H; subst; discriminate|].
  destruct (translator_service o _ _ from) as [result|e];
    [|cbn; intros H; inversion H; subst; discriminate].
  destruct (negb (truthy (oget result "body")) || _);
    [cbn; intros H; inversion H; subst; discriminate|].
  destruct (get (ofirst (oget result "body")) "translations") as [translations|];
    [|cbn; intros H; inversion H; subst; discriminate].
  destruct (oslice1 translations) as [rest|];
    [|cbn; intros H; inversion H; subst; discriminate].
  destruct (omap rest _) as [alternatives|] eqn:Halt;
    [|cbn; intros H; inversion H; subst; discriminate].
  cbn. intros H _. inversion H; subst. cbn [jsonBody oget lookup String.eqb].
  apply omap_array in Halt.
  repeat match goal with |- _ /\ _ => split end; try reflexivity;
    try (now apply or_else_truthy).
  exact Halt.
Qed.

End TranslationMore.

(* ================================================================== *)
(** * Further properties: routes/chat.js *)
(* ================================================================== *)

Section ChatMore.
Import Express Chat Spec Props.
Context {rt : Runtime}.

Lemma forEach_from_push {A C : Type} (g : A -> C) (l : list A) (i : nat) (acc : list C) :
  forEach_from i l (fun a _ acc => push acc (g a)) acc = (acc ++ map g l)%list.
Proof.
  revert i acc. induction l as [|a l IH]; intros i acc; cbn [forEach_from map].
  - now rewrite app_nil_r.
  - rewrite IH. unfold push. now rewrite <- app_assoc.
Qed.

Lemma buildMessages_unfold (q : string) (r : AnalysisResults) (h : list ChatMessage) :
  exists prompt,
    buildMessages q r h
    = ({| role := "system"; content := prompt |} :: map history_message h
       ++ [{| role := "user"; content := q |}])%list.
Proof.
  unfold buildMessages. cbv zeta. unfold forEach. rewrite forEach_from_push.
  unfold push. eexists. reflexivity.
Qed.

(** X13: the messages sent for a chat question are the system prompt,
    one message per entry of the conversation history in order, and the
    question as the last message, with the role user. Each history entry
    is forwarded with its own content and with the role user or
    assistant, whatever role the client gave it, so exactly one message
    has the role system: the history cannot add or replace a system
    prompt. *)
Theorem chat_history_cannot_speak_as_system
    (q : string) (r : AnalysisResults) (h : list ChatMessage) :
  List.length (buildMessages q r h) = S (S (List.length h))
  /\ system_messages (buildMessages q r h) = 1%nat
  /\ (exists prompt, hd_error (buildMessages q r h)
                     = Some {| role := "system"; content := prompt |})
  /\ last (buildMessages q r h) {| role := EmptyString; content := EmptyString |}
     = {| role := "user"; content := q |}
  /\ forall i m, nth_error h i = Some m ->
       exists m', nth_error (buildMessages q r h) (S i) = Some m'
                  /\ content m' = msg_content m
                  /\ (role m' = "user" \/ role m' = "assistant")
                  /\ (msg_role m = "user" <-> role m' = "user").
Proof.
  destruct (buildMessages_unfold q r h) as [prompt ->].
  repeat match goal with |- _ /\ _ => split end.
  - cbn [List.length]. rewrite length_app, length_map. cbn [List.length]. lia.
  - unfold system_messages. cbn [filter role String.eqb Ascii.eqb Bool.eqb andb].
    cbn [List.length]. f_equal. rewrite filter_app. cbn [filter role].
    change (String.eqb "user" "system") with false. cbv iota. rewrite app_nil_r.
    induction h as [|m h IH]; [reflexivity|]. cbn [map filter].
    unfold history_message at 1. cbn [role].
    destruct (String.eqb (msg_role m) "user"); exact IH.
  - eexists. reflexivity.
  - rewrite app_comm_cons. apply last_last.
  - intros i m Hi. exists (history_message m). cbn [nth_error].
    split.
    + rewrite nth_error_app1 by (rewrite length_map; apply nth_error_Some; congruence).
      now rewrite nth_error_map, Hi.
    + unfold history_message. cbn [role content]. split; [reflexivity|].
      destruct (String.eqb (msg_role m) "user") eqn:He.
      * split; [now left|]. apply String.eqb_eq in He. tauto.
      * split; [now right|]. apply String.eqb_neq in He.
        split; [contradiction | discriminate].
Qed.

Lemma api_chat_quiet (req : Request ChatBody) (s : Server) :
  openai (azureClients s) = false -> quiet_at s (api_chat req).
Proof.
  intros Hc.
  unfold api_chat, serve, router. cbn [run_stack dispatch route_stack].
  unfold analyze, suggestions.
  handler_quiet; try apply errorHandler_quiet;
    match goal with
    | H : negb (openai (azureClients s)) = false |- _ =>
        rewrite Hc in H; discriminate H
    end.
Qed.

(** X14: on a server without an OpenAI client no request to the chat
    router reaches any outside service: POST /analyze is answered without
    a completion call, POST /suggestions never makes one, and the server
    state is left as it was. *)
Theorem chat_needs_client (req : Request ChatBody) (o : Outside) (s : Server) :
  openai (azureClients s) = false ->
  service_calls (trace (api_chat req) o s) = []
  /\ final_state (api_chat req) o s = s.
Proof.
  intros Hc. pose proof (api_chat_quiet req s Hc) as Hq.
  split; [apply quiet_calls; exact Hq | apply Hq].
Qed.

(** X15: POST /analyze of the chat router answers a failed completion
    call by the code of the error alone: 429 'Quota Exceeded' for
    insufficient_quota, 400 'Content Filtered' for content_filter, and
    500 'Internal Server Error' for every other error. The body has the
    two fields error and message only: no detail of the error is
    returned, in development or otherwise. *)
Theorem chat_failure_status
    (req : Request ChatBody) (o : Outside) (s : Server)
    (q : string) (r : AnalysisResults) (e : JsError) :
  question (body req) = Some q ->
  q <> EmptyString ->
  analysisResults (body req) = Some r ->
  openai (azureClients s) = true ->
  openai_service o (buildMessages q r (from_option (conversationHistory (body req))))
  = Throw e ->
  exists res,
    run (analyze req) o s = Ok res
    /\ keys (jsonBody res) = ["error"; "message"]
    /\ (code e = VStr "insufficient_quota" ->
        statusCode res = 429 /\ oget (jsonBody res) "error" = VStr "Quota Exceeded")
    /\ (code e = VStr "content_filter" ->
        statusCode res = 400 /\ oget (jsonBody res) "error" = VStr "Content Filtered")
    /\ (code e <> VStr "insufficient_quota" -> code e <> VStr "content_filter" ->
        statusCode res = 500
        /\ oget (jsonBody res) "error" = VStr "Internal Server Error").
Proof.
  intros Hq Hne Hr Hc Hfail.
  unfold analyze. cbv zeta. rewrite Hq, Hr.
  replace (negb (JsString.truthy q)) with false by (now destruct q).
  cbv beta iota delta [run try_catch bind getAzureClients server ret logger_info
                         logger_error emit await fst snd].
  rewrite Hc. cbn [negb]. unfold from_option in Hfail. rewrite Hfail.
  assert (Hcode : forall c, strict_eq_str (code e) c = true <-> code e = VStr c).
  { intros c. unfold strict_eq_str. destruct (code e); try (split; discriminate).
    rewrite String.eqb_eq. split; [now intros -> | now inversion 1]. }
  destruct (strict_eq_str (code e) "insufficient_quota") eqn:H1.
  { apply Hcode in H1. eexists. split; [reflexivity|]. split; [reflexivity|].
    split; [intros _; now split|]. split.
    - rewrite H1. discriminate.
    - intros Hn. contradiction. }
  destruct (strict_eq_str (code e) "content_filter") eqn:H2.
  { apply Hcode in H2. eexists. split; [reflexivity|]. split; [reflexivity|].
    split; [rewrite H2; discriminate|]. split.
    - intros _. now split.
    - intros _ Hn. contradiction. }
  eexists. split; [reflexivity|]. split; [reflexivity|].
  split; [intros H; apply Hcode in H; congruence|].
  split; [intros H; apply Hcode in H; congruence|].
  intros _ _. now split.
Qed.

(** X16: a 200 answer of POST /analyze of the chat router repeats the
    question of the request and carries a non-empty answer: a completion
    without choices content is answered 500, never 200. *)
Theorem chat_answer_is_complete
    (req : Request ChatBody) (o : Outside) (s : Server) (res : Response) :
  run (analyze req) o s = Ok res ->
  statusCode res = 200 ->
  (exists q, question (body req) = Some q /\ q <> EmptyString
             /\ oget (jsonBody res) "question" = VStr q)
  /\ truthy (oget (jsonBody res) "answer") = true.
Proof.
  unfold analyze. cbv zeta.
  destruct (question (body req)) as [q|];
    [|cbv; intros H; inversion H; subst; discriminate].
  destruct (analysisResults (body req)) as [r|];
    [|cbv; intros H; inversion H; subst; discriminate].
  set (messages := buildMessages _ _ _).
  cbv beta iota delta [run try_catch bind getAzureClients server ret logger_info
                         logger_error emit await now outside lift throw fst snd].
  destruct q as [|a q'];
    [cbn; intros H; inversion H; subst; discriminate|].
  cbn [JsString.truthy negb].
  destruct (negb (openai (azureClients s)));
    [cbn; intros H; inversion H; subst; discriminate|].
  destruct (openai_service o messages) as [response|e]; cbn [fst snd app].
  2:{ intros H Hs. exfalso. revert Hs. 
      destruct (strict_eq_str (code e) "insufficient_quota");
      [|destruct (strict_eq_str (code e) "content_filter")];
      cbn in H; inversion H; subst; discriminate. }
  destruct (get response "choices") as [choices|msg]; cbn [fst snd app].
  2:{ intros H Hs. exfalso. revert Hs. cbn [code TypeError strict_eq_str] in H.
      cbn in H; inversion H; subst; discriminate. }
  destruct (index0 choices) as [choice|msg]; cbn [fst snd app].
  2:{ intros H Hs. exfalso. revert Hs. cbn in H; inversion H; subst; discriminate. }
  destruct (truthy (oget (oget choice "message") "content")) eqn:Hanswer; cbn [negb].
  2:{ intros H Hs. exfalso. revert Hs. cbn in H; inversion H; subst; discriminate. }
  cbn. intros H _. inversion H; subst. cbn [jsonBody oget lookup String.eqb].
  split; [|exact Hanswer]. eexists. split; [reflexivity|]. split; [discriminate|reflexivity].
Qed.

(** X17: for analysis results of the enhanced path (enhanced set and an
    analysis present) the suggested questions are two per field that is
    set among the main description, the activities, the mood, the
    interesting details, the colors and the scene context, cut to six:
    unlike the standard path, which always suggests six questions, the
    enhanced path suggests none when none of these fields is set. *)
Theorem enhanced_suggestions_count (r : AnalysisResults) (a : Analysis) :
  isEnhanced r = Some a ->
  List.length (generateQuestionSuggestions r)
  = Nat.min 6 (2 * enhanced_fields_set r a)
  /\ (enhanced_fields_set r a = 0%nat -> generateQuestionSuggestions r = []).
Proof.
  intros He. unfold generateQuestionSuggestions. rewrite He.
  unfold generateEnhancedSuggestions, enhanced_fields_set. cbv zeta.
  destruct (truthy_string (mainDescription a));
    destruct (non_empty (activities r));
    destruct (truthy_string (moodAtmosphere r));
    destruct (non_empty (interestingDetails r));
    destruct (truthy_string (colorsComposition r));
    destruct (truthy_string (sceneContext r));
    (split; [reflexivity | try discriminate; reflexivity]).
Qed.

End ChatMore.

(* ================================================================== *)
(** * Further properties: routes/vision.js *)
(* ================================================================== *)

Section VisionMore.
Import Express Vision Spec Props.
Context {rt : Runtime}.

Lemma omap_is_array (v : value) (f : value -> result string value) (a : value) :
  omap v f = Ok a -> conforms (SArr SAny) (or_else a (VArr [])) = true.
Proof.
  intros H. destruct (omap_array _ _ H) as [l ->]. cbn [conforms].
  induction l as [|x l IH]; [reflexivity | exact IH].
Qed.

Lemma values_map_is_array (part : value) (f : value -> result string value) (a : value) :
  values_map part f = Ok a -> conforms (SArr SAny) (or_else a (VArr [])) = true.
Proof.
  unfold values_map. destruct part; try discriminate; apply omap_is_array.
Qed.

Lemma or_else_null (a : value) : null_or_truthy (or_else a VNull).
Proof.
  unfold or_else, null_or_truthy. destruct (truthy a) eqn:Ha; [now right | now left].
Qed.

Lemma read_text_null_or_truthy (result v : value) :
  read_text result = Ok v -> null_or_truthy v.
Proof.
  unfold read_text.
  destruct (oget (oget result "readResult") "blocks"); try discriminate;
    try (intros H; inversion H; now left).
  unfold rbind. destruct (mapM _ items); [|discriminate].
  destruct (join_strict _ nl); [|discriminate].
  intros H. inversion H. apply or_else_null.
Qed.

(** X18: every answer that the classic analysis builds from a result of
    the Vision service has the same layout, whatever the service left
    out: success, timestamp, imageUrl and analysis, where denseCaptions,
    objects, people, tags and smartCrops are arrays (empty when the
    result has no such part), and caption, confidence and text are null
    or a non-empty value, never undefined or an empty string. *)
Theorem classic_answer_layout (timestamp : string) (imageUrl result v : value) :
  analysisResponse timestamp imageUrl result = Ok v ->
  keys v = ["success"; "timestamp"; "imageUrl"; "analysis"]
  /\ keys (oget v "analysis")
     = ["caption"; "confidence"; "denseCaptions"; "objects"; "people"; "tags";
        "smartCrops"; "text"]
  /\ conforms classic_format v = true
  /\ null_or_truthy (oget (oget v "analysis") "caption")
  /\ null_or_truthy (oget (oget v "analysis") "confidence")
  /\ null_or_truthy (oget (oget v "analysis") "text").
Proof.
  unfold analysisResponse, rbind. cbv zeta.
  destruct (values_map (oget result "denseCaptionsResult") _)
    as [denseCaptions|] eqn:H1; [|discriminate].
  destruct (values_map (oget result "objectsResult") _)
    as [objects|] eqn:H2; [|discriminate].
  destruct (values_map (oget result "peopleResult") _)
    as [people|] eqn:H3; [|discriminate].
  destruct (values_map (oget result "tagsResult") _)
    as [tags|] eqn:H4; [|discriminate].
  destruct (values_map (oget result "smartCropsResult") _)
    as [smartCrops|] eqn:H5; [|discriminate].
  destruct (read_text result) as [text|] eqn:H6; [|discriminate].
  intros H. inversion H; subst. clear H.
  apply values_map_is_array in H1, H2, H3, H4, H5. apply read_text_null_or_truthy in H6.
  repeat match goal with |- _ /\ _ => split end; try reflexivity;
    try apply or_else_null; try exact H6.
  cbn [conforms classic_format has_key keys map fst JsString.mem existsb String.eqb
       Ascii.eqb Bool.eqb orb andb oget lookup].
  cbn [conforms] in H1, H2, H3, H4, H5.
  now rewrite H1, H2, H3, H4, H5.
Qed.

(** X19: POST /analyze decides by the environment alone whether it
    calls the Vision service: when VISION_ENDPOINT or VISION_API_KEY is
    not set, no POST /analyze request reaches any outside service
    (neither the Vision service nor blob storage), whether or not the
    clients were created, whether the image comes as a file or as
    base64, and the server state is left as it was. *)
Theorem vision_needs_configuration (req : Request value) (o : Outside) (s : Server) :
  method req = "POST" ->
  path req = "/analyze" ->
  env_truthy (VISION_ENDPOINT (process_env s)) && env_truthy (VISION_API_KEY (process_env s))
  = false ->
  service_calls (trace (api_vision req) o s) = []
  /\ final_state (api_vision req) o s = s.
Proof.
  intros _ _ Hc.
  assert (Hq : quiet_at s (api_vision req)).
  { unfold api_vision, serve, router, Upload.conditionalUpload, Upload.upload_single.
    cbn [run_stack dispatch route_stack].
    unfold analyze, read_input.
    handler_quiet; try apply errorHandler_quiet;
      match goal with
      | H : negb (env_truthy (VISION_ENDPOINT (process_env s)))
            || negb (env_truthy (VISION_API_KEY (process_env s))) = false |- _ =>
          apply orb_false_iff in H; destruct H as [H1 H2];
          apply negb_false_iff in H1, H2; rewrite H1, H2 in Hc; discriminate Hc
      end. }
  split; [apply quiet_calls; exact Hq | apply Hq].
Qed.

(** A request with an image and features that can be split passes the
    first step of POST /analyze. *)
Lemma read_input_image (req : Request value) (image : Buffer) (features : list string)
    (o : Outside) (s : Server) :
  image_of req = Some image ->
  requested_features (body req) = Ok features ->
  read_input req o s
  = (Ok (inl (image, features, or_else (oget (body req) "language") (VStr "en"))), s, []).
Proof.
  unfold image_of, read_input. intros Himage Hfeat.
  destruct (file req) as [f|].
  - inversion Himage; subst. rewrite Hfeat. reflexivity.
  - destruct (truthy (oget (body req) "image")); [|discriminate Himage].
    rewrite Himage, Hfeat. reflexivity.
Qed.

(** X20: a failure of the Vision service is answered with the status of
    the service's own error response when there is one, and with 500
    otherwise, whether the image came as a file or as base64; the error
    field is 'Analysis failed' in both cases, the details field is left
    out unless NODE_ENV is development, and nothing is uploaded to blob
    storage. *)
Theorem vision_failure_forwards_status
    (req : Request value) (o : Outside) (s : Server) (image : Buffer)
    (features : list string) (language : string) (e : JsError) :
  reaches_vision req s image features language ->
  vision_service o features language image = Throw e ->
  exists res,
    run (analyze req) o s = Ok res
    /\ statusCode res = match response e with Some (st, _) => st | None => 500 end
    /\ oget (jsonBody res) "error" = VStr "Analysis failed"
    /\ (env_is (NODE_ENV (process_env s)) "development" = false ->
        oget (jsonBody res) "details" = VUndef)
    /\ service_calls (trace (analyze req) o s)
       = [VisionAnalyze features language image].
Proof.
  intros [Himage [Hfeat [Hlang [[Hlo Hhi] [He1 He2]]]]] Hfail.
  unfold analyze.
  cbv beta iota zeta delta [run trace try_catch bind getAzureClients getenv server ret
                              logger_info logger_error logger_warn emit await now outside
                              lift throw fst snd].
  rewrite (read_input_image req o s Himage Hfeat).
  replace (byteLength image =? 0) with false by (symmetry; apply Z.eqb_neq; lia).
  replace (20 * 1024 * 1024 <? byteLength image) with false
    by (symmetry; apply Z.ltb_ge; lia).
  rewrite He1, He2. cbn [negb orb]. rewrite Hlang. cbv beta iota. rewrite Hfail.
  destruct (response e) as [[st data]|];
    (eexists; split; [reflexivity|]; split; [reflexivity|]; split; [reflexivity|];
     split; [intros Hd; cbn [fst snd jsonBody res_status_json];
             rewrite Hd; reflexivity | reflexivity]).
Qed.

(** X21: the upload to blob storage is optional. When the Vision
    service has answered, and the request carries no file (its image
    came as base64) or blob storage is out of reach (no client, or the
    upload fails), the analysis is still answered 200 with the same
    analysis and a null imageUrl. *)
Theorem analysis_survives_upload_failure
    (req : Request value) (o : Outside) (s : Server) (image : Buffer)
    (features : list string) (language : string) (result v : value) :
  reaches_vision req s image features language ->
  vision_service o features language image = Ok result ->
  nullish result = false ->
  analysisResponse (clock o) VNull result = Ok v ->
  file req = None \/ blob_storage_down o s ->
  run (analyze req) o s = Ok (res_json v)
  /\ oget v "success" = VBool true
  /\ oget v "imageUrl" = VNull.
Proof.
  intros [Himage [Hfeat [Hlang [[Hlo Hhi] [He1 He2]]]]] Hok Hnn Hv Hdown.
  split.
  - unfold analyze, Storage.uploadImageToBlob.
    cbv beta iota zeta delta [run trace try_catch bind getAzureClients getenv server ret
                                logger_info logger_error logger_warn emit await now outside
                                lift throw object_keys fst snd].
    rewrite (read_input_image req o s Himage Hfeat).
    replace (byteLength image =? 0) with false by (symmetry; apply Z.eqb_neq; lia).
    replace (20 * 1024 * 1024 <? byteLength image) with false
      by (symmetry; apply Z.ltb_ge; lia).
    rewrite He1, He2. cbn [negb orb]. rewrite Hlang. cbv beta iota.
    rewrite Hok. cbn [fst snd]. rewrite Hnn.
    destruct (file req) as [f|] eqn:Hfile.
    + destruct Hdown as [Hnone | Hdown]; [discriminate Hnone|].
      destruct (blobService (azureClients s)) eqn:Hb; cbn [negb].
      * destruct Hdown as [Hd | Hd]; [congruence|].
        match goal with
        | |- context [blob_service o ?c ?n ?b] =>
            destruct (Hd c n b) as [e' He']; rewrite He'
        end.
        cbn [fst snd]. rewrite Hv. reflexivity.
      * cbn [fst snd]. rewrite Hv. reflexivity.
    + cbn [fst snd]. rewrite Hv. reflexivity.
  - unfold analysisResponse, rbind in Hv.
    repeat match type of Hv with
           | context [match ?x with Ok _ => _ | Throw _ => _ end] => destruct x
           end; inversion Hv; split; reflexivity.
Qed.

Lemma errorHandler_not_too_large {B : Type} (err : JsError) (req : Request B) :
  returns not_too_large (ErrorHandler.errorHandler err req).
Proof.
  intros o s res Hres.
  destruct (errorHandler_returns err req o s) as [res' [Hrun [_ [Hmsg _]]]].
  assert (res' = res) by congruence. subst res'.
  unfold not_too_large. rewrite Hmsg.
  destruct (classified_literal err) as [Hin _].
  intros Heq. inversion Heq as [Hm]. rewrite Hm in Hin.
  cbn [In handler_messages] in Hin.
  repeat (destruct Hin as [Hin | Hin]; [discriminate Hin|]). contradiction.
Qed.

Lemma analysisResponse_no_error (timestamp : string) (imageUrl result v : value) :
  analysisResponse timestamp imageUrl result = Ok v -> oget v "error" = VUndef.
Proof.
  unfold analysisResponse, rbind.
  repeat match goal with
         | |- context [match ?x with Ok _ => _ | Throw _ => _ end] => destruct x
         end; intros H; inversion H; reflexivity.
Qed.

Ltac other_answer := apply returns_ret; unfold not_too_large; cbn; discriminate.

Ltac skip_bind :=
  apply returns_bind with (P := fun _ => True); [apply returns_trivial | intros ? _].

Lemma analyze_not_too_large (req : Request value) (f : UploadedFile) :
  file req = Some f ->
  byteLength (buffer f) <= 20 * 1024 * 1024 ->
  returns not_too_large (analyze req).
Proof.
  intros Hf Hsize. unfold analyze, read_input. rewrite Hf.
  apply returns_try_catch.
  - apply returns_bind
      with (P := fun input =>
                   match input with
                   | inl (imageBuffer, _, _) => imageBuffer = buffer f
                   | inr _ => False
                   end).
    { skip_bind. now apply returns_ret. }
    intros [[[imageBuffer features] language]|r] Hin; [subst imageBuffer | contradiction].
    handler_unfold. skip_bind.
    destruct (byteLength (buffer f) =? 0); [other_answer|].
    destruct (20 * 1024 * 1024 <? byteLength (buffer f)) eqn:Hbig;
      [apply Z.ltb_lt in Hbig; lia|].
    skip_bind. skip_bind.
    destruct (negb _ || negb _); [other_answer|].
    do 7 skip_bind.
    apply returns_bind with (P := fun v => oget v "error" = VUndef).
    { intros o s v Hr. unfold run, lift in Hr.
      match type of Hr with
      | context [analysisResponse ?t ?u ?res] =>
          destruct (analysisResponse t u res) as [v'|msg] eqn:Hresp
      end; cbn in Hr; [|discriminate].
      inversion Hr; subst. now apply analysisResponse_no_error in Hresp. }
    intros response Hnone. skip_bind.
    apply returns_ret. unfold not_too_large. cbn [jsonBody res_json]. rewrite Hnone.
    discriminate.
  - intros error. handler_unfold. skip_bind. skip_bind.
    destruct (response error) as [[st data]|]; [skip_bind|]; other_answer.
Qed.

(** X22: the 20MB check of POST /analyze never fires on an upload. The
    upload middleware lets a file through only up to 10MB, so a multipart
    POST /analyze whose file has the size of its buffer is never answered
    'Image too large': a file over 10MB is refused before the route
    runs, and answered 413 'File too large' by the error handler. *)
Theorem upload_never_too_large
    (req : Request value) (o : Outside) (s : Server) (f : UploadedFile) (res : Response) :
  method req = "POST" ->
  path req = "/analyze" ->
  JsString.includes
    (match content_type req with Some c => c | None => EmptyString end)
    "multipart/form-data" = true ->
  upload req = Some f ->
  size f = byteLength (buffer f) ->
  run (api_vision req) o s = Ok res ->
  oget (jsonBody res) "error" <> VStr "Image too large"
  /\ (Upload.fileSize < size f -> Upload.fileFilter f = true -> fieldname f = "image" ->
      statusCode res = 413 /\ oget (jsonBody res) "error" = VStr "File too large").
Proof.
  intros _ _ Hct Hu Hsize Hrun. split.
  - revert o s res Hrun. change (returns not_too_large (api_vision req)).
    unfold api_vision, serve. cbn [run_stack].
    unfold Upload.conditionalUpload, Upload.upload_single. rewrite Hct.
    cbn [upload with_body]. rewrite Hu.
    apply returns_bind
      with (P := fun st => match st with
                           | Responded r => not_too_large r
                           | _ => True
                           end).
    + apply returns_bind
        with (P := fun st => match st with
                             | Responded _ => False
                             | Next req' =>
                                 req' = with_file (with_body req (fields req)) f
                                 /\ size f <= 10 * 1024 * 1024
                             | NextError _ => True
                             end).
      * destruct (negb (String.eqb (fieldname f) "image")); [now apply returns_ret|].
        destruct (negb (Upload.fileFilter f)); [now apply returns_ret|].
        destruct (Upload.fileSize <=? size f) eqn:Hbig; [now apply returns_ret|].
        apply Z.leb_gt in Hbig. unfold Upload.fileSize in Hbig.
        apply returns_ret. split; [reflexivity | lia].
      * intros [r|req'|err] Hst; [contradiction | | now apply returns_ret].
        destruct Hst as [-> Hsmall].
        apply returns_bind
          with (P := fun st => match st with
                               | Responded r => not_too_large r
                               | _ => True
                               end).
        { unfold router. cbn [dispatch].
          destruct (matches _ _); [|now apply returns_ret].
          cbn [route_stack run_stack]. unfold respond.
          apply returns_bind
            with (P := fun st => match st with
                                 | Responded r => not_too_large r
                                 | _ => True
                                 end).
          - apply returns_bind
              with (P := fun st => match st with
                                   | Responded r => not_too_large r
                                   | _ => True
                                   end).
            + apply returns_bind with (P := not_too_large).
              * apply analyze_not_too_large with (f := f); [reflexivity | lia].
              * intros r Hr. now apply returns_ret.
            + intros [r|req'|err] Hst; now apply returns_ret.
          - intros [r|req'|err] Hst; now apply returns_ret. }
        intros [r|req'|err] Hst; now apply returns_ret.
    + intros [r|req'|err] Hst.
      * now apply returns_ret.
      * apply returns_ret. unfold not_too_large, notFound. cbn. discriminate.
      * apply errorHandler_not_too_large.
  - intros Hbig Hfilter Hname.
    destruct (errorHandler_returns
                (Upload.MulterError "LIMIT_FILE_SIZE" "File too large") req o s)
      as [res' [Hres [Hst [Hmsg _]]]].
    assert (Hsame : api_vision req o s
                    = ErrorHandler.errorHandler
                        (Upload.MulterError "LIMIT_FILE_SIZE" "File too large") req o s).
    { unfold api_vision, serve. cbn [run_stack].
      unfold Upload.conditionalUpload, Upload.upload_single.
      rewrite Hct. cbn [upload with_body]. rewrite Hu, Hname, Hfilter.
      change (String.eqb "image" "image") with true. cbn [negb].
      replace (Upload.fileSize <=? size f) with true
        by (symmetry; apply Z.leb_le; lia).
      unfold bind, ret. cbn [fst snd app].
      destruct (ErrorHandler.errorHandler _ req o s) as [[r s'] t]. reflexivity. }
    unfold run in *. rewrite Hsame in Hrun.
    assert (res' = res) by congruence. subst res'.
    split; [rewrite Hst | rewrite Hmsg]; reflexivity.
Qed.

(** An upload that the middleware accepts reaches the route handler,
    with the file as req.file and the text fields as req.body. *)
Lemma api_vision_with_upload (req : Request value) (o : Outside) (s : Server)
    (f : UploadedFile) :
  method req = "POST" ->
  path req = "/analyze" ->
  multipart req = true ->
  upload req = Some f ->
  fieldname f = "image" ->
  Upload.fileFilter f = true ->
  size f < Upload.fileSize ->
  api_vision req o s = analyze (with_file (with_body req (fields req)) f) o s.
Proof.
  intros Hm Hp Hct Hu Hname Hfilter Hsize. unfold multipart in Hct.
  assert (Hup : Upload.conditionalUpload req
                = ret (Next (with_file (with_body req (fields req)) f))).
  { unfold Upload.conditionalUpload, Upload.upload_single. rewrite Hct.
    cbn [upload with_body]. rewrite Hu, Hname, Hfilter.
    change (String.eqb "image" "image") with true. cbn [negb].
    replace (Upload.fileSize <=? size f) with false
      by (symmetry; apply Z.leb_gt; exact Hsize).
    reflexivity. }
  assert (Hmatch : matches {| route_method := "POST"; route_path := "/analyze";
                              route_stack := [respond analyze] |}
                     (with_file (with_body req (fields req)) f) = true).
  { unfold matches. cbn [route_method route_path method path with_file with_body].
    now rewrite Hm, Hp. }
  unfold api_vision, serve. cbn [run_stack]. rewrite Hup.
  unfold router. cbn [dispatch]. unfold bind at 1 2. unfold ret at 1.
  cbn [dispatch]. rewrite Hmatch. cbn [route_stack run_stack].
  unfold respond, bind, ret.
  destruct (analyze _ o s) as [[[res|e] s'] t]; cbn [app]; rewrite ?app_nil_r;
    reflexivity.
Qed.

(** A request that gets as far as the Vision service calls it with the
    features of the request, as they were split. *)
Lemma analyze_calls_vision (req : Request value) (o : Outside) (s : Server)
    (image : Buffer) (features : list string) (language : string) :
  reaches_vision req s image features language ->
  exists rest,
    service_calls (trace (analyze req) o s)
    = VisionAnalyze features language image :: rest.
Proof.
  intros [Himage [Hfeat [Hlang [[Hlo Hhi] [He1 He2]]]]]. unfold analyze.
  rewrite service_calls_try_catch
    by (intros e; unfold getenv; destruct (response e) as [[st data]|]; handler_logs).
  rewrite trace_bind. unfold trace at 1, run at 1, final_state at 1.
  rewrite (read_input_image req o s Himage Hfeat). cbn [fst snd app].
  unfold logger_info at 1. rewrite service_calls_bind_log.
  replace (byteLength image =? 0) with false by (symmetry; apply Z.eqb_neq; lia).
  replace (20 * 1024 * 1024 <? byteLength image) with false
    by (symmetry; apply Z.ltb_ge; lia).
  rewrite !service_calls_bind_getenv, He1, He2. cbn [negb orb].
  rewrite Hlang. unfold lift at 1. rewrite service_calls_bind_ret.
  unfold logger_info at 1. rewrite service_calls_bind_log.
  apply service_calls_bind_await_first. reflexivity.
Qed.

(** C2 (as the code has it): the route POST /api/vision/analyze has its
    own rules for an upload, and they are not those of the validator
    validateImageAnalysisRequest, which the route file imports and never
    mounts. A multipart request with a file part in the field image is
    answered 500, without a call to any service, when the type of the
    file does not start with image/; it is answered 413 'File too
    large', without a call to any service, when the type starts with
    image/ and the file has 10MB (10485760 bytes) or more; and when the
    type starts with image/, the file is smaller than 10MB and not
    empty, the language can be written in a URL and the Vision variables
    are set, the Vision service is called with the features of the
    request split at the commas, whatever they name. *)
Theorem analyze_upload_rules
    (req : Request value) (o : Outside) (s : Server) (f : UploadedFile) :
  method req = "POST" ->
  path req = "/analyze" ->
  multipart req = true ->
  upload req = Some f ->
  fieldname f = "image" ->
  exists res,
    run (api_vision req) o s = Ok res
    /\ (JsString.startsWith (mimetype f) "image/" = false ->
        statusCode res = 500
        /\ service_calls (trace (api_vision req) o s) = [])
    /\ (JsString.startsWith (mimetype f) "image/" = true -> 10485760 <= size f ->
        statusCode res = 413
        /\ oget (jsonBody res) "error" = VStr "File too large"
        /\ service_calls (trace (api_vision req) o s) = [])
    /\ (JsString.startsWith (mimetype f) "image/" = true -> size f < 10485760 ->
        forall features language,
          requested_features (fields req) = Ok features ->
          ToString (or_else (oget (fields req) "language") (VStr "en")) = Ok language ->
          0 < byteLength (buffer f) <= 20 * 1024 * 1024 ->
          env_truthy (VISION_ENDPOINT (process_env s)) = true ->
          env_truthy (VISION_API_KEY (process_env s)) = true ->
          exists rest,
            service_calls (trace (api_vision req) o s)
            = VisionAnalyze features language (buffer f) :: rest).
Proof.
  intros Hm Hp Hct Hu Hname.
  assert (Hup : forall e,
    Upload.conditionalUpload req = ret (NextError e) ->
    api_vision req o s = ErrorHandler.errorHandler e req o s).
  { intros e He. unfold api_vision, serve. cbn [run_stack]. rewrite He.
    unfold bind, ret. cbn [fst snd app].
    destruct (ErrorHandler.errorHandler e req o s) as [[r s'] t]. reflexivity. }
  assert (Hcond : Upload.conditionalUpload req
                  = if negb (Upload.fileFilter f)
                    then ret (NextError (Error "Only image files are allowed!"))
                    else if Upload.fileSize <=? size f
                         then ret (NextError (Upload.MulterError "LIMIT_FILE_SIZE"
                                                "File too large"))
                         else ret (Next (with_file (with_body req (fields req)) f))).
  { unfold Upload.conditionalUpload, Upload.upload_single. unfold multipart in Hct.
    rewrite Hct. cbn [upload with_body]. rewrite Hu, Hname.
    change (String.eqb "image" "image") with true. reflexivity. }
  change (JsString.startsWith (mimetype f) "image/") with (Upload.fileFilter f).
  change 10485760 with Upload.fileSize.
  destruct (Upload.fileFilter f) eqn:Hfilter; cbn [negb] in Hcond.
  - destruct (Upload.fileSize <=? size f) eqn:Hsize.
    + destruct (errorHandler_returns
                  (Upload.MulterError "LIMIT_FILE_SIZE" "File too large") req o s)
        as [res [Hrun [Hst [Hmsg [_ Hcalls]]]]].
      exists res. unfold run, trace in *. rewrite (Hup _ Hcond).
      apply Z.leb_le in Hsize.
      split; [exact Hrun|]. split; [discriminate|].
      split; [intros _ _; split; [exact Hst | split; [exact Hmsg | exact Hcalls]]|].
      intros _ Hlt. lia.
    + apply Z.leb_gt in Hsize.
      destruct (api_vision_total req o s) as [res Hres]. exists res.
      split; [exact Hres|]. split; [discriminate|]. split; [intros _ Hle; lia|].
      intros _ _ features language Hfeat Hlang Hbytes He1 He2.
      unfold trace. rewrite (api_vision_with_upload req o s Hm Hp Hct Hu Hname Hfilter Hsize).
      apply (@analyze_calls_vision (with_file (with_body req (fields req)) f) o s
               (buffer f) features language).
      repeat split; try assumption; try reflexivity; apply Hbytes.
  - destruct (errorHandler_returns (Error "Only image files are allowed!") req o s)
      as [res [Hrun [Hst [_ [_ Hcalls]]]]].
    exists res. unfold run, trace in *. rewrite (Hup _ Hcond).
    split; [exact Hrun|]. split; [intros _; split; [exact Hst | exact Hcalls]|].
    split; intros H; discriminate H.
Qed.

End VisionMore.

(* ================================================================== *)
(** * Further properties: services/enhancedVisionService.js *)
(* ================================================================== *)

Section EnhancedMore.
Import EnhancedVision Spec Props.
Context {rt : Runtime}.

Ltac head_case H :=
  match goal with
  | |- match ?x with Ok _ => _ | Throw _ => _ end = _ -> _ =>
      destruct x eqn:H; [cbv beta iota | discriminate]
  end.

Lemma omap_pure (v : value) (g : value -> value) (r : value) :
  omap v (fun x => Ok (g x)) = Ok r ->
  or_else r (VArr []) = VArr (map g (spread v)).
Proof.
  destruct v; cbn [omap spread]; try discriminate;
    try (intros H; inversion H; reflexivity).
  rewrite mapM_pure. intros H. inversion H. reflexivity.
Qed.

(** X23: what the enhanced path derives from the answer of the model.
    Whenever the answer can be reshaped, the result has one object per
    entry of the answer's objects, one tag per object followed by one
    tag per activity, at most three dominant colors, and a text list
    that is empty or holds the answer's textContent alone; the caption
    and the single detailed caption carry the same confidence, which is
    the answer's when it is not zero or missing and 0.9 otherwise. *)
Theorem reshape_counts (analysisResult usage v : value) :
  reshape analysisResult usage = Ok v ->
  count (oget v "objects") = count (oget analysisResult "objects")
  /\ count (oget v "tags")
     = (count (oget analysisResult "objects")
        + count (oget analysisResult "activities"))%nat
  /\ (count (oget (oget v "color") "dominantColors") <= 3)%nat
  /\ (oget v "text" = VArr []
      \/ oget v "text" = VArr [oget analysisResult "textContent"])
  /\ oget (oget v "caption") "confidence"
     = or_else (oget analysisResult "confidence") (VNum (9 # 10))
  /\ oget (ofirst (oget (oget v "description") "captions")) "confidence"
     = oget (oget v "caption") "confidence"
  /\ truthy (oget (oget v "caption") "confidence") = true.
Proof.
  unfold reshape, rbind.
  head_case Hm. head_case Ho. head_case Hot. head_case Hat. head_case Hc.
  intros H. inversion H; subst; clear H.
  cbn [oget lookup String.eqb Ascii.eqb Bool.eqb ofirst].
  apply omap_pure in Ho, Hot, Hat. rewrite Ho, Hot, Hat.
  unfold count. cbn [spread]. rewrite length_app, !length_map.
  repeat match goal with |- _ /\ _ => split end; try reflexivity.
  - unfold dominantColors in Hc.
    destruct (oget analysisResult "colorsComposition"); try discriminate;
      inversion Hc; subst; unfold or_else; cbn [truthy spread];
      rewrite ?length_map, ?length_firstn; cbn [List.length]; try lia.
    repeat match goal with
           | |- context [match ?l with [] => _ | _ :: _ => _ end] => destruct l
           end; cbn [List.length]; lia.
  - destruct (truthy (oget analysisResult "textContent")); [now right | now left].
  - unfold or_else. destruct (truthy (oget analysisResult "confidence")) eqn:Ht;
      [exact Ht | reflexivity].
Qed.

(** X24: the enhanced analysis reports every failure in one form. An
    error thrown anywhere in it (no client, a failed completion call, an
    answer without choices, content that is not JSON) reaches the caller
    as a plain Error whose message starts with 'Enhanced vision analysis
    failed: ' and ends with the message of the original error; the code
    and the HTTP response of the original error are not passed on. On a
    server without an OpenAI client the function fails in this way
    without calling any service. *)
Theorem enhanced_failures_are_wrapped
    (imageBuffer : Buffer) (mimeType : string) (o : Outside) (s : Server) :
  (forall e, run (analyzeImageWithGPT4o imageBuffer mimeType) o s = Throw e ->
     (exists msg, message e = enhanced_failure ++ msg)
     /\ name e = VStr "Error" /\ code e = VUndef /\ response e = None)
  /\ (openai (azureClients s) = false ->
      run (analyzeImageWithGPT4o imageBuffer mimeType) o s
      = Throw (Error (enhanced_failure ++ "OpenAI client not initialized"))
      /\ service_calls (trace (analyzeImageWithGPT4o imageBuffer mimeType) o s) = []).
Proof.
  split.
  - intros e. unfold analyzeImageWithGPT4o, run, try_catch.
    match goal with
    | |- context [match ?m o s with _ => _ end] => destruct (m o s) as [[[v|e0] s1] t1]
    end; cbn [fst snd]; [discriminate|].
    cbv beta iota delta [bind logger_error emit throw fst snd].
    intros H. inversion H; subst. cbn [message name code response Error].
    split; [now exists (message e0) | repeat split].
  - intros Hc. unfold analyzeImageWithGPT4o.
    cbv beta iota zeta delta [run trace try_catch bind getAzureClients server ret
                                logger_error emit throw fst snd].
    rewrite Hc. cbn [negb fst snd app]. split; reflexivity.
Qed.

End EnhancedMore.

(* ================================================================== *)
(** * Further properties: the upload middleware and blob storage *)
(* ================================================================== *)

Section UploadMore.
Import Express Upload Storage Spec Props.
Context {rt : Runtime}.

(** X25: the upload middleware sets req.file only to a file that came
    in the field image, whose type starts with image/ and whose size is
    below 10MB (10485760 bytes). A request that is not multipart is
    passed on unchanged; on a multipart request that it passes on, the
    middleware has replaced req.body by the object of the text fields,
    and has left the method and the path as they are. The middleware
    itself never answers a request and calls no service. *)
Theorem upload_sets_only_accepted_files
    (req : Request value) (o : Outside) (s : Server) :
  file req = None ->
  exists st,
    run (conditionalUpload req) o s = Ok st
    /\ trace (conditionalUpload req) o s = []
    /\ (forall res, st <> Responded res)
    /\ (multipart req = false -> st = Next req)
    /\ forall req', st = Next req' ->
         path req' = path req /\ method req' = method req
         /\ (multipart req = true -> body req' = fields req)
         /\ (file req' = None
             \/ exists f, file req' = Some f /\ upload req = Some f
                          /\ multipart req = true
                          /\ fieldname f = "image"
                          /\ JsString.startsWith (mimetype f) "image/" = true
                          /\ size f < 10485760).
Proof.
  intros Hnone. unfold conditionalUpload, upload_single, run, trace, multipart.
  destruct (JsString.includes _ _).
  - cbn [upload with_body]. destruct (upload req) as [f|] eqn:Hu.
    + destruct (String.eqb (fieldname f) "image") eqn:Hname; cbn [negb].
      * destruct (fileFilter f) eqn:Hfilter; cbn [negb].
        -- destruct (fileSize <=? size f) eqn:Hsize.
           ++ eexists. split; [reflexivity|]. split; [reflexivity|].
              split; [discriminate|]. split; [discriminate|].
              intros req' H. discriminate H.
           ++ eexists. split; [reflexivity|]. split; [reflexivity|].
              split; [discriminate|]. split; [discriminate|].
              intros req' H. inversion H; subst.
              repeat split. right. exists f. apply String.eqb_eq in Hname.
              apply Z.leb_gt in Hsize. unfold fileSize in Hsize.
              repeat split; try assumption; try reflexivity; try lia.
        -- eexists. split; [reflexivity|]. split; [reflexivity|].
           split; [discriminate|]. split; [discriminate|].
           intros req' H. discriminate H.
      * eexists. split; [reflexivity|]. split; [reflexivity|].
        split; [discriminate|]. split; [discriminate|].
        intros req' H. discriminate H.
    + eexists. split; [reflexivity|]. split; [reflexivity|].
      split; [discriminate|]. split; [discriminate|].
      intros req' H. inversion H; subst.
      repeat split. left. exact Hnone.
  - eexists. split; [reflexivity|]. split; [reflexivity|].
    split; [discriminate|]. split; [reflexivity|].
    intros req' H. inversion H; subst.
    split; [reflexivity|]. split; [reflexivity|]. split; [discriminate|].
    left. exact Hnone.
Qed.

Lemma lower_idempotent (a : ascii) : JsString.lower (JsString.lower a) = JsString.lower a.
Proof.
  destruct a as [[] [] [] [] [] [] [] []]; reflexivity.
Qed.

Lemma toLowerCase_idempotent (e : string) :
  JsString.toLowerCase (JsString.toLowerCase e) = JsString.toLowerCase e.
Proof.
  induction e as [|a e IH]; cbn [JsString.toLowerCase]; [reflexivity|].
  now rewrite lower_idempotent, IH.
Qed.

(** X26: getContentType ignores the case of the extension, and answers
    with the type that its table gives for the extension in lower case,
    or with application/octet-stream for an extension that is not in the
    table. The table covers the five types that the image validator
    allows: each of them is the content type of some extension. (The
    extension is the result of path.extname, empty or starting with a
    dot.) *)
Theorem getContentType_by_extension (extension : string) :
  (extension = EmptyString \/ JsString.startsWith extension "." = true) ->
  getContentType (JsString.toLowerCase extension) = getContentType extension
  /\ (In (JsString.toLowerCase extension, getContentType extension) contentTypes
      \/ (~ In (JsString.toLowerCase extension) (map fst contentTypes)
          /\ getContentType extension = "application/octet-stream"))
  /\ forall t, In t Validation.allowedTypes -> exists ext, getContentType ext = t.
Proof.
  intros _. split; [|split].
  - unfold getContentType. now rewrite toLowerCase_idempotent.
  - unfold getContentType.
    destruct (JsString.assoc (JsString.toLowerCase extension) contentTypes) as [t|] eqn:Ha.
    + left. revert Ha. generalize (JsString.toLowerCase extension). intros k.
      unfold contentTypes. cbn [JsString.assoc In].
      repeat match goal with
             | |- (if String.eqb k ?c then _ else _) = _ -> _ =>
                 destruct (String.eqb k c) eqn:?;
                 [match goal with H : String.eqb k c = true |- _ =>
                    apply String.eqb_eq in H; subst k end;
                  intros H; inversion H; subst; tauto|]
             end.
      discriminate.
    + right. split; [|reflexivity]. intros Hin.
      revert Ha Hin. generalize (JsString.toLowerCase extension). intros k.
      unfold contentTypes. cbn [JsString.assoc In map fst].
      intros Ha Hin.
      repeat (destruct Hin as [<- | Hin]; [discriminate Ha|]). contradiction.
  - intros t Hin. cbn [In Validation.allowedTypes] in Hin.
    destruct Hin as [<- | [<- | [<- | [<- | [<- | []]]]]].
    + now exists ".jpg".
    + now exists ".png".
    + now exists ".gif".
    + now exists ".bmp".
    + now exists ".webp".
Qed.


End UploadMore.

(* ================================================================== *)
(** * Further properties: the health route and the start of the server *)
(* ================================================================== *)

Section HealthMore.
Import Express Health Startup Spec Props.
Context {rt : Runtime}.

Lemma check_quiet (p : Process) (req : Request value) (s : Server) :
  quiet_at s (check p req).
Proof. unfold check. handler_quiet. Qed.

Lemma check_answer (p : Process) (req : Request value) (o : Outside) (s : Server) :
  exists res,
    run (check p req) o s = Ok res
    /\ statusCode res = (if all_clients (azureClients s) then 200 else 503)
    /\ oget (jsonBody res) "status"
       = VStr (if all_clients (azureClients s) then "healthy" else "degraded").
Proof.
  unfold check, all_clients.
  cbv beta iota zeta delta [run try_catch bind getAzureClients server ret now outside
                              logger_warn emit fst snd].
  destruct (azureClients s) as [[] [] [] [] []]; cbn; eexists; repeat split.
Qed.

(** X28: GET /health answers 200 with the status healthy exactly when
    all five clients exist (Vision, Translator, OpenAI, blob storage and
    Key Vault), and 503 with the status degraded as soon as one is
    missing; it never reports unhealthy, calls no service and leaves the
    server state as it was. *)
Theorem health_requires_every_client
    (p : Process) (req : Request value) (o : Outside) (s : Server) :
  exists res,
    run (check p req) o s = Ok res
    /\ (statusCode res = 200 <-> all_clients (azureClients s) = true)
    /\ (statusCode res = 503 <-> all_clients (azureClients s) = false)
    /\ (statusCode res = 200 <-> oget (jsonBody res) "status" = VStr "healthy")
    /\ (statusCode res = 503 <-> oget (jsonBody res) "status" = VStr "degraded")
    /\ service_calls (trace (check p req) o s) = []
    /\ final_state (check p req) o s = s.
Proof.
  destruct (check_answer p req o s) as [res [Hrun [Hst Hbody]]].
  exists res. split; [exact Hrun|]. rewrite Hst, Hbody.
  destruct (all_clients (azureClients s));
    repeat match goal with |- _ /\ _ => split end;
    try (split; intros H; try reflexivity; discriminate H);
    try (apply quiet_calls, check_quiet); apply check_quiet.
Qed.

Ltac startup_case :=
  cbn; repeat match goal with |- _ /\ _ => split end;
  first [ reflexivity
        | solve [repeat constructor]
        | intros; first [discriminate | reflexivity | assumption] ].

Lemma fully_configured_by_client (e : ProcessEnv) :
  fully_configured e
  = (env_truthy (VISION_ENDPOINT e) && env_truthy (VISION_API_KEY e))
    && (env_truthy (TRANSLATOR_API_KEY e)
        && ((env_truthy (OPENAI_ENDPOINT e) && env_truthy (OPENAI_API_KEY e))
            && (env_truthy (STORAGE_CONNECTION_STRING e)
                && env_truthy (KEY_VAULT_URL e)))).
Proof. unfold fully_configured. now rewrite <- !andb_assoc. Qed.

(** What [initializeAzureClients] leaves behind on a server without
    clients: only clients whose variables are set, and all of these
    when it returns. *)
Lemma initialize_clients (sdk : Sdk) (o : Outside) (s0 : Server) :
  fresh s0 ->
  let e := process_env s0 in
  let s1 := final_state (initializeAzureClients sdk) o s0 in
  process_env s1 = e
  /\ Forall log_line (trace (initializeAzureClients sdk) o s0)
  /\ (all_clients (azureClients s1) = true -> fully_configured e = true)
  /\ (translator (azureClients s1) = true -> env_truthy (TRANSLATOR_API_KEY e) = true)
  /\ (openai (azureClients s1) = true ->
      env_truthy (OPENAI_ENDPOINT e) && env_truthy (OPENAI_API_KEY e) = true)
  /\ (run (initializeAzureClients sdk) o s0 = Ok tt ->
      fully_configured e = true -> all_clients (azureClients s1) = true).
Proof.
  intros Hfresh. destruct s0 as [env clients]. unfold fresh in Hfresh.
  cbn [azureClients] in Hfresh. subst clients. cbv zeta. cbn [process_env].
  rewrite fully_configured_by_client. unfold all_clients.
  unfold initializeAzureClients, construct, set_client.
  cbv beta iota zeta delta [final_state run trace try_catch bind server set_server ret
                              throw logger_info logger_error emit fst snd process_env
                              azureClients].
  destruct (DefaultAzureCredential sdk); [|startup_case].
  cbv beta iota.
  generalize (env_truthy (VISION_ENDPOINT env) && env_truthy (VISION_API_KEY env)).
  generalize (env_truthy (OPENAI_ENDPOINT env) && env_truthy (OPENAI_API_KEY env)).
  generalize (env_truthy (TRANSLATOR_API_KEY env)).
  generalize (env_truthy (STORAGE_CONNECTION_STRING env)).
  generalize (env_truthy (KEY_VAULT_URL env)).
  intros c5 c4 c2 c3 c1.
  destruct c1; [destruct (ComputerVisionClient sdk _ _); [|startup_case]|];
    (destruct c2; [destruct (TextTranslationClient sdk _); [|startup_case]|];
     (destruct c3; [destruct (OpenAI sdk _ _); [|startup_case]|];
      (destruct c4;
       [destruct (BlobServiceClient_fromConnectionString sdk _); [|startup_case]|];
       (destruct c5; [destruct (SecretClient sdk _)|]; startup_case)))).
Qed.

(** X29: what the start of the server makes of the environment. Run on
    a server without clients, initializeAzureClients calls no service and
    leaves the environment as it is, whether it returns or throws the
    error of a client constructor. Afterwards GET /health answers 200
    only if the seven variables VISION_ENDPOINT, VISION_API_KEY,
    TRANSLATOR_API_KEY, OPENAI_ENDPOINT, OPENAI_API_KEY,
    STORAGE_CONNECTION_STRING and KEY_VAULT_URL are all set, and it does
    answer 200 when they are set and the initialisation has returned; no
    request to the translation router reaches a service when
    TRANSLATOR_API_KEY is not set, and no request to the chat router
    does when OPENAI_ENDPOINT or OPENAI_API_KEY is not set. *)
Theorem startup_follows_environment (sdk : Sdk) (o : Outside) (s0 : Server) :
  fresh s0 ->
  let s1 := final_state (initializeAzureClients sdk) o s0 in
  process_env s1 = process_env s0
  /\ service_calls (trace (initializeAzureClients sdk) o s0) = []
  /\ (forall p req o',
        exists res,
          run (check p req) o' s1 = Ok res
          /\ (statusCode res = 200 -> fully_configured (process_env s0) = true)
          /\ (run (initializeAzureClients sdk) o s0 = Ok tt ->
              fully_configured (process_env s0) = true -> statusCode res = 200))
  /\ (env_truthy (TRANSLATOR_API_KEY (process_env s0)) = false ->
      forall req o', service_calls (trace (Translation.api_translation req) o' s1) = [])
  /\ (env_truthy (OPENAI_ENDPOINT (process_env s0))
      && env_truthy (OPENAI_API_KEY (process_env s0)) = false ->
      forall req o', service_calls (trace (Chat.api_chat req) o' s1) = []).
Proof.
  intros Hfresh s1.
  destruct (initialize_clients sdk o Hfresh) as [Henv [Hlog [Hall [Htr [Hop Hok]]]]].
  cbv zeta in *. fold s1 in Henv, Hall, Htr, Hop, Hok.
  split; [exact Henv|]. split; [now apply service_calls_logs|]. split; [|split].
  - intros p req o'.
    destruct (check_answer p req o' s1) as [res [Hrun [Hst _]]].
    exists res. split; [exact Hrun|]. rewrite Hst. split.
    + intros H200. apply Hall.
      destruct (all_clients (azureClients s1)); [reflexivity | discriminate H200].
    + intros Hinit Hconf. now rewrite (Hok Hinit Hconf).
  - intros Hc req o'. apply quiet_calls, api_translation_quiet.
    destruct (translator (azureClients s1)); [|reflexivity].
    rewrite (Htr eq_refl) in Hc. discriminate Hc.
  - intros Hc req o'. apply quiet_calls, api_chat_quiet.
    destruct (openai (azureClients s1)); [|reflexivity].
    rewrite (Hop eq_refl) in Hc. discriminate Hc.
Qed.

End HealthMore.

(* ================================================================== *)
(** * Further properties: the checks of POST /batch *)
(* ================================================================== *)

Section BatchMore.
Import Express Translation Spec Props.

(** X30: POST /batch checks its input itself, in this order: a texts
    field that is not an array or is empty is answered 400 'Invalid
    texts parameter'; then a missing targetLanguage 400 'Missing
    targetLanguage parameter'; then more than 100 texts 400 'Too many
    texts'. A request that passes the three checks is answered 503 on a
    server without a Translator client and 500 'Batch translation
    failed' on a server with one, because the handler calls
    translator.translate, a method that the REST client created in
    config/azure.js does not have: no request to POST /batch reaches the
    Translator service. *)
Theorem batch_checks_before_calling (req : Request value) (o : Outside) (s : Server) :
  let texts := batch_texts (body req) in
  let targetLanguage := oget (body req) "targetLanguage" in
  (texts = [] -> refused_with "Invalid texts parameter" (batch req) o s)
  /\ (texts <> [] -> truthy targetLanguage = false ->
      refused_with "Missing targetLanguage parameter" (batch req) o s)
  /\ (truthy targetLanguage = true -> (100 < List.length texts)%nat ->
      refused_with "Too many texts" (batch req) o s)
  /\ (texts <> [] -> truthy targetLanguage = true -> (List.length texts <= 100)%nat ->
      exists res,
        run (batch req) o s = Ok res
        /\ statusCode res = (if translator (azureClients s) then 500 else 503)
        /\ oget (jsonBody res) "error"
           = VStr (if translator (azureClients s)
                   then "Batch translation failed"
                   else "Translation service unavailable"))
  /\ service_calls (trace (batch req) o s) = [].
Proof.
  cbv zeta. unfold batch_texts, refused_with, batch, translator_translate. cbv zeta.
  cbv beta iota zeta delta [run trace try_catch bind getAzureClients getenv server ret
                              logger_info logger_error emit throw fst snd].
  destruct (oget (body req) "texts") as [| | | | |[|t ts]|] eqn:Htexts;
    try (repeat match goal with |- _ /\ _ => split end;
         try reflexivity;
         try (intros _; eexists; repeat split; reflexivity);
         try (intros Hn; now contradiction Hn);
         intros _ Hlen; cbn [List.length] in Hlen; lia).
  set (texts := t :: ts).
  destruct (truthy (oget (body req) "targetLanguage")) eqn:Hg; cbn [negb].
  - destruct (100 <? Z.of_nat (List.length texts)) eqn:Hlen.
    + apply Z.ltb_lt in Hlen.
      repeat match goal with |- _ /\ _ => split end; try reflexivity.
      * discriminate.
      * intros _ H. discriminate H.
      * intros _ _. eexists. repeat split; reflexivity.
      * intros _ _ Hle. lia.
    + apply Z.ltb_ge in Hlen.
      destruct (translator (azureClients s)); cbn [negb];
        (repeat match goal with |- _ /\ _ => split end; try reflexivity;
         [discriminate | intros _ H; discriminate H | intros _ Hgt; lia
         | intros _ _ _; eexists; repeat split; reflexivity]).
  - repeat match goal with |- _ /\ _ => split end; try reflexivity.
    + discriminate.
    + intros _ _. eexists. repeat split; reflexivity.
    + intros H. discriminate H.
    + intros _ H. discriminate H.
Qed.

End BatchMore.

(* ================================================================== *)
(** * The further properties on concrete requests *)
(* ================================================================== *)

(** An 'Unauthorized' error answered in production: the body has the
    four base fields only. *)
Lemma errorHandler_exposes_details_only_in_development_witness :
  exists res,
    run (ErrorHandler.errorHandler Samples.unauthorized
           (Samples.get_request "/api/translation" "/languages"))
        Samples.world Samples.configured = Ok res
    /\ keys (jsonBody res) = ["error"; "status"; "timestamp"; "path"].
Proof.
  destruct (errorHandler_exposes_details_only_in_development Samples.unauthorized
              (Samples.get_request "/api/translation" "/languages")
              Samples.world Samples.configured)
    as [res [Hrun [_ [_ [_ Hkeys]]]]].
  exists res. split; [exact Hrun | exact (Hkeys eq_refl)].
Defined.

(** The features 'Caption, Tags' pass the validator. *)
Lemma features_validated_entrywise_witness :
  run (Validation.validateImageAnalysisRequest MoreSamples.features_request)
      Samples.world Samples.configured
  = Ok (Next MoreSamples.features_request).
Proof.
  refine (proj1 (features_validated_entrywise MoreSamples.features_request
                   Samples.world Samples.configured (s := "Caption, Tags")
                   eq_refl eq_refl eq_refl eq_refl _) _).
  - intros k Hk. cbn in Hk. destruct Hk as [<- | []]. cbn. tauto.
  - split; [discriminate|]. unfold Props.names_valid_features.
    cbn. repeat constructor; cbn; tauto.
Defined.

(** A base64 request has the key image, which the validator does not
    know. *)
Lemma analysis_validator_refuses_unknown_keys_witness :
  exists step,
    run (Validation.validateImageAnalysisRequest Samples.base64_request)
        Samples.world Samples.configured = Ok step
    /\ Props.validation_failed step.
Proof.
  apply (analysis_validator_refuses_unknown_keys Samples.base64_request
           Samples.world Samples.configured (k := "image")).
  - cbn. tauto.
  - cbn. intros [H | [H | [H | []]]]; discriminate H.
Defined.

(** An uploaded PNG of four bytes passes the file check. *)
Lemma analysis_validator_checks_file_witness :
  run (Validation.validateImageAnalysisRequest MoreSamples.uploaded_request)
      Samples.world Samples.configured
  = Ok (Next MoreSamples.uploaded_request).
Proof.
  refine (proj1 (analysis_validator_checks_file MoreSamples.uploaded_request
                   Samples.world Samples.configured (f := MoreSamples.png)
                   eq_refl eq_refl) _).
  split; [cbn; lia | cbn; tauto].
Defined.

(** A well-formed translation request passes the validator. *)
Lemma translation_validator_accepts_witness :
  run (Validation.validateTranslationRequest MoreSamples.translate_request)
      Samples.world Samples.configured
  = Ok (Next MoreSamples.translate_request).
Proof.
  apply (proj1 (translation_validator_accepts MoreSamples.translate_request
                  Samples.world Samples.configured)).
  unfold Props.valid_translation_body. cbn [body MoreSamples.translate_request Samples.post].
  split; [exists "Hello"; split; [reflexivity | cbn; lia]|].
  split; [exists "fr"; split; [reflexivity | cbn; tauto]|].
  split; [right; exists "en"; split; [reflexivity | cbn; tauto]|].
  intros k Hk. cbn in Hk. cbn. tauto.
Defined.

(** The request from English to French makes one call, with the source
    language en. *)
Lemma valid_translation_calls_service_once_witness :
  service_calls
    (trace (Translation.api_translation MoreSamples.translate_request)
           Samples.world Samples.configured)
  = [TranslatorTranslate (VStr "Hello") (VStr "fr") (Some (VStr "en"))].
Proof.
  destruct (valid_translation_calls_service_once MoreSamples.translate_request
              Samples.world Samples.configured eq_refl eq_refl)
    as [from [Hcalls [_ Hfrom]]].
  - unfold Props.valid_translation_body.
    cbn [body MoreSamples.translate_request Samples.post].
    split; [exists "Hello"; split; [reflexivity | cbn; lia]|].
    split; [exists "fr"; split; [reflexivity | cbn; tauto]|].
    split; [right; exists "en"; split; [reflexivity | cbn; tauto]|].
    intros k Hk. cbn in Hk. cbn. tauto.
  - reflexivity.
  - rewrite Hcalls. rewrite (Hfrom "en" eq_refl); [reflexivity | discriminate].
Defined.

(** The same request on a server without clients. *)
Lemma translation_needs_client_witness :
  service_calls
    (trace (Translation.api_translation MoreSamples.translate_request)
           Samples.world Samples.unconfigured) = [].
Proof.
  exact (proj1 (translation_needs_client MoreSamples.translate_request
                  Samples.world Samples.unconfigured eq_refl)).
Defined.

(** The code fr has the name French, which GET /languages lists too. *)
Lemma getLanguageName_agrees_with_tables_witness :
  exists n, Translation.getLanguageName (VStr "fr") = VStr n
            /\ n <> EmptyString
            /\ oget (oget Translation.languagesResponse "supportedLanguages") "fr" = VStr n.
Proof.
  apply (proj1 (getLanguageName_agrees_with_tables "fr")). cbn. tauto.
Defined.

(** The answer to the request from English to French. *)
Lemma translate_answer_is_complete_witness :
  truthy (oget (jsonBody (MoreSamples.answer_of
                            (Translation.translate MoreSamples.translate_request)
                            Samples.world Samples.configured)) "translatedText") = true.
Proof.
  exact (proj1 (proj2 (proj2 (proj2
           (translate_answer_is_complete MoreSamples.translate_request
              Samples.world Samples.configured
              (res := MoreSamples.answer_of
                        (Translation.translate MoreSamples.translate_request)
                        Samples.world Samples.configured)
              eq_refl eq_refl))))).
Defined.

(** A batch of one text on a server with a Translator client: the
    three checks pass and the answer is 500. *)
Lemma batch_checks_before_calling_witness :
  exists res,
    run (Translation.batch MoreSamples.batch_request) Samples.world Samples.configured
    = Ok res
    /\ statusCode res = 500
    /\ oget (jsonBody res) "error" = VStr "Batch translation failed".
Proof.
  pose proof (batch_checks_before_calling MoreSamples.batch_request
                Samples.world Samples.configured) as H.
  cbv zeta in H. destruct H as [_ [_ [_ [H _]]]].
  destruct H as [res [Hrun [Hst Herr]]];
    [discriminate | reflexivity | cbn; lia |].
  exists res. split; [exact Hrun|]. split; [exact Hst | exact Herr].
Defined.

(** A history of two messages: four messages are sent, one of them with
    the role system. *)
Lemma chat_history_cannot_speak_as_system_witness :
  List.length
    (Chat.buildMessages (rt := Samples.runtime) "Who is at the door?" Samples.crowded
       (Spec.from_option (Chat.conversationHistory (body Samples.chat_request)))) = 4%nat
  /\ Props.system_messages
       (Chat.buildMessages (rt := Samples.runtime) "Who is at the door?" Samples.crowded
          (Spec.from_option (Chat.conversationHistory (body Samples.chat_request)))) = 1%nat.
Proof.
  destruct (chat_history_cannot_speak_as_system (rt := Samples.runtime)
              "Who is at the door?" Samples.crowded
              (Spec.from_option (Chat.conversationHistory (body Samples.chat_request))))
    as [Hlen [Hsys _]].
  split; [exact Hlen | exact Hsys].
Defined.

(** A chat question on a server without clients. *)
Lemma chat_needs_client_witness :
  service_calls
    (trace (Chat.api_chat (rt := Samples.runtime) Samples.chat_request)
           Samples.world Samples.unconfigured) = [].
Proof.
  exact (proj1 (chat_needs_client (rt := Samples.runtime) Samples.chat_request
                  Samples.world Samples.unconfigured eq_refl)).
Defined.

(** A used-up quota is answered with 429. *)
Lemma chat_failure_status_witness :
  exists res,
    run (Chat.analyze (rt := Samples.runtime) Samples.chat_request)
        MoreSamples.failing_world Samples.configured = Ok res
    /\ statusCode res = 429.
Proof.
  destruct (chat_failure_status (rt := Samples.runtime) Samples.chat_request
              MoreSamples.failing_world Samples.configured
              (q := "Who is at the door?") (r := Samples.crowded)
              (e := MoreSamples.quota_error) eq_refl)
    as [res [Hrun [_ [H429 _]]]]; try reflexivity; try discriminate.
  exists res. split; [exact Hrun | exact (proj1 (H429 eq_refl))].
Defined.

(** The answer to a chat question. *)
Lemma chat_answer_is_complete_witness :
  truthy (oget (jsonBody (MoreSamples.answer_of
                            (Chat.analyze (rt := Samples.runtime) Samples.chat_request)
                            Samples.world Samples.configured)) "answer") = true.
Proof.
  exact (proj2 (chat_answer_is_complete (rt := Samples.runtime) Samples.chat_request
                  Samples.world Samples.configured
                  (res := MoreSamples.answer_of
                            (Chat.analyze (rt := Samples.runtime) Samples.chat_request)
                            Samples.world Samples.configured)
                  eq_refl eq_refl)).
Defined.

(** Enhanced results with a description and a mood: four questions. *)
Lemma enhanced_suggestions_count_witness :
  List.length (Chat.generateQuestionSuggestions MoreSamples.enhanced_results) = 4%nat.
Proof.
  exact (proj1 (enhanced_suggestions_count MoreSamples.enhanced_results
                  (a := MoreSamples.enhanced_analysis) eq_refl)).
Defined.

(** The answer built from a result with a caption, objects and tags. *)
Lemma classic_answer_layout_witness :
  Spec.conforms Props.classic_format
    (MoreSamples.value_of
       (Vision.analysisResponse (rt := Samples.runtime) "2025-01-01T00:00:00.000Z" VNull
          Samples.vision_answer)) = true.
Proof.
  exact (proj1 (proj2 (proj2
           (classic_answer_layout (rt := Samples.runtime) "2025-01-01T00:00:00.000Z" VNull
              Samples.vision_answer
              (v := MoreSamples.value_of
                      (Vision.analysisResponse (rt := Samples.runtime)
                         "2025-01-01T00:00:00.000Z" VNull Samples.vision_answer))
              eq_refl)))).
Defined.

(** A base64 request on a server without configuration. *)
Lemma vision_needs_configuration_witness :
  service_calls
    (trace (Vision.api_vision (rt := Samples.runtime) Samples.base64_request)
           Samples.world Samples.unconfigured) = [].
Proof.
  exact (proj1 (@vision_needs_configuration Samples.runtime Samples.base64_request
                  Samples.world Samples.unconfigured eq_refl eq_refl eq_refl)).
Defined.

(** A 401 of the Vision service is answered with 401. *)
Lemma vision_failure_forwards_status_witness :
  exists res,
    run (Vision.analyze (rt := Samples.runtime) MoreSamples.uploaded_request)
        MoreSamples.failing_world Samples.configured = Ok res
    /\ statusCode res = 401.
Proof.
  destruct (@vision_failure_forwards_status Samples.runtime
              MoreSamples.uploaded_request MoreSamples.failing_world Samples.configured
              Samples.image_bytes ["Caption"] "en" MoreSamples.denied_error)
    as [res [Hrun [Hst _]]].
  - unfold Props.reaches_vision. repeat split; try reflexivity; cbn; lia.
  - reflexivity.
  - exists res. split; [exact Hrun | exact Hst].
Defined.

(** An analysis of an image sent as base64: there is no file to
    upload. *)
Lemma analysis_survives_upload_failure_witness :
  exists v,
    run (Vision.analyze (rt := Samples.runtime) Samples.base64_request)
        Samples.world Samples.configured = Ok (res_json v)
    /\ oget v "imageUrl" = VNull.
Proof.
  exists (MoreSamples.value_of
            (Vision.analysisResponse (rt := Samples.runtime) "2025-01-01T00:00:00.000Z"
               VNull Samples.vision_answer)).
  destruct (@analysis_survives_upload_failure Samples.runtime
              Samples.base64_request Samples.world Samples.configured
              (Samples.decode_base64 "aGk=" 0 0) Vision.defaultFeatures "en"
              Samples.vision_answer
              (MoreSamples.value_of
                 (Vision.analysisResponse (rt := Samples.runtime)
                    "2025-01-01T00:00:00.000Z" VNull Samples.vision_answer)))
    as [Hrun [_ Hurl]].
  - unfold Props.reaches_vision.
    repeat split; try reflexivity; try (vm_compute; reflexivity);
      vm_compute; intros H; discriminate H.
  - reflexivity.
  - reflexivity.
  - reflexivity.
  - left. reflexivity.
  - split; [exact Hrun | exact Hurl].
Defined.

(** An upload of four bytes is not answered 'Image too large'. *)
Lemma upload_never_too_large_witness :
  oget (jsonBody (MoreSamples.answer_of
                    (Vision.api_vision (rt := Samples.runtime)
                       (Samples.multipart_request "image/png" "Caption"))
                    Samples.world Samples.configured)) "error"
  <> VStr "Image too large".
Proof.
  exact (proj1 (@upload_never_too_large Samples.runtime
                  (Samples.multipart_request "image/png" "Caption")
                  Samples.world Samples.configured
                  MoreSamples.png
                  (MoreSamples.answer_of
                     (Vision.api_vision (rt := Samples.runtime)
                        (Samples.multipart_request "image/png" "Caption"))
                     Samples.world Samples.configured)
                  eq_refl eq_refl eq_refl eq_refl eq_refl eq_refl)).
Defined.

(** The answer of the model of [Samples]: two objects and one activity
    give three tags. *)
Lemma reshape_counts_witness :
  Props.count
    (oget (MoreSamples.value_of
             (EnhancedVision.reshape Samples.model_answer (VObj []))) "tags") = 3%nat.
Proof.
  exact (proj1 (proj2
           (@reshape_counts Samples.model_answer (VObj [])
              (MoreSamples.value_of (EnhancedVision.reshape Samples.model_answer (VObj [])))
              eq_refl))).
Defined.

(** The enhanced analysis on a server without clients. *)
Lemma enhanced_failures_are_wrapped_witness :
  run (EnhancedVision.analyzeImageWithGPT4o (rt := Samples.runtime)
         Samples.image_bytes "image/png")
      Samples.world Samples.unconfigured
  = Throw (Error "Enhanced vision analysis failed: OpenAI client not initialized").
Proof.
  exact (proj1 (proj2 (@enhanced_failures_are_wrapped Samples.runtime
                         Samples.image_bytes "image/png"
                         Samples.world Samples.unconfigured) eq_refl)).
Defined.

(** The upload middleware on a multipart request with a PNG: the
    request is passed on with the text fields as its body. *)
Lemma upload_sets_only_accepted_files_witness :
  exists st,
    run (Upload.conditionalUpload (Samples.multipart_request "image/png" "Caption"))
        Samples.world Samples.configured = Ok st
    /\ forall req', st = Next req' -> body req' = VObj [("features", VStr "Caption")].
Proof.
  destruct (@upload_sets_only_accepted_files
              (Samples.multipart_request "image/png" "Caption")
              Samples.world Samples.configured eq_refl)
    as [st [Hrun [_ [_ [_ Hnext]]]]].
  exists st. split; [exact Hrun|].
  intros req' Hst. exact (proj1 (proj2 (proj2 (Hnext req' Hst))) eq_refl).
Defined.

(** The extension .PNG has the content type of .png. *)
Lemma getContentType_by_extension_witness :
  Storage.getContentType (JsString.toLowerCase ".PNG") = Storage.getContentType ".PNG".
Proof.
  exact (proj1 (@getContentType_by_extension ".PNG" (or_intror eq_refl))).
Defined.


(** A server with every client but the Key Vault one is reported
    degraded. *)
Lemma health_requires_every_client_witness :
  exists res,
    run (Health.check (rt := Samples.runtime) MoreSamples.process
           (Samples.get_request "/health" "/"))
        Samples.world Samples.configured = Ok res
    /\ statusCode res = 503.
Proof.
  destruct (@health_requires_every_client Samples.runtime MoreSamples.process
              (Samples.get_request "/health" "/") Samples.world Samples.configured)
    as [res [Hrun [_ [H503 _]]]].
  exists res. split; [exact Hrun | exact (proj2 H503 eq_refl)].
Defined.

(** A server started without any variable set: the translation router
    reaches no service. *)
Lemma startup_follows_environment_witness :
  service_calls
    (trace (Translation.api_translation MoreSamples.translate_request) Samples.world
           (final_state (initializeAzureClients MoreSamples.sdk) Samples.world
              Samples.unconfigured)) = [].
Proof.
  exact (proj1 (proj2 (proj2 (proj2
           (@startup_follows_environment Samples.runtime MoreSamples.sdk Samples.world
              Samples.unconfigured eq_refl)))) eq_refl
           MoreSamples.translate_request Samples.world).
Defined.

(** An upload that asks for the feature Foo, on a server with the
    Vision variables set: the Vision service is called with it. *)
Lemma analyze_upload_rules_witness :
  exists rest,
    service_calls
      (trace (Vision.api_vision (rt := Samples.runtime)
                (Samples.multipart_request "image/png" "Foo"))
             Samples.world Samples.configured)
    = VisionAnalyze ["Foo"] "en" Samples.image_bytes :: rest.
Proof.
  destruct (@analyze_upload_rules Samples.runtime
              (Samples.multipart_request "image/png" "Foo")
              Samples.world Samples.configured MoreSamples.png
              eq_refl eq_refl eq_refl eq_refl eq_refl)
    as [res [_ [_ [_ Hcall]]]].
  apply (Hcall eq_refl) with (language := "en"); try reflexivity; cbn; lia.
Defined.

(** C2, counterexample: a multipart upload that asks for the feature
    Foo, which is none of the seven features, is sent on to the Vision
    service with that feature, and so is an upload of type image/tiff,
    which is none of the five types; the validator that would refuse
    the first with 400 is not part of the route. *)
Lemma unlisted_input_reaches_vision :
  (~ Props.names_valid_features "Foo"
   /\ exists rest,
        service_calls
          (trace (Vision.api_vision (rt := Samples.runtime)
                    (Samples.multipart_request "image/png" "Foo"))
                 Samples.world Samples.configured)
        = VisionAnalyze ["Foo"] "en" Samples.image_bytes :: rest)
  /\ (~ In "image/tiff" Validation.allowedTypes
      /\ exists rest,
           service_calls
             (trace (Vision.api_vision (rt := Samples.runtime)
                       (Samples.multipart_request "image/tiff" "Caption"))
                    Samples.world Samples.configured)
           = VisionAnalyze ["Caption"] "en" Samples.image_bytes :: rest)
  /\ exists res,
       run (Validation.validateImageAnalysisRequest
              (let req := Samples.multipart_request "image/png" "Foo" in
               with_file (with_body req (fields req)) MoreSamples.png))
           Samples.world Samples.configured = Ok (Responded res)
       /\ statusCode res = 400.
Proof.
  split; [|split].
  - split.
    + unfold Props.names_valid_features. intros H. inversion H as [|x l Hin _]; subst.
      cbn in Hin. repeat (destruct Hin as [Hin | Hin]; [discriminate Hin|]).
      contradiction.
    + eexists. vm_compute. reflexivity.
  - split.
    + cbn. intros H. repeat (destruct H as [H | H]; [discriminate H|]). contradiction.
    + eexists. vm_compute. reflexivity.
  - eexists. split; [vm_compute; reflexivity | reflexivity].
Qed.
